(** * Position reconciliation and execution loop of [app.py]

    A shallow embedding of the trading loop of [src/app.py]: the market
    snapshot ([get_btc_ohlcv]), the position oracle ([get_current_position]),
    the signal generator ([analyze_with_deepseek]), the executor
    ([create_market_order_safe], [execute_trade]), one iteration of
    [trading_bot], the trade counters and the accuracy rate of
    [get_signal_accuracy] and the drawdown statistics of [get_equity_curve];
    and of two parts of the web process: the request throttle ([rate_limit])
    and the configuration file with its handler ([load_bot_config],
    [save_bot_config], [update_config]).

    Conventions of the embedding:
    - Python floats are idealised as rationals ([Q]); a quotient whose divisor
      is zero is kept apart (an exception for Python floats, a value that is
      not a finite number for pandas/numpy scalars);
    - JSON payloads of the two collaborators are values of [pyval]; the
      bodies of requests to the configuration handler and the configuration
      file are values of [Web.jval], which has NaN and the infinities that
      [json.loads] accepts as well;
    - a Python exception is the [Raise] outcome of [result]; [try/except
      Exception] is [catch];
    - module-level globals and the files the loop writes are fields of
      [world], threaded explicitly by the [prog] monad; the throttle table
      and the state of the configuration handler are passed and returned. *)

From Stdlib Require Import ZArith QArith Qabs List String Ascii Bool Lia Lqa.
Import ListNotations.

Set Implicit Arguments.
Set Warnings "-register-all".

(** ** Python values and exceptions *)

Inductive pyval : Type :=
| PNone
| PBool (b : bool)
| PNum (q : Q)
| PStr (s : string)
| PList (l : list pyval)
| PDict (d : list (string * pyval)).

(** The exceptions the loop can meet; all derive from [Exception].
    [ApiError] is the source's own [raise Exception(...)]; [BadPayload]
    stands for the [TypeError], [AttributeError] or [IndexError] that a
    payload of an unexpected shape provokes. *)
Inductive exn : Type :=
| ApiError
| KeyError (key : string)
| ValueError
| ZeroDivisionError
| BadPayload.

Inductive result (A : Type) : Type :=
| Ok (a : A)
| Raise (e : exn).

Arguments Ok {A} a.
Arguments Raise {A} e.

Class Monad (m : Type -> Type) : Type :=
  { ret : forall {A}, A -> m A;
    bind : forall {A B}, m A -> (A -> m B) -> m B }.

Declare Scope prog_scope.
Delimit Scope prog_scope with prog.

Notation "x <- c1 ;; c2" := (bind c1 (fun x => c2))
  (at level 100, c1 at next level, right associativity) : prog_scope.
Notation "c1 ;;; c2" := (bind c1 (fun _ => c2))
  (at level 100, right associativity) : prog_scope.

Open Scope prog_scope.

#[export] Instance result_monad : Monad result :=
  { ret := fun A a => Ok a;
    bind := fun A B c k => match c with Ok a => k a | Raise e => Raise e end }.

(** [try: c except Exception: return None], for a body that is pure. *)
Definition try_or_none {A : Type} (c : result A) : option A :=
  match c with Ok a => Some a | Raise _ => None end.

Module Py.

Open Scope string_scope.

Fixpoint lookup (k : string) (d : list (string * pyval)) : option pyval :=
  match d with
  | [] => None
  | (k', v) :: rest => if String.eqb k k' then Some v else lookup k rest
  end.

(** [bool(v)] *)
Definition truthy (v : pyval) : bool :=
  match v with
  | PNone => false
  | PBool b => b
  | PNum q => negb (Qeq_bool q 0)
  | PStr s => negb (String.eqb s EmptyString)
  | PList l => match l with [] => false | _ :: _ => true end
  | PDict d => match d with [] => false | _ :: _ => true end
  end.

(** [a or b] *)
Definition or_ (a b : pyval) : pyval := if truthy a then a else b.

(** [v is not None] *)
Definition is_not_none (v : pyval) : bool :=
  match v with PNone => false | _ => true end.

(** [v == s] for a string literal [s] *)
Definition eq_str (v : pyval) (s : string) : bool :=
  match v with PStr s' => String.eqb s' s | _ => false end.

(** [v.get(k)] *)
Definition get (v : pyval) (k : string) : result pyval :=
  match v with
  | PDict d => Ok (match lookup k d with Some x => x | None => PNone end)
  | _ => Raise BadPayload
  end.

(** [v.get(k, dflt)] *)
Definition get_default (v : pyval) (k : string) (dflt : pyval) : result pyval :=
  match v with
  | PDict d => Ok (match lookup k d with Some x => x | None => dflt end)
  | _ => Raise BadPayload
  end.

(** [v[k]] for a string key *)
Definition item (v : pyval) (k : string) : result pyval :=
  match v with
  | PDict d => match lookup k d with Some x => Ok x | None => Raise (KeyError k) end
  | _ => Raise BadPayload
  end.

Fixpoint chars (s : string) : list pyval :=
  match s with
  | EmptyString => []
  | String c rest => PStr (String c EmptyString) :: chars rest
  end.

(** The elements a [for] loop over [v] visits. *)
Definition iter (v : pyval) : result (list pyval) :=
  match v with
  | PList l => Ok l
  | PStr s => Ok (chars s)
  | PDict d => Ok (map (fun kv => PStr (fst kv)) d)
  | _ => Raise BadPayload
  end.

(** [v[i]] for a non-negative index *)
Definition index (v : pyval) (i : nat) : result pyval :=
  match v with
  | PList l => match nth_error l i with Some x => Ok x | None => Raise BadPayload end
  | PStr s => match nth_error (chars s) i with Some x => Ok x | None => Raise BadPayload end
  | PDict _ => Raise (KeyError EmptyString)
  | _ => Raise BadPayload
  end.

(** [d[k] = v] on a dict: the key keeps its place when present. *)
Fixpoint set_item (d : list (string * pyval)) (k : string) (v : pyval)
  : list (string * pyval) :=
  match d with
  | [] => [(k, v)]
  | (k', v') :: rest =>
      if String.eqb k k' then (k', v) :: rest else (k', v') :: set_item rest k v
  end.

End Py.

Definition Qlt_bool (a b : Q) : bool := negb (Qle_bool b a).

(** ** Configuration, orders and the exchange collaborator *)

(** [trading_config], the fields the loop reads. *)
Record trading_config : Type :=
  { amount : Q;
    leverage : Q;
    timeframe : string;
    test_mode : bool;
    base_usdt_amount : Q;
    refresh_interval : Q }.

Inductive order_side : Type := Buy | Sell.

(** The [params] of one [private_post_trade_order] call.  [sz] is the number
    whose [str] the source sends; [reduceOnly] is [true] when the key is set. *)
Record order_params : Type :=
  { instId : string;
    tdMode : string;
    side : order_side;
    ordType : string;
    sz : Q;
    tag : string;
    reduceOnly : bool }.

(** The REST client.  A reply may depend on the orders submitted so far
    (oldest first); [Raise] is a transport failure. *)
Record exchange : Type :=
  { public_get_market_candles : list order_params -> result pyval;
    private_get_account_positions : list order_params -> result pyval;
    private_get_account_balance : list order_params -> result pyval;
    private_post_trade_order : list order_params -> order_params -> result pyval }.

(** ** What the position oracle returns *)

Inductive position_side : Type := Long | Short.

Record position_state : Type :=
  { pos_side : position_side;
    size : Q;
    entry_price : Q;
    mark_price : Q;
    unrealized_pnl : Q;
    position_amt : Q;
    symbol : string;
    pos_leverage : Q;
    initial_margin : Q;
    maint_margin : Q;
    maint_margin_ratio : Q;
    liquidation_price : Q;
    pos_total_balance : Q;
    pos_free_balance : Q }.

(** The two dicts [get_current_position] builds; Python's [None] is the
    [None] of [option position_info]. *)
Inductive position_info : Type :=
| AccountInfoOnly (total_balance free_balance : Q)
| OpenPosition (p : position_state).

(** [current_position['side']]: the account-only dict has no such key. *)
Definition position_item_side (p : position_info) : result position_side :=
  match p with
  | OpenPosition st => Ok (pos_side st)
  | AccountInfoOnly _ _ => Raise (KeyError "side")
  end.

Definition position_item_size (p : position_info) : result Q :=
  match p with
  | OpenPosition st => Ok (size st)
  | AccountInfoOnly _ _ => Raise (KeyError "size")
  end.

Definition position_item_unrealized_pnl (p : position_info) : result Q :=
  match p with
  | OpenPosition st => Ok (unrealized_pnl st)
  | AccountInfoOnly _ _ => Raise (KeyError "unrealized_pnl")
  end.

Definition info_total_balance (p : position_info) : Q :=
  match p with
  | OpenPosition st => pos_total_balance st
  | AccountInfoOnly t _ => t
  end.

Definition info_free_balance (p : position_info) : Q :=
  match p with
  | OpenPosition st => pos_free_balance st
  | AccountInfoOnly _ f => f
  end.

(** ** Market observations, counters and the state of the process *)

(** One row of the candle frame. *)
Record kline : Type :=
  { k_timestamp : Z;
    k_open : Q;
    k_high : Q;
    k_low : Q;
    k_close : Q;
    k_volume : Q }.

(** The dict [get_btc_ohlcv] returns.  [price_change] is [None] when the
    quotient is not a finite number (the divisor was zero). *)
Record price_data : Type :=
  { price : Q;
    timestamp : string;
    high : Q;
    low : Q;
    volume : Q;
    pd_timeframe : string;
    price_change : option Q;
    kline_data : list kline }.

(** The document of [TRADE_STATS_FILE]. *)
Record trade_stats : Type :=
  { total_trades : Z;
    winning_trades : Z;
    losing_trades : Z;
    last_updated : option string }.

(** The values the prompt text of [analyze_with_deepseek] is formatted
    from: per candle the trend, open, close and percent move; the 5-period
    mean and the deviation from it; the last signal's direction and
    confidence; the position's side, size and unrealized PnL. *)
Record prompt : Type :=
  { prompt_timeframe : string;
    prompt_klines : list (bool * Q * Q * Q);
    prompt_indicator : option (Q * Q);
    prompt_last_signal : option (pyval * pyval);
    prompt_position : option (position_side * Q * Q);
    prompt_price_data : price_data }.

(** The inference client: the [content] of the first choice of
    [chat.completions.create], or the failure of getting one. *)
Record deepseek_client : Type :=
  { chat_completions_create : prompt -> result string }.

(** One element of [equity_data], the document of [EQUITY_CURVE_FILE]. *)
Record equity_point : Type :=
  { ep_timestamp : string;
    ep_balance : Q;
    ep_pnl : Q;
    ep_pnl_percent : Q }.

(** The globals [price_history] and [signal_history], the calls made to
    [private_post_trade_order] (oldest first) and the stats file
    ([None]: no such file). *)
Record world : Type :=
  { submitted : list order_params;
    price_history : list price_data;
    signal_history : list pyval;
    trade_stats_file : option trade_stats }.

Definition with_submitted (w : world) (l : list order_params) : world :=
  {| submitted := l;
     price_history := price_history w;
     signal_history := signal_history w;
     trade_stats_file := trade_stats_file w |}.

Definition with_price_history (w : world) (l : list price_data) : world :=
  {| submitted := submitted w;
     price_history := l;
     signal_history := signal_history w;
     trade_stats_file := trade_stats_file w |}.

Definition with_signal_history (w : world) (l : list pyval) : world :=
  {| submitted := submitted w;
     price_history := price_history w;
     signal_history := l;
     trade_stats_file := trade_stats_file w |}.

Definition with_trade_stats_file (w : world) (f : option trade_stats) : world :=
  {| submitted := submitted w;
     price_history := price_history w;
     signal_history := signal_history w;
     trade_stats_file := f |}.

(** A computation that reads and writes the [world] and may raise; what was
    written before an exception stays written. *)
Definition prog (A : Type) : Type := world -> result A * world.

#[export] Instance prog_monad : Monad prog :=
  { ret := fun A a w => (Ok a, w);
    bind := fun A B c k w =>
              match c w with
              | (Ok a, w') => k a w'
              | (Raise e, w') => (Raise e, w')
              end }.

Definition lift {A : Type} (r : result A) : prog A := fun w => (r, w).

Definition read {A : Type} (f : world -> A) : prog A := fun w => (Ok (f w), w).

Definition write (f : world -> world) : prog unit := fun w => (Ok tt, f w).

(** [try: c except Exception as e: h e] *)
Definition catch {A : Type} (c : prog A) (h : exn -> prog A) : prog A :=
  fun w => match c w with
           | (Ok a, w') => (Ok a, w')
           | (Raise e, w') => h e w'
           end.

(** [l.append(x); if len(l) > bound: l.pop(0)] *)
Definition append_bounded {A : Type} (bound : nat) (l : list A) (x : A) : list A :=
  let l' := (l ++ [x])%list in
  if Nat.ltb bound (List.length l') then tl l' else l'.

(** ** Readers for plain decimal numbers and for JSON text

    The loop is stated over Python's [float] and [json.loads] as such (the
    variables of section [Loop]).  The two readers below fix them on the
    texts the examples use: signed decimal notation, and JSON without escape
    sequences or exponents.  Both answer [None] outside that fragment. *)

Module Reader.

Open Scope string_scope.

Definition dquote : ascii := "034"%char.

Definition digit_of (c : ascii) : option Z :=
  let n := nat_of_ascii c in
  if andb (Nat.leb 48 n) (Nat.leb n 57) then Some (Z.of_nat (n - 48)) else None.

(** Reads the leading digits of [s] onto [acc]: the number read, how many
    digits it had and the rest of [s]. *)
Fixpoint digits (s : string) (acc : Z) (count : nat) : Z * nat * string :=
  match s with
  | EmptyString => (acc, count, s)
  | String c rest =>
      match digit_of c with
      | Some d => digits rest (acc * 10 + d)%Z (S count)
      | None => (acc, count, s)
      end
  end.

(** An unsigned decimal at the head of [s], with what follows it. *)
Definition unsigned_decimal (s : string) : option (Q * string) :=
  let '(int_part, n1, rest) := digits s 0%Z O in
  match rest with
  | String "." rest' =>
      let '(all, n, rest'') := digits rest' int_part n1 in
      if Nat.eqb n O then None
      else Some (Qmake all (Z.to_pos (10 ^ Z.of_nat (n - n1))), rest'')
  | _ => if Nat.eqb n1 O then None else Some (inject_Z int_part, rest)
  end.

Definition signed_decimal (s : string) : option (Q * string) :=
  match s with
  | String "-" rest =>
      match unsigned_decimal rest with
      | Some (q, r) => Some (Qopp q, r)
      | None => None
      end
  | String "+" rest => unsigned_decimal rest
  | _ => unsigned_decimal s
  end.

(** [float(s)] on decimal notation. *)
Definition float_of_string (s : string) : option Q :=
  match signed_decimal s with
  | Some (q, EmptyString) => Some q
  | _ => None
  end.

Definition is_space (c : ascii) : bool :=
  let n := nat_of_ascii c in
  orb (Nat.eqb n 32) (orb (Nat.eqb n 9) (orb (Nat.eqb n 10) (Nat.eqb n 13))).

Fixpoint skip_ws (s : string) : string :=
  match s with
  | String c rest => if is_space c then skip_ws rest else s
  | EmptyString => s
  end.

(** The text of a JSON string up to its closing quote. *)
Fixpoint string_body (s : string) : option (string * string) :=
  match s with
  | EmptyString => None
  | String c rest =>
      if Ascii.eqb c dquote then Some (EmptyString, rest)
      else if Ascii.eqb c "\"%char then None
      else match string_body rest with
           | Some (body, r) => Some (String c body, r)
           | None => None
           end
  end.

Definition after (pre s : string) : option string :=
  if prefix pre s then Some (substring (length pre) (length s - length pre) s)
  else None.

(** An unsigned JSON number: digits without a superfluous leading zero,
    then possibly a point and at least one digit. *)
Definition unsigned_number (s : string) : option (Q * string) :=
  let '(int_part, n1, rest) := digits s 0%Z O in
  if Nat.eqb n1 O then None
  else if andb (Nat.ltb 1 n1) (prefix "0" s) then None
  else match rest with
       | String "." rest' =>
           let '(all, n, rest'') := digits rest' int_part n1 in
           if Nat.eqb n n1 then None
           else Some (Qmake all (Z.to_pos (10 ^ Z.of_nat (n - n1))), rest'')
       | _ => Some (inject_Z int_part, rest)
       end.

(** A JSON number in the fragment (no exponent). *)
Definition number (s : string) : option (Q * string) :=
  match s with
  | String "-" rest =>
      match unsigned_number rest with
      | Some (q, r) => Some (Qopp q, r)
      | None => None
      end
  | _ => unsigned_number s
  end.

(** One JSON value at the head of [s] (after white space), with the rest.
    [members] and [elements] read what follows [{] and [[]; a repeated key
    keeps the last value. *)
Fixpoint value (fuel : nat) (s : string) : option (pyval * string) :=
  match fuel with
  | O => None
  | S fuel' =>
      match skip_ws s with
      | String "{" rest =>
          match skip_ws rest with
          | String "}" rest' => Some (PDict [], rest')
          | _ => members fuel' rest []
          end
      | String "[" rest =>
          match skip_ws rest with
          | String "]" rest' => Some (PList [], rest')
          | _ => elements fuel' rest []
          end
      | String c rest as s' =>
          if Ascii.eqb c dquote then
            match string_body rest with
            | Some (body, r) => Some (PStr body, r)
            | None => None
            end
          else match after "true" s', after "false" s', after "null" s' with
               | Some r, _, _ => Some (PBool true, r)
               | _, Some r, _ => Some (PBool false, r)
               | _, _, Some r => Some (PNone, r)
               | _, _, _ =>
                   match number s' with
                   | Some (q, r) => Some (PNum q, r)
                   | None => None
                   end
               end
      | EmptyString => None
      end
  end
with members (fuel : nat) (s : string) (acc : list (string * pyval))
     : option (pyval * string) :=
  match fuel with
  | O => None
  | S fuel' =>
      match skip_ws s with
      | String c rest =>
          if Ascii.eqb c dquote then
            match string_body rest with
            | Some (key, r) =>
                match skip_ws r with
                | String ":" r' =>
                    match value fuel' r' with
                    | Some (v, r'') =>
                        let acc' := Py.set_item acc key v in
                        match skip_ws r'' with
                        | String "," r3 => members fuel' r3 acc'
                        | String "}" r3 => Some (PDict acc', r3)
                        | _ => None
                        end
                    | None => None
                    end
                | _ => None
                end
            | None => None
            end
          else None
      | EmptyString => None
      end
  end
with elements (fuel : nat) (s : string) (acc : list pyval)
     : option (pyval * string) :=
  match fuel with
  | O => None
  | S fuel' =>
      match value fuel' s with
      | Some (v, r) =>
          match skip_ws r with
          | String "," r' => elements fuel' r' (acc ++ [v])%list
          | String "]" r' => Some (PList (acc ++ [v])%list, r')
          | _ => None
          end
      | None => None
      end
  end.

(** [json.loads(s)] on the fragment. *)
Definition json_loads (s : string) : option pyval :=
  match value (S (length s)) s with
  | Some (v, rest) =>
      match skip_ws rest with
      | EmptyString => Some v
      | _ => None
      end
  | None => None
  end.

(** [int(x)] on a number or a string of digits; every instant is taken
    to be in the range of [pd.to_datetime]. *)
Definition to_timestamp (v : pyval) : option Z :=
  match v with
  | PNum q => Some (Z.quot (Qnum q) (Zpos (Qden q)))
  | PStr s =>
      let '(sign, body) :=
        match s with
        | String "-" rest => ((-1)%Z, rest)
        | String "+" rest => (1%Z, rest)
        | _ => (1%Z, s)
        end in
      match digits body 0%Z O with
      | (n, S _, EmptyString) => Some (sign * n)%Z
      | _ => None
      end
  | PBool b => Some (if b then 1%Z else 0%Z)
  | _ => None
  end.

End Reader.

(** ** Sample payloads, in the shape the OKX REST API answers *)

Module Sample.

Open Scope string_scope.

Definition cfg_live : trading_config :=
  {| amount := 0.01;
     leverage := 10;
     timeframe := "15m";
     test_mode := false;
     base_usdt_amount := 100;
     refresh_interval := 2 |}.

Definition cfg_test : trading_config :=
  {| amount := 0.01;
     leverage := 10;
     timeframe := "15m";
     test_mode := true;
     base_usdt_amount := 100;
     refresh_interval := 2 |}.

Definition reply (data : list pyval) : pyval :=
  PDict [("code", PStr "0"); ("msg", PStr EmptyString); ("data", PList data)].

(** A long position of one contract. *)
Definition long_position : pyval :=
  PDict [("instId", PStr "BTC-USDT-SWAP"); ("pos", PStr "1");
         ("avgPx", PStr "50000"); ("upl", PStr "12.5"); ("lever", PStr "10");
         ("markPx", PStr "50012.5"); ("imr", PStr "50"); ("mmr", PStr "2");
         ("liqPx", PStr "45500"); ("mgnRatio", PStr "25")].

(** What the oracle makes of [long_position], on an account of 1000 USDT
    of which 950 are free. *)
Definition long_state : position_state :=
  {| pos_side := Long;
     size := 1;
     entry_price := 50000;
     mark_price := 50012.5;
     unrealized_pnl := 12.5;
     position_amt := 1;
     symbol := "BTC/USDT:USDT";
     pos_leverage := 10;
     initial_margin := 50;
     maint_margin := 2;
     maint_margin_ratio := 2500;
     liquidation_price := 45500;
     pos_total_balance := 1000;
     pos_free_balance := 950 |}.

Definition usdt_detail (availBal bal : string) : pyval :=
  PDict [("ccy", PStr "USDT"); ("availBal", PStr availBal); ("bal", PStr bal)].

Definition balance_reply (availBal bal : string) : pyval :=
  reply [PDict [("details", PList [usdt_detail availBal bal])]].

(** An account whose every balance field reads zero. *)
Definition zero_balance_reply : pyval :=
  reply [PDict [("details",
                 PList [PDict [("ccy", PStr "USDT"); ("availBal", PStr "0");
                               ("availEq", PStr "0"); ("eq", PStr "0");
                               ("bal", PStr "0"); ("frozenBal", PStr "0")]]);
                ("availEq", PStr "0"); ("eqUsd", PStr "0")]].

Definition order_filled : pyval :=
  reply [PDict [("ordId", PStr "7001"); ("clOrdId", PStr EmptyString);
                ("sCode", PStr "0"); ("sMsg", PStr EmptyString)]].

Definition candle (ts o h l c v : string) : pyval :=
  PList [PStr ts; PStr o; PStr h; PStr l; PStr c; PStr v].

(** Newest candle first, as the exchange sends them. *)
Definition candles_reply : pyval :=
  reply [candle "1700000900000" "50100" "50300" "50050" "50200" "12.5";
         candle "1700000000000" "50000" "50150" "49900" "50100" "10"].

(** The two candles of [candles_reply] listed oldest first, which is not
    the order the exchange uses. *)
Definition oldest_first_reply : pyval :=
  reply [candle "1700000000000" "50000" "50150" "49900" "50100" "10";
         candle "1700000900000" "50100" "50300" "50050" "50200" "12.5"].

(** A reply of a single candle. *)
Definition single_candle_reply : pyval :=
  reply [candle "1700000900000" "50100" "50300" "50050" "50200" "12.5"].

(** A single candle whose every price is zero. *)
Definition zero_candle_reply : pyval :=
  reply [candle "1700000900000" "0" "0" "0" "0" "0"].

(** Holds one long contract until an order is submitted, none after. *)
Definition ex_long : exchange :=
  {| public_get_market_candles := fun _ => Ok candles_reply;
     private_get_account_positions :=
       fun orders => match orders with
                     | [] => Ok (reply [long_position])
                     | _ :: _ => Ok (reply [])
                     end;
     private_get_account_balance := fun _ => Ok (balance_reply "950" "1000");
     private_post_trade_order := fun _ _ => Ok order_filled |}.

(** Holds no position. *)
Definition ex_flat : exchange :=
  {| public_get_market_candles := fun _ => Ok candles_reply;
     private_get_account_positions := fun _ => Ok (reply []);
     private_get_account_balance := fun _ => Ok (balance_reply "1000" "1000");
     private_post_trade_order := fun _ _ => Ok order_filled |}.

(** The USDT entry of a funded account, every tier present. *)
Definition funded_detail : list (string * pyval) :=
  [("ccy", PStr "USDT"); ("availBal", PStr "950"); ("availEq", PStr "970");
   ("eq", PStr "1000"); ("bal", PStr "990"); ("frozenBal", PStr "40")].

Definition funded_account : list (string * pyval) :=
  [("details", PList [PDict funded_detail]); ("availEq", PStr "975");
   ("eqUsd", PStr "1010")].

(** Holds no position; every balance field is there. *)
Definition ex_funded : exchange :=
  {| public_get_market_candles := fun _ => Ok candles_reply;
     private_get_account_positions := fun _ => Ok (reply []);
     private_get_account_balance := fun _ => Ok (reply [PDict funded_account]);
     private_post_trade_order := fun _ _ => Ok order_filled |}.

(** A USDT entry, listed after one of another currency, whose [availBal]
    is blank and whose [bal] is a zero. *)
Definition lower_tier_detail : list (string * pyval) :=
  [("ccy", PStr "USDT"); ("availBal", PStr EmptyString);
   ("availEq", PStr "970"); ("eq", PStr "1000"); ("bal", PStr "0")].

Definition lower_tier_account : list (string * pyval) :=
  [("details", PList [PDict [("ccy", PStr "BTC"); ("availBal", PStr "1")];
                      PDict lower_tier_detail]);
   ("eqUsd", PStr "1010")].

(** Holds no position; the free balance comes from the second tier and
    the total from the account-level equity. *)
Definition ex_lower_tier : exchange :=
  {| public_get_market_candles := fun _ => Ok candles_reply;
     private_get_account_positions := fun _ => Ok (reply []);
     private_get_account_balance :=
       fun _ => Ok (reply [PDict lower_tier_account]);
     private_post_trade_order := fun _ _ => Ok order_filled |}.

(** The USDT entry and the account of [zero_balance_reply]. *)
Definition zero_detail : list (string * pyval) :=
  [("ccy", PStr "USDT"); ("availBal", PStr "0"); ("availEq", PStr "0");
   ("eq", PStr "0"); ("bal", PStr "0"); ("frozenBal", PStr "0")].

Definition zero_account : list (string * pyval) :=
  [("details", PList [PDict zero_detail]);
   ("availEq", PStr "0"); ("eqUsd", PStr "0")].

(** An account whose balance fields are present and blank. *)
Definition blank_balance_reply : pyval :=
  reply [PDict [("details",
                 PList [PDict [("ccy", PStr "USDT");
                               ("availBal", PStr EmptyString);
                               ("availEq", PStr EmptyString);
                               ("eq", PStr EmptyString);
                               ("bal", PStr EmptyString);
                               ("frozenBal", PStr EmptyString)]])]].

(** Holds no position; its balance fields are blank. *)
Definition ex_blank : exchange :=
  {| public_get_market_candles := fun _ => Ok candles_reply;
     private_get_account_positions := fun _ => Ok (reply []);
     private_get_account_balance := fun _ => Ok blank_balance_reply;
     private_post_trade_order := fun _ _ => Ok order_filled |}.

(** Three entries of the exchange's history of positions: closed at a
    gain, closed at a loss, still open. *)
Definition positions_history : list pyval :=
  [PDict [("closeAvgPx", PStr "50500"); ("realizedPnl", PStr "12.5")];
   PDict [("closeAvgPx", PStr "49000"); ("realizedPnl", PStr "-4.2")];
   PDict [("closeAvgPx", PStr EmptyString); ("realizedPnl", PStr "0")]].

(** The records of [positions_history]. *)
Definition history_records : list (list (string * pyval)) :=
  [[("closeAvgPx", PStr "50500"); ("realizedPnl", PStr "12.5")];
   [("closeAvgPx", PStr "49000"); ("realizedPnl", PStr "-4.2")];
   [("closeAvgPx", PStr EmptyString); ("realizedPnl", PStr "0")]].

(** Holds no position and no funds. *)
Definition ex_empty : exchange :=
  {| public_get_market_candles := fun _ => Ok candles_reply;
     private_get_account_positions := fun _ => Ok (reply []);
     private_get_account_balance := fun _ => Ok zero_balance_reply;
     private_post_trade_order := fun _ _ => Ok order_filled |}.

Definition signal (direction confidence : string) : pyval :=
  PDict [("signal", PStr direction); ("reason", PStr "x");
         ("stop_loss", PNum 1); ("take_profit", PNum 2);
         ("confidence", PStr confidence)].

Definition stats0 : trade_stats :=
  {| total_trades := 5; winning_trades := 3; losing_trades := 2;
     last_updated := Some "2025-01-01T00:00:00" |}.

Definition world0 : world :=
  {| submitted := [];
     price_history := [];
     signal_history := [];
     trade_stats_file := Some stats0 |}.

Definition point (balance : Q) : equity_point :=
  {| ep_timestamp := "2025-01-01T00:00:00";
     ep_balance := balance;
     ep_pnl := balance - 100;
     ep_pnl_percent := balance - 100 |}.

Definition equity_example : list equity_point :=
  [point 100; point 120; point 90; point 130].

(** An account in debit throughout. *)
Definition equity_in_debit : list equity_point :=
  [point (-100); point (-150)].

Definition q : string := String Reader.dquote EmptyString.

(** A reply whose JSON object has a direction and nothing else. *)
Definition reply_direction_only : string :=
  "My view: {" ++ q ++ "signal" ++ q ++ ": " ++ q ++ "BUY" ++ q ++ "} thanks".

(** The reply of the spec's extraction example, with the field names the
    prompt asks for. *)
Definition reply_complete : string :=
  "Here is my view: {" ++ q ++ "signal" ++ q ++ ":" ++ q ++ "BUY" ++ q ++ ","
    ++ q ++ "reason" ++ q ++ ":" ++ q ++ "x" ++ q ++ ","
    ++ q ++ "stop_loss" ++ q ++ ":1,"
    ++ q ++ "take_profit" ++ q ++ ":2,"
    ++ q ++ "confidence" ++ q ++ ":" ++ q ++ "HIGH" ++ q ++ "} thanks".

Definition client_saying (reply : string) : deepseek_client :=
  {| chat_completions_create := fun _ => Ok reply |}.

Definition client_down : deepseek_client :=
  {| chat_completions_create := fun _ => Raise ApiError |}.

Definition bar (t : Z) (o c : Q) : kline :=
  {| k_timestamp := t; k_open := o; k_high := c; k_low := o;
     k_close := c; k_volume := 1 |}.

Definition observation (p : Q) : price_data :=
  {| price := p;
     timestamp := "2025-01-01 00:00:00";
     high := p;
     low := p;
     volume := 1;
     pd_timeframe := "15m";
     price_change := Some 0;
     kline_data := [bar 0 p p] |}.

(** Twenty-five observations, at prices 1 to 25. *)
Definition observations_25 : list price_data :=
  map (fun n => observation (inject_Z (Z.of_nat n))) (seq 1 25).

(** A position of another instrument. *)
Definition other_position : pyval :=
  PDict [("instId", PStr "ETH-USDT-SWAP"); ("pos", PStr "5")].

(** A short position of two contracts, with no mark price and no
    leverage of its own. *)
Definition short_fields : list (string * pyval) :=
  [("instId", PStr "BTC-USDT-SWAP"); ("pos", PStr "-2");
   ("avgPx", PStr "50000"); ("upl", PStr "-3")].

Definition short_position : pyval := PDict short_fields.

(** What the oracle makes of [short_position], on an account of 1000 USDT
    of which 950 are free. *)
Definition short_state : position_state :=
  {| pos_side := Short;
     size := 2;
     entry_price := 50000;
     mark_price := 50000;
     unrealized_pnl := -3;
     position_amt := -2;
     symbol := "BTC/USDT:USDT";
     pos_leverage := 10;
     initial_margin := 0;
     maint_margin := 0;
     maint_margin_ratio := 0;
     liquidation_price := 0;
     pos_total_balance := 1000;
     pos_free_balance := 950 |}.

(** Holds two short contracts, listed after a position of another
    instrument and before an entry that is no dict. *)
Definition ex_short : exchange :=
  {| public_get_market_candles := fun _ => Ok candles_reply;
     private_get_account_positions :=
       fun _ => Ok (reply [other_position; short_position; PStr "garbage"]);
     private_get_account_balance := fun _ => Ok (balance_reply "950" "1000");
     private_post_trade_order := fun _ _ => Ok order_filled |}.

(** The positions request fails; orders are rejected. *)
Definition ex_unreachable : exchange :=
  {| public_get_market_candles := fun _ => Ok candles_reply;
     private_get_account_positions := fun _ => Raise ApiError;
     private_get_account_balance := fun _ => Ok (balance_reply "950" "1000");
     private_post_trade_order := fun _ _ => Raise ApiError |}.

(** The snapshot taken from [candles_reply]. *)
Definition snapshot : price_data :=
  {| price := 50200;
     timestamp := "2025-01-01 00:00:00";
     high := 50300;
     low := 50050;
     volume := 12.5;
     pd_timeframe := "15m";
     price_change := Some (10000 # 50100);
     kline_data :=
       [{| k_timestamp := 1700000000000; k_open := 50000; k_high := 50150;
           k_low := 49900; k_close := 50100; k_volume := 10 |};
        {| k_timestamp := 1700000900000; k_open := 50100; k_high := 50300;
           k_low := 50050; k_close := 50200; k_volume := 12.5 |}] |}.

(** The signal parsed from [reply_complete] at [observation]'s time. *)
Definition stamped_signal : pyval :=
  PDict [("signal", PStr "BUY"); ("reason", PStr "x");
         ("stop_loss", PNum 1); ("take_profit", PNum 2);
         ("confidence", PStr "HIGH");
         ("timestamp", PStr "2025-01-01 00:00:00")].

End Sample.

(** ** Request throttling: the decorator [rate_limit] *)

Module RateLimit.

(** One value of the dict [RATE_LIMIT]. *)
Record entry : Type :=
  { count : Z;
    last_request : Q }.

(** [RATE_LIMIT], keyed by the client address. *)
Definition table : Type := list (string * entry).

Fixpoint lookup (client_ip : string) (t : table) : option entry :=
  match t with
  | [] => None
  | (ip, e) :: rest =>
      if String.eqb client_ip ip then Some e else lookup client_ip rest
  end.

(** [RATE_LIMIT[client_ip] = e] *)
Fixpoint set_item (t : table) (client_ip : string) (e : entry) : table :=
  match t with
  | [] => [(client_ip, e)]
  | (ip, e') :: rest =>
      if String.eqb client_ip ip then (ip, e) :: rest
      else (ip, e') :: set_item rest client_ip e
  end.

Definition MAX_REQUESTS_PER_MINUTE : Z := 60.

(** Whether the wrapped handler runs or the answer is the 429. *)
Inductive verdict : Type := Served | RateLimitExceeded.

(** [decorated_function], up to the call of the wrapped handler. *)
Definition decorated_function (client_ip : string) (current_time : Q)
           (t : table) : verdict * table :=
  match lookup client_ip t with
  | Some e =>
      if Qlt_bool (current_time - last_request e) 60 then
        if (MAX_REQUESTS_PER_MINUTE <=? count e)%Z then (RateLimitExceeded, t)
        else (Served,
              set_item t client_ip
                       {| count := count e + 1;
                          last_request := last_request e |})
      else (Served,
            set_item t client_ip {| count := 1; last_request := current_time |})
  | None =>
      (Served,
       set_item t client_ip {| count := 1; last_request := current_time |})
  end.

(** Requests handled one after the other, each with its client and the
    clock reading at its arrival. *)
Fixpoint serve (requests : list (string * Q)) (t : table)
  : list verdict * table :=
  match requests with
  | [] => ([], t)
  | (client_ip, current_time) :: rest =>
      let (v, t1) := decorated_function client_ip current_time t in
      let (vs, t2) := serve rest t1 in
      (v :: vs, t2)
  end.

(** The requests of one client, at the given clock readings. *)
Definition burst (client_ip : string) (times : list Q) : list (string * Q) :=
  map (fun current_time => (client_ip, current_time)) times.

(** Every count of the table is at least 1 and at most the limit. *)
Definition counts_in_range (t : table) : Prop :=
  forall client_ip e,
    lookup client_ip t = Some e ->
    (1 <= count e <= MAX_REQUESTS_PER_MINUTE)%Z.

End RateLimit.

(** ** The configuration file and the handler [update_config] *)

Module Web.

Open Scope string_scope.

(** What [request.get_json()] and [json.load] give: the values of
    [pyval], and the floats that are no rationals.  [json.loads] reads the
    tokens [NaN], [Infinity] and [-Infinity], and a number literal out of
    the range of a float as an infinity; [json.dump] writes them back. *)
Inductive jval : Type :=
| JNone
| JBool (b : bool)
| JNum (q : Q)
| JNaN
| JInf (negative : bool)
| JStr (s : string)
| JList (l : list jval)
| JDict (d : list (string * jval)).

Fixpoint lookup (k : string) (d : list (string * jval)) : option jval :=
  match d with
  | [] => None
  | (k', v) :: rest => if String.eqb k k' then Some v else lookup k rest
  end.

(** [d[k] = v] on a dict: the key keeps its place when present. *)
Fixpoint set_item (d : list (string * jval)) (k : string) (v : jval)
  : list (string * jval) :=
  match d with
  | [] => [(k, v)]
  | (k', v') :: rest =>
      if String.eqb k k' then (k', v) :: rest else (k', v') :: set_item rest k v
  end.

(** [bool(v)]: NaN and the infinities are true. *)
Definition truthy (v : jval) : bool :=
  match v with
  | JNone => false
  | JBool b => b
  | JNum q => negb (Qeq_bool q 0)
  | JNaN => true
  | JInf _ => true
  | JStr s => negb (String.eqb s EmptyString)
  | JList l => match l with [] => false | _ :: _ => true end
  | JDict d => match d with [] => false | _ :: _ => true end
  end.

(** [v is not None] *)
Definition is_not_none (v : jval) : bool :=
  match v with JNone => false | _ => true end.

(** [v.get(k, dflt)] *)
Definition get_default (v : jval) (k : string) (dflt : jval) : result jval :=
  match v with
  | JDict d => Ok (match lookup k d with Some x => x | None => dflt end)
  | _ => Raise BadPayload
  end.

Fixpoint chars (s : string) : list jval :=
  match s with
  | EmptyString => []
  | String c rest => JStr (String c EmptyString) :: chars rest
  end.

(** The elements a [for] loop over [v] visits. *)
Definition iter (v : jval) : result (list jval) :=
  match v with
  | JList l => Ok l
  | JStr s => Ok (chars s)
  | JDict d => Ok (map (fun kv => JStr (fst kv)) d)
  | _ => Raise BadPayload
  end.

(** [BOT_CONFIG_FILE]: absent, holding a JSON document, or present and
    not readable as JSON. *)
Inductive file_state : Type :=
| Missing
| Holds (document : jval)
| Unreadable.

(** The global dict [trading_config] of the web process, the
    configuration file, and whether the file can be opened for writing. *)
Record state : Type :=
  { trading_config : list (string * jval);
    bot_config_file : file_state;
    writable : bool }.

Definition with_trading_config (s : state) (c : list (string * jval)) : state :=
  {| trading_config := c;
     bot_config_file := bot_config_file s;
     writable := writable s |}.

Definition with_bot_config_file (s : state) (f : file_state) : state :=
  {| trading_config := trading_config s;
     bot_config_file := f;
     writable := writable s |}.

(** [save_bot_config]: the flag returned, the dict as the caller sees it
    afterwards (the stamp is put into the caller's object), and the state.
    Assigning an item of anything but a dict raises inside the [try]. *)
Definition save_bot_config (now : string) (config : jval) (s : state)
  : bool * jval * state :=
  match config with
  | JDict d =>
      let stamped := JDict (set_item d "last_updated" (JStr now)) in
      if writable s then (true, stamped, with_bot_config_file s (Holds stamped))
      else (false, stamped, s)
  | _ => (false, config, s)
  end.

Definition default_config (now : string) : list (string * jval) :=
  [("test_mode", JBool true); ("leverage", JNum 10); ("timeframe", JStr "15m");
   ("base_usdt_amount", JNum 100); ("last_updated", JStr now)].

(** The dict of the [except] branch of [load_bot_config]. *)
Definition fallback_config : list (string * jval) :=
  [("test_mode", JBool true); ("leverage", JNum 10); ("timeframe", JStr "15m");
   ("base_usdt_amount", JNum 100)].

Definition load_bot_config (now : string) (s : state) : jval * state :=
  match bot_config_file s with
  | Holds document => (document, s)
  | Missing =>
      let '(_, config, s') := save_bot_config now (JDict (default_config now)) s in
      (config, s')
  | Unreadable => (JDict fallback_config, s)
  end.

(** [safe_get_config], on the dict it is given for [bot_config]. *)
Definition safe_get_config (bot_config : jval) (key : string) (default : jval)
  : result jval :=
  value <- get_default bot_config key default ;;
  Ok (if is_not_none value then value else default).

Definition valid_keys : list string :=
  ["symbol"; "amount"; "leverage"; "timeframe"; "test_mode"; "base_usdt_amount"].

(** [key in valid_keys] *)
Definition is_valid_key (key : jval) : bool :=
  match key with
  | JStr k => existsb (String.eqb k) valid_keys
  | _ => false
  end.

(** A number as the comparisons of the range checks see it. *)
Inductive operand : Type :=
| Finite (q : Q)
| NotANumber
| Infinite (negative : bool).

(** The operand of [<=], [<] and [>] against a number: a bool counts as
    0 or 1, anything but a number raises [TypeError]. *)
Definition number (v : jval) : result operand :=
  match v with
  | JNum q => Ok (Finite q)
  | JBool b => Ok (Finite (if b then 1 else 0))
  | JNaN => Ok NotANumber
  | JInf negative => Ok (Infinite negative)
  | _ => Raise BadPayload
  end.

(** [x <= c], [x < c] and [x > c] for a constant [c]: each of them is
    False on NaN. *)
Definition at_most (x : operand) (c : Q) : bool :=
  match x with
  | Finite q => Qle_bool q c
  | NotANumber => false
  | Infinite negative => negative
  end.

Definition below (x : operand) (c : Q) : bool :=
  match x with
  | Finite q => Qlt_bool q c
  | NotANumber => false
  | Infinite negative => negative
  end.

Definition above (x : operand) (c : Q) : bool :=
  match x with
  | Finite q => Qlt_bool c q
  | NotANumber => false
  | Infinite negative => negb negative
  end.

(** [k in data and (too_low data[k] or data[k] > hi)] *)
Definition out_of_range (data : list (string * jval)) (k : string)
           (too_low : operand -> bool) (hi : Q) : result bool :=
  match lookup k data with
  | None => Ok false
  | Some v => x <- number v ;; Ok (too_low x || above x hi)
  end.

(** [target[k] = data[k]] for each [k] of [keys] that [data] has. *)
Fixpoint assign_keys (keys : list string) (target data : list (string * jval))
  : list (string * jval) :=
  match keys with
  | [] => target
  | k :: rest =>
      assign_keys rest
                  (match lookup k data with
                   | Some v => set_item target k v
                   | None => target
                   end)
                  data
  end.

(** [target.update(data)] for a dict [data]: [target[k] = data[k]] for
    each of its keys. *)
Definition update (target data : list (string * jval)) : list (string * jval) :=
  assign_keys (map fst data) target data.

(** The keys [update_config] carries over to the configuration file. *)
Definition persisted_keys : list string :=
  ["test_mode"; "leverage"; "timeframe"; "base_usdt_amount"].

(** [if k in data: bot_config[k] = data[k]] *)
Definition copy_key (data : list (string * jval)) (k : string)
           (bot_config : jval) : result jval :=
  match lookup k data with
  | None => Ok bot_config
  | Some v =>
      match bot_config with
      | JDict b => Ok (JDict (set_item b k v))
      | _ => Raise BadPayload
      end
  end.

(** The ['message'] of the JSON answer. *)
Inductive message : Type :=
| InvalidData
| InvalidKey (key : jval)
| AmountOutOfRange
| LeverageOutOfRange
| BaseAmountOutOfRange
| ConfigSaved
| SaveFailed
| UpdateFailed.

Record response : Type :=
  { status : Z;
    success : bool;
    msg : message;
    config : option jval }.

Definition reject (m : message) : response :=
  {| status := 400; success := false; msg := m; config := None |}.

Definition failure (m : message) : response :=
  {| status := 500; success := false; msg := m; config := None |}.

(** The [try] of [update_config], for a request whose body parsed to
    [data].  Data that is no dict and passes the key loop is a list of
    valid keys, on which the range checks or [update] raise. *)
Definition update_config_body (now : string) (data : jval) (s : state)
  : result response * state :=
  if negb (truthy data) then (Ok (reject InvalidData), s)
  else
    match iter data with
    | Raise e => (Raise e, s)
    | Ok keys =>
        match find (fun key => negb (is_valid_key key)) keys with
        | Some key => (Ok (reject (InvalidKey key)), s)
        | None =>
            match data with
            | JDict d =>
                match out_of_range d "amount" (fun x => at_most x 0) 1000 with
                | Raise e => (Raise e, s)
                | Ok true => (Ok (reject AmountOutOfRange), s)
                | Ok false =>
                    match out_of_range d "leverage" (fun x => below x 1) 125 with
                    | Raise e => (Raise e, s)
                    | Ok true => (Ok (reject LeverageOutOfRange), s)
                    | Ok false =>
                        match out_of_range d "base_usdt_amount"
                                           (fun x => at_most x 0) 10000 with
                        | Raise e => (Raise e, s)
                        | Ok true => (Ok (reject BaseAmountOutOfRange), s)
                        | Ok false =>
                            let s1 := with_trading_config
                                        s (update (trading_config s) d) in
                            let '(bot_config, s2) := load_bot_config now s1 in
                            match (c1 <- copy_key d "test_mode" bot_config ;;
                                   c2 <- copy_key d "leverage" c1 ;;
                                   c3 <- copy_key d "timeframe" c2 ;;
                                   copy_key d "base_usdt_amount" c3) with
                            | Raise e => (Raise e, s2)
                            | Ok bot_config' =>
                                let '(saved, written, s3) :=
                                  save_bot_config now bot_config' s2 in
                                if saved
                                then (Ok {| status := 200;
                                            success := true;
                                            msg := ConfigSaved;
                                            config := Some written |}, s3)
                                else (Ok (failure SaveFailed), s3)
                            end
                        end
                    end
                end
            | _ => (Raise BadPayload, s)
            end
        end
    end.

(** [update_config]: the body under its [except]. *)
Definition update_config (now : string) (data : jval) (s : state)
  : response * state :=
  match update_config_body now data s with
  | (Ok r, s') => (r, s')
  | (Raise _, s') => (failure UpdateFailed, s')
  end.

End Web.

(** Sample states of the web process and request bodies. *)

Module WebSample.

Open Scope string_scope.

Definition memory : list (string * Web.jval) :=
  [("symbol", Web.JStr "BTC/USDT:USDT"); ("amount", Web.JNum 0.01);
   ("leverage", Web.JNum 10); ("timeframe", Web.JStr "15m");
   ("test_mode", Web.JBool true); ("base_usdt_amount", Web.JNum 100);
   ("auto_refresh", Web.JBool true); ("refresh_interval", Web.JNum 2)].

(** No configuration file yet, in a directory that can be written. *)
Definition fresh : Web.state :=
  {| Web.trading_config := memory;
     Web.bot_config_file := Web.Missing;
     Web.writable := true |}.

Definition stored : list (string * Web.jval) :=
  [("test_mode", Web.JBool false); ("leverage", Web.JNum 5);
   ("timeframe", Web.JStr "1h"); ("base_usdt_amount", Web.JNum 250);
   ("last_updated", Web.JStr "2025-01-01T00:00:00"); ("note", Web.JStr "keep")].

(** A configuration file that cannot be written any more. *)
Definition read_only : Web.state :=
  {| Web.trading_config := memory;
     Web.bot_config_file := Web.Holds (Web.JDict stored);
     Web.writable := false |}.

Definition raise_leverage : Web.jval :=
  Web.JDict [("leverage", Web.JNum 20); ("amount", Web.JNum 0.5)].

Definition zero_amount : Web.jval := Web.JDict [("amount", Web.JNum 0)].

(** A body with the token [NaN] for the leverage, and one with a
    literal no float can hold. *)
Definition nan_leverage : Web.jval := Web.JDict [("leverage", Web.JNaN)].

Definition huge_leverage : Web.jval := Web.JDict [("leverage", Web.JInf false)].

Definition client : string := "10.0.0.1".

End WebSample.

(** ** The loop, over the library functions it calls *)

Section Loop.

Open Scope string_scope.

(** Python's [float] on a string: [None] where it raises [ValueError]. *)
Variable float_of_string : string -> option Q.

(** [json.loads]: [None] where it raises. *)
Variable json_loads : string -> option pyval.

(** [int(x)] followed by [pd.to_datetime(..., unit='ms')] on a candle's
    first cell: [None] where either raises. *)
Variable to_timestamp : pyval -> option Z.

(** [float(v)] *)
Definition py_float (v : pyval) : result Q :=
  match v with
  | PNum q => Ok q
  | PBool b => Ok (if b then 1 else 0)
  | PStr s => match float_of_string s with Some q => Ok q | None => Raise ValueError end
  | _ => Raise BadPayload
  end.

(** [if not response or 'data' not in response: raise Exception(...)],
    then [response['data']].  A reply that is no dict raises one way or the
    other. *)
Definition response_data (response : pyval) : result pyval :=
  if negb (Py.truthy response) then Raise ApiError
  else match response with
       | PDict d => match Py.lookup "data" d with
                    | Some v => Ok v
                    | None => Raise ApiError
                    end
       | _ => Raise BadPayload
       end.

(** The same with the further test [or not response['data']]. *)
Definition response_data_nonempty (response : pyval) : result pyval :=
  data <- response_data response ;;
  if negb (Py.truthy data) then Raise ApiError else Ok data.

(** *** Position oracle: [get_current_position] *)

(** [a or b or c] over three fields of [detail] *)
Definition first_truthy (detail : pyval) (k1 k2 k3 : string) : result pyval :=
  a <- Py.get detail k1 ;;
  b <- Py.get detail k2 ;;
  c <- Py.get detail k3 ;;
  Ok (Py.or_ (Py.or_ a b) c).

(** [float(chosen) if chosen is not None else float(detail.get(key, 0))] *)
Definition float_or_field (detail chosen : pyval) (key : string) : result Q :=
  if Py.is_not_none chosen then py_float chosen
  else (v <- Py.get_default detail key (PNum 0) ;; py_float v).

(** [free_balance] as the USDT entry of [details] gives it. *)
Definition detail_free_balance (detail : pyval) : result Q :=
  avail_bal <- first_truthy detail "availBal" "availEq" "eq" ;;
  float_or_field detail avail_bal "availBal".

(** [total_balance] as the USDT entry of [details] gives it. *)
Definition detail_total_balance (detail : pyval) : result Q :=
  total_bal <- first_truthy detail "bal" "eq" "frozenBal" ;;
  float_or_field detail total_bal "bal".

(** The body of [if detail.get('ccy') == 'USDT':], up to the [break]:
    the pair [(free_balance, total_balance)].  The two [or] chains are
    evaluated before either conversion, and cannot raise on the dict that
    [detail] is here. *)
Definition usdt_detail_balances (detail : pyval) : result (Q * Q) :=
  free_balance <- detail_free_balance detail ;;
  total_balance <- detail_total_balance detail ;;
  Ok (free_balance, total_balance).

(** [for detail in details: if detail.get('ccy') == 'USDT': ...; break],
    from [free_balance = 0; total_balance = 0]. *)
Fixpoint scan_details (details : list pyval) : result (Q * Q) :=
  match details with
  | [] => Ok (0, 0)
  | detail :: rest =>
      ccy <- Py.get detail "ccy" ;;
      if Py.eq_str ccy "USDT" then usdt_detail_balances detail
      else scan_details rest
  end.

(** [if x == 0: v = account_data.get(key); if v: x = float(v)] *)
Definition account_fallback (account_data : pyval) (key : string) (x : Q)
  : result Q :=
  if Qeq_bool x 0 then
    v <- Py.get account_data key ;;
    if Py.truthy v then py_float v else Ok x
  else Ok x.

(** Everything between the balance request and the position loop. *)
Definition resolve_balances (balance_response : pyval) : result (Q * Q) :=
  data <- response_data_nonempty balance_response ;;
  account_data <- Py.index data 0 ;;
  details_v <- Py.get_default account_data "details" (PList []) ;;
  details <- Py.iter details_v ;;
  ft <- scan_details details ;;
  free_balance <- account_fallback account_data "availEq" (fst ft) ;;
  total_balance <- account_fallback account_data "eqUsd" (snd ft) ;;
  Ok (free_balance, total_balance).

Definition inst_id : string := "BTC-USDT-SWAP".

(** [float(pos_data.get(key, dflt))] *)
Definition float_field (pos_data : pyval) (key : string) (dflt : Q) : result Q :=
  v <- Py.get_default pos_data key (PNum dflt) ;; py_float v.

(** The dict returned from inside the loop when [abs(pos) > 0]. *)
Definition open_position (cfg : trading_config) (pos_data : pyval) (pos : Q)
           (free_balance total_balance : Q) : result position_state :=
  let side := if Qlt_bool 0 pos then Long else Short in
  let contracts := Qabs pos in
  entry_price <- float_field pos_data "avgPx" 0 ;;
  unrealized_pnl <- float_field pos_data "upl" 0 ;;
  leverage <- float_field pos_data "lever" (leverage cfg) ;;
  mark_price <- float_field pos_data "markPx" entry_price ;;
  initial_margin <- float_field pos_data "imr" 0 ;;
  maint_margin <- float_field pos_data "mmr" 0 ;;
  liquidation_price <- float_field pos_data "liqPx" 0 ;;
  mgn_ratio <- float_field pos_data "mgnRatio" 0 ;;
  let maint_margin_ratio :=
    if Qlt_bool 0 mgn_ratio then mgn_ratio * 100 else mgn_ratio in
  Ok {| pos_side := side;
        size := contracts;
        entry_price := entry_price;
        mark_price := mark_price;
        unrealized_pnl := unrealized_pnl;
        position_amt := pos;
        symbol := "BTC/USDT:USDT";
        pos_leverage := leverage;
        initial_margin := initial_margin;
        maint_margin := maint_margin;
        maint_margin_ratio := maint_margin_ratio;
        liquidation_price := liquidation_price;
        pos_total_balance := total_balance;
        pos_free_balance := free_balance |}.

(** [for i, pos_data in enumerate(positions_data): ...], then the
    account-only dict when the loop ends without a [return]. *)
Fixpoint scan_positions (cfg : trading_config) (free_balance total_balance : Q)
         (positions_data : list pyval) : result position_info :=
  match positions_data with
  | [] => Ok (AccountInfoOnly total_balance free_balance)
  | pos_data :: rest =>
      inst <- Py.get pos_data "instId" ;;
      if Py.eq_str inst inst_id then
        pos <- float_field pos_data "pos" 0 ;;
        if Qlt_bool 0 (Qabs pos) then
          st <- open_position cfg pos_data pos free_balance total_balance ;;
          Ok (OpenPosition st)
        else scan_positions cfg free_balance total_balance rest
      else scan_positions cfg free_balance total_balance rest
  end.

(** The body of the [try] of [get_current_position], for an initialised
    exchange.  [len(positions_data)] of the log line raises exactly where
    iterating does ([Py.iter]). *)
Definition get_current_position_body (cfg : trading_config) (ex : exchange)
           (submitted : list order_params) : result position_info :=
  response <- private_get_account_positions ex submitted ;;
  positions_data <- response_data response ;;
  positions <- Py.iter positions_data ;;
  balance_response <- private_get_account_balance ex submitted ;;
  ft <- resolve_balances balance_response ;;
  scan_positions cfg (fst ft) (snd ft) positions.

Definition get_current_position (cfg : trading_config) (ex : option exchange)
           (submitted : list order_params) : option position_info :=
  match ex with
  | None => None
  | Some e => try_or_none (get_current_position_body cfg e submitted)
  end.

(** *** Executor: [create_market_order_safe] and [execute_trade] *)

(** The dict [create_market_order_safe] returns. *)
Record order_receipt : Type :=
  { receipt_id : pyval;
    receipt_clientOrderId : pyval;
    receipt_status : string;
    receipt_info : pyval }.

Definition market_order_params (s : order_side) (sz : Q) (reduce_only : bool)
  : order_params :=
  {| instId := inst_id;
     tdMode := "cross";
     side := s;
     ordType := "market";
     sz := sz;
     tag := "60bb4a8d3416BCDE";
     reduceOnly := reduce_only |}.

(** [exchange.private_post_trade_order(params)]: the call is recorded,
    whatever the reply. *)
Definition post_trade_order (ex : exchange) (params : order_params) : prog pyval :=
  fun w =>
    (private_post_trade_order ex (submitted w) params,
     with_submitted w (submitted w ++ [params])%list).

(** What follows the call in [create_market_order_safe]. *)
Definition check_order_response (response : pyval) : result order_receipt :=
  data <- response_data_nonempty response ;;
  order_data <- Py.index data 0 ;;
  sCode <- Py.get order_data "sCode" ;;
  if negb (Py.eq_str sCode "0") then Raise ApiError
  else
    ordId <- Py.get order_data "ordId" ;;
    clOrdId <- Py.get order_data "clOrdId" ;;
    Ok {| receipt_id := ordId;
          receipt_clientOrderId := clOrdId;
          receipt_status := "filled";
          receipt_info := order_data |}.

Definition create_market_order_safe (ex : exchange) (s : order_side) (sz : Q)
           (reduce_only : bool) : prog order_receipt :=
  response <- post_trade_order ex (market_order_params s sz reduce_only) ;;
  lift (check_order_response response).

(** [current_position and current_position['side'] == want], as the
    condition of an [if]. *)
Definition position_has_side (current_position : option position_info)
           (want : position_side) : result bool :=
  match current_position with
  | None => Ok false
  | Some p =>
      s <- position_item_side p ;;
      Ok (match s, want with
          | Long, Long | Short, Short => true
          | _, _ => false
          end)
  end.

Definition current_size (current_position : option position_info) : result Q :=
  match current_position with
  | None => Raise BadPayload
  | Some p => position_item_size p
  end.

(** The body of the [try] of [execute_trade].  [false] is the early
    [return] of the HOLD branch; the final re-read of the position only
    feeds a log line. *)
Definition execute_trade_body (cfg : trading_config) (ex : exchange)
           (current_position : option position_info) (signal : pyval)
  : prog bool :=
  if Py.eq_str signal "BUY" then
    is_short <- lift (position_has_side current_position Short) ;;
    if is_short then
      sz <- lift (current_size current_position) ;;
      create_market_order_safe ex Buy (Qabs sz) true ;;;
      ret true
    else
      create_market_order_safe ex Buy (amount cfg) false ;;;
      ret true
  else if Py.eq_str signal "SELL" then
    is_long <- lift (position_has_side current_position Long) ;;
    if is_long then
      sz <- lift (current_size current_position) ;;
      create_market_order_safe ex Sell sz true ;;;
      ret true
    else
      create_market_order_safe ex Sell (amount cfg) false ;;;
      ret true
  else if Py.eq_str signal "HOLD" then ret false
  else ret true.

Definition execute_trade (cfg : trading_config) (ex : option exchange)
           (signal_data : pyval) : prog unit :=
  match ex with
  | None => ret tt
  | Some e =>
      current_position <- read (fun w => get_current_position cfg ex (submitted w)) ;;
      signal <- lift (Py.item signal_data "signal") ;;
      _confidence <- lift (Py.item signal_data "confidence") ;;
      _reason <- lift (Py.item signal_data "reason") ;;
      if test_mode cfg then ret tt
      else
        catch
          (executed <- execute_trade_body cfg e current_position signal ;;
           if executed then
             _position <- read (fun w => get_current_position cfg ex (submitted w)) ;;
             ret tt
           else ret tt)
          (fun _ => ret tt)
  end.

(** *** Signal generator: [analyze_with_deepseek] *)

(** [s.find(c)]: [None] is Python's [-1]. *)
Fixpoint find_char (c : ascii) (s : string) : option nat :=
  match s with
  | EmptyString => None
  | String c' rest =>
      if Ascii.eqb c c' then Some O else option_map S (find_char c rest)
  end.

(** [s.rfind(c)] *)
Fixpoint rfind_char (c : ascii) (s : string) : option nat :=
  match s with
  | EmptyString => None
  | String c' rest =>
      match rfind_char c rest with
      | Some i => Some (S i)
      | None => if Ascii.eqb c c' then Some O else None
      end
  end.

(** [start_idx = result.find('{'); end_idx = result.rfind('}') + 1] and,
    when [start_idx != -1 and end_idx != 0], [result[start_idx:end_idx]]
    (empty when the last brace of one kind precedes the first of the other). *)
Definition json_span (reply : string) : option string :=
  match find_char "{"%char reply, rfind_char "}"%char reply with
  | Some start_idx, Some last => Some (substring start_idx (S last - start_idx) reply)
  | _, _ => None
  end.

(** [l[-n:]] *)
Definition last_n {A : Type} (n : nat) (l : list A) : list A :=
  skipn (List.length l - n) l.

Definition Qsum (l : list Q) : Q := fold_right Qplus 0 l.

(** One line of [kline_text]: trend, open, close and percent move.  The
    cells are Python floats, so a zero open raises. *)
Definition kline_line (k : kline) : result (bool * Q * Q * Q) :=
  if Qeq_bool (k_open k) 0 then Raise ZeroDivisionError
  else Ok (Qlt_bool (k_open k) (k_close k), k_open k, k_close k,
           (k_close k - k_open k) / k_open k * 100).

Fixpoint kline_lines (l : list kline) : result (list (bool * Q * Q * Q)) :=
  match l with
  | [] => Ok []
  | k :: rest =>
      line <- kline_line k ;;
      lines <- kline_lines rest ;;
      Ok (line :: lines)
  end.

(** [indicator_text]: the 5-period mean and the price's deviation from it,
    once five observations are held. *)
Definition indicator (history : list price_data) (pd : price_data)
  : result (option (Q * Q)) :=
  if Nat.leb 5 (List.length history) then
    let closes := map price (last_n 5 history) in
    let sma_5 := Qsum closes / inject_Z (Z.of_nat (List.length closes)) in
    if Qeq_bool sma_5 0 then Raise ZeroDivisionError
    else Ok (Some (sma_5, (price pd - sma_5) / sma_5 * 100))
  else Ok None.

(** [signal_text]: the last signal's direction and confidence. *)
Definition last_signal_summary (signals : list pyval)
  : result (option (pyval * pyval)) :=
  match last_n 1 signals with
  | [] => Ok None
  | last_signal :: _ =>
      s <- Py.get_default last_signal "signal" (PStr "N/A") ;;
      c <- Py.get_default last_signal "confidence" (PStr "N/A") ;;
      Ok (Some (s, c))
  end.

(** [position_text]: [None] is the no-position text. *)
Definition position_summary (current_pos : option position_info)
  : result (option (position_side * Q * Q)) :=
  match current_pos with
  | None => Ok None
  | Some p =>
      s <- position_item_side p ;;
      sz <- position_item_size p ;;
      upl <- position_item_unrealized_pnl p ;;
      Ok (Some (s, sz, upl))
  end.

(** From [result = response.choices[0].message.content] to the dict that
    is appended and returned; [None] is the [return None] of the [else]. *)
Definition parse_signal (reply : string) (pd : price_data)
  : result (option pyval) :=
  match json_span reply with
  | None => Ok None
  | Some json_str =>
      match json_loads json_str with
      | None => Raise ValueError
      | Some (PDict d) =>
          Ok (Some (PDict (Py.set_item d "timestamp" (PStr (timestamp pd)))))
      | Some _ => Raise BadPayload
      end
  end.

(** From [kline_text] to [prompt]: what lies between the update of the
    price history and the [try]. *)
Definition build_prompt (cfg : trading_config) (ex : option exchange)
           (pd : price_data) : prog prompt :=
  lines <- lift (kline_lines (kline_data pd)) ;;
  history <- read price_history ;;
  ind <- lift (indicator history pd) ;;
  signals <- read signal_history ;;
  last_signal <- lift (last_signal_summary signals) ;;
  current_pos <- read (fun w => get_current_position cfg ex (submitted w)) ;;
  position_text <- lift (position_summary current_pos) ;;
  ret {| prompt_timeframe := timeframe cfg;
         prompt_klines := lines;
         prompt_indicator := ind;
         prompt_last_signal := last_signal;
         prompt_position := position_text;
         prompt_price_data := pd |}.

Definition analyze_with_deepseek (cfg : trading_config) (ex : option exchange)
           (client : option deepseek_client) (pd : price_data)
  : prog (option pyval) :=
  match client with
  | None => ret None
  | Some cl =>
      write (fun w => with_price_history w (append_bounded 20 (price_history w) pd)) ;;;
      p <- build_prompt cfg ex pd ;;
      catch
        (reply <- lift (chat_completions_create cl p) ;;
         parsed <- lift (parse_signal reply pd) ;;
         match parsed with
         | None => ret None
         | Some signal_data =>
             write (fun w => with_signal_history w
                               (append_bounded 30 (signal_history w) signal_data)) ;;;
             ret (Some signal_data)
         end)
        (fun _ => ret None)
  end.

(** *** Market snapshot: [get_btc_ohlcv] *)

(** One [ohlcv_data.append([...])] of the conversion loop. *)
Definition candle_row (candle : pyval) : result kline :=
  c0 <- Py.index candle 0 ;;
  c1 <- Py.index candle 1 ;;
  c2 <- Py.index candle 2 ;;
  c3 <- Py.index candle 3 ;;
  c4 <- Py.index candle 4 ;;
  c5 <- Py.index candle 5 ;;
  match to_timestamp c0 with
  | None => Raise ValueError
  | Some t =>
      o <- py_float c1 ;;
      h <- py_float c2 ;;
      l <- py_float c3 ;;
      c <- py_float c4 ;;
      v <- py_float c5 ;;
      Ok {| k_timestamp := t; k_open := o; k_high := h; k_low := l;
            k_close := c; k_volume := v |}
  end.

Fixpoint candle_rows (candles : list pyval) : result (list kline) :=
  match candles with
  | [] => Ok []
  | candle :: rest =>
      row <- candle_row candle ;;
      rows <- candle_rows rest ;;
      Ok (row :: rows)
  end.

(** [((current - previous) / previous) * 100] on frame scalars. *)
Definition percent_change (current previous : Q) : option Q :=
  if Qeq_bool previous 0 then None
  else Some ((current - previous) / previous * 100).

(** From the frame [df] (rows oldest first) to the returned dict.
    [df.iloc[-1]] raises on an empty frame. *)
Definition snapshot_of_frame (cfg : trading_config) (now : string)
           (df : list kline) : result price_data :=
  match rev df with
  | [] => Raise BadPayload
  | current_data :: before =>
      let previous_data :=
        if Nat.ltb 1 (List.length df) then hd current_data before
        else current_data in
      Ok {| price := k_close current_data;
            timestamp := now;
            high := k_high current_data;
            low := k_low current_data;
            volume := k_volume current_data;
            pd_timeframe := timeframe cfg;
            price_change :=
              percent_change (k_close current_data) (k_close previous_data);
            kline_data := last_n 5 df |}
  end.

(** The body of the [try] of [get_btc_ohlcv]; [response['data']] is in the
    exchange's order, newest candle first. *)
Definition get_btc_ohlcv_body (cfg : trading_config) (now : string)
           (response : pyval) : result price_data :=
  data <- response_data_nonempty response ;;
  candles <- Py.iter data ;;
  ohlcv <- candle_rows (rev candles) ;;
  snapshot_of_frame cfg now ohlcv.

Definition get_btc_ohlcv (cfg : trading_config) (ex : option exchange)
           (now : string) (submitted : list order_params) : option price_data :=
  match ex with
  | None => None
  | Some e =>
      try_or_none (response <- public_get_market_candles e submitted ;;
                   get_btc_ohlcv_body cfg now response)
  end.

(** *** Trade counters *)

(** The dict [stats] after [stats['last_updated'] = now]. *)
Definition stamped (now : string) (stats : trade_stats) : trade_stats :=
  {| total_trades := total_trades stats;
     winning_trades := winning_trades stats;
     losing_trades := losing_trades stats;
     last_updated := Some now |}.

(** [save_trade_stats]: stamps [last_updated] and rewrites the file;
    [writable] tells whether the directory and the file can be written.
    When they cannot, the exception is caught, the file is as it was and
    the answer is [False]. *)
Definition save_trade_stats (writable : bool) (now : string)
           (stats : trade_stats) : prog bool :=
  if writable then
    write (fun w => with_trade_stats_file w (Some (stamped now stats))) ;;;
    ret true
  else ret false.

Definition default_stats : trade_stats :=
  {| total_trades := 0; winning_trades := 0; losing_trades := 0;
     last_updated := None |}.

(** [load_trade_stats]: the document when the file exists and can be
    read ([readable]); the defaults, with the file left alone, when
    reading it raises; and when there is no file the defaults, saved at
    once and returned with the stamp that [save_trade_stats] put into
    them. *)
Definition load_trade_stats (readable writable : bool) (now : string)
  : prog trade_stats :=
  file <- read trade_stats_file ;;
  match file with
  | Some stats => if readable then ret stats else ret default_stats
  | None =>
      save_trade_stats writable now default_stats ;;;
      ret (stamped now default_stats)
  end.

(** The ['trade_count'] of the answers of [get_status] and
    [refresh_data]: [load_trade_stats().get('total_trades', 0)]. *)
Definition trade_count (readable writable : bool) (now : string) : prog Z :=
  trade_stats <- load_trade_stats readable writable now ;;
  ret (total_trades trade_stats).

(** The counting loop of [get_signal_accuracy] over the exchange's closed
    positions: [(total_trades, winning_trades, losing_trades)]. *)
Definition count_position (acc : Z * Z * Z) (pos : pyval) : result (Z * Z * Z) :=
  let '(total, winning, losing) := acc in
  close_avg_px <- Py.get_default pos "closeAvgPx" (PStr EmptyString) ;;
  if Py.truthy close_avg_px then
    realized_pnl <- Py.get_default pos "realizedPnl" (PStr "0") ;;
    let total := (total + 1)%Z in
    match (if Py.truthy realized_pnl then py_float realized_pnl else Ok 0) with
    | Ok pnl_value =>
        if Qlt_bool 0 pnl_value then Ok (total, (winning + 1)%Z, losing)
        else if Qlt_bool pnl_value 0 then Ok (total, winning, (losing + 1)%Z)
        else Ok (total, winning, losing)
    | Raise _ => Ok (total, winning, losing)
    end
  else Ok (total, winning, losing).

(** An exception inside the loop leaves it through the enclosing [try]:
    the counters keep what they held. *)
Fixpoint count_positions (acc : Z * Z * Z) (all_positions : list pyval)
  : Z * Z * Z :=
  match all_positions with
  | [] => acc
  | pos :: rest =>
      match count_position acc pos with
      | Ok acc' => count_positions acc' rest
      | Raise _ => acc
      end
  end.

(** *** Drawdown statistics of [get_equity_curve] *)

(** [((balance - max_balance_seen) / max_balance_seen * 100)
     if max_balance_seen > 0 else 0] *)
Definition drawdown_of (balance max_balance_seen : Q) : Q :=
  if Qlt_bool 0 max_balance_seen
  then (balance - max_balance_seen) / max_balance_seen * 100
  else 0.

(** The loop variables [max_balance_seen] and [max_drawdown], with the
    [drawdown] of the iteration just run. *)
Record drawdown_state : Type :=
  { max_balance_seen : Q;
    max_drawdown : Q;
    drawdown : Q }.

(** One iteration of [for item in equity_data:], on [item['balance']];
    the lines after the loop do the same on the live balance. *)
Definition drawdown_step (st : drawdown_state) (balance : Q) : drawdown_state :=
  let seen :=
    if Qlt_bool (max_balance_seen st) balance then balance
    else max_balance_seen st in
  let dd := drawdown_of balance seen in
  {| max_balance_seen := seen;
     max_drawdown := if Qlt_bool dd (max_drawdown st) then dd else max_drawdown st;
     drawdown := dd |}.

(** The states after each iteration, in order. *)
Fixpoint drawdown_trace (st : drawdown_state) (balances : list Q)
  : list drawdown_state :=
  match balances with
  | [] => []
  | b :: rest => let st' := drawdown_step st b in st' :: drawdown_trace st' rest
  end.

Definition drawdown_loop (st : drawdown_state) (balances : list Q)
  : drawdown_state :=
  fold_left drawdown_step balances st.

(** [max_balance_seen = equity_data[0]['balance']; max_drawdown = 0] *)
Definition drawdown_init (first : equity_point) : drawdown_state :=
  {| max_balance_seen := ep_balance first;
     max_drawdown := 0;
     drawdown := 0 |}.

(** Lines 1821-1839: the loop over the stored points, then the live
    balance [current]; [equity_data[0]] raises on an empty list, which the
    source excludes by [if len(equity_data) > 0]. *)
Definition equity_drawdown (equity_data : list equity_point) (current : Q)
  : option drawdown_state :=
  match equity_data with
  | [] => None
  | first :: _ =>
      let st := drawdown_loop (drawdown_init first) (map ep_balance equity_data) in
      Some (drawdown_step st current)
  end.

(** *** Vocabulary of the statements *)

(** [d.get(k)] as a value. *)
Definition field (d : list (string * pyval)) (k : string) : pyval :=
  match Py.lookup k d with Some v => v | None => PNone end.

(** The field [k] of [d] is absent, or converts to zero. *)
Definition reads_zero (d : list (string * pyval)) (k : string) : Prop :=
  match Py.lookup k d with
  | None => True
  | Some v => exists q, py_float v = Ok q /\ q == 0
  end.

(** [v] is the first truthy of the fields [k1], [k2], [k3] of [d]: the
    tier that supplies the balance. *)
Definition tier (d : list (string * pyval)) (k1 k2 k3 : string) (v : pyval)
  : Prop :=
  (Py.truthy (field d k1) = true /\ v = field d k1) \/
  (Py.truthy (field d k1) = false /\ Py.truthy (field d k2) = true /\
   v = field d k2) \/
  (Py.truthy (field d k1) = false /\ Py.truthy (field d k2) = false /\
   Py.truthy (field d k3) = true /\ v = field d k3).

(** The fields [k1], [k2], [k3] of [d] give a balance of zero: the first
    truthy one converts to zero; or none is truthy and the third, which
    the [or] chain then yields as it is, converts to zero or is [None]
    with [k1] absent or converting to zero.  Falsy fields that are passed
    over may hold anything, blanks included. *)
Definition tier_zero (d : list (string * pyval)) (k1 k2 k3 : string) : Prop :=
  (exists v q, tier d k1 k2 k3 v /\ py_float v = Ok q /\ q == 0) \/
  (Py.truthy (field d k1) = false /\ Py.truthy (field d k2) = false /\
   Py.truthy (field d k3) = false /\
   ((field d k3 = PNone /\ reads_zero d k1) \/
    exists q, py_float (field d k3) = Ok q /\ q == 0)).

(** An entry of [details] for another currency. *)
Definition other_currency (detail : pyval) : Prop :=
  exists d, detail = PDict d /\ Py.eq_str (field d "ccy") "USDT" = false.

(** The entry of [details] the loop stops at: [Some d] for the first USDT
    entry, [None] when every entry is for another currency. *)
Definition usdt_detail (details : list pyval)
           (detail : option (list (string * pyval))) : Prop :=
  match detail with
  | None => Forall other_currency details
  | Some d =>
      exists skipped rest,
        details = (skipped ++ PDict d :: rest)%list /\
        Forall other_currency skipped /\
        Py.eq_str (field d "ccy") "USDT" = true
  end.

(** What the USDT entry gives for one balance: the [or] chain, then the
    conversion. *)
Definition detail_balance (d : list (string * pyval)) (k1 k2 k3 : string)
  : result Q :=
  chosen <- first_truthy (PDict d) k1 k2 k3 ;;
  float_or_field (PDict d) chosen k1.

(** The balance [q] that [get_current_position] reports, from the tiers
    [k1], [k2], [k3] of the USDT entry and the account-level field [key]:
    the tier's value when that is not zero; else the account-level field
    when that is truthy; else zero. *)
Definition resolved (detail : option (list (string * pyval)))
           (account : list (string * pyval)) (k1 k2 k3 key : string) (q : Q)
  : Prop :=
  let detail_is_zero :=
    match detail with
    | None => True
    | Some d => tier_zero d k1 k2 k3
    end in
  (exists d v, detail = Some d /\ tier d k1 k2 k3 v /\
               py_float v = Ok q /\ ~ q == 0) \/
  (detail_is_zero /\ Py.truthy (field account key) = true /\
   py_float (field account key) = Ok q) \/
  (detail_is_zero /\ Py.truthy (field account key) = false /\ q == 0).

(** An entry of the positions payload that is no open position of the
    instrument: another instrument, or a quantity of zero. *)
Definition no_open_position (pos_data : pyval) : Prop :=
  exists d, pos_data = PDict d /\
            (Py.eq_str (field d "instId") inst_id = false \/
             exists q, float_field pos_data "pos" 0 = Ok q /\ q == 0).

(** The six cells of [candle] convert to the fields of [row]: timestamp,
    open, high, low, close and volume, in that order. *)
Definition candle_cells (candle : pyval) (row : kline) : Prop :=
  exists c0 c1 c2 c3 c4 c5,
    Py.index candle 0 = Ok c0 /\ Py.index candle 1 = Ok c1 /\
    Py.index candle 2 = Ok c2 /\ Py.index candle 3 = Ok c3 /\
    Py.index candle 4 = Ok c4 /\ Py.index candle 5 = Ok c5 /\
    to_timestamp c0 = Some (k_timestamp row) /\
    py_float c1 = Ok (k_open row) /\ py_float c2 = Ok (k_high row) /\
    py_float c3 = Ok (k_low row) /\ py_float c4 = Ok (k_close row) /\
    py_float c5 = Ok (k_volume row).

(** Rows in the order the exchange sends them: each later than all that
    follow. *)
Definition newest_first (rows : list kline) : Prop :=
  ForallOrdPairs (fun a b => (k_timestamp b < k_timestamp a)%Z) rows.

(** Rows in the order of time: each earlier than all that follow. *)
Definition chronological (rows : list kline) : Prop :=
  ForallOrdPairs (fun a b => (k_timestamp a < k_timestamp b)%Z) rows.

(** A record of the positions history that counts as a trade: its
    [closeAvgPx] is there and truthy. *)
Definition is_closed (pos : list (string * pyval)) : bool :=
  Py.truthy (match Py.lookup "closeAvgPx" pos with
             | Some c => c
             | None => PStr EmptyString
             end).

(** The realized PnL the counting loop works with: 0 for a blank or
    absent field, nothing when the field does not convert. *)
Definition realized_pnl (pos : list (string * pyval)) : option Q :=
  let v := match Py.lookup "realizedPnl" pos with
           | Some v => v
           | None => PStr "0"
           end in
  if Py.truthy v then try_or_none (py_float v) else Some 0.

Definition is_win (pos : list (string * pyval)) : bool :=
  is_closed pos &&
  match realized_pnl pos with Some q => Qlt_bool 0 q | None => false end.

Definition is_loss (pos : list (string * pyval)) : bool :=
  is_closed pos &&
  match realized_pnl pos with Some q => Qlt_bool q 0 | None => false end.

(** [account_data.get('details', [])] is the list [details]. *)
Definition account_details (account : list (string * pyval))
           (details : list pyval) : Prop :=
  Py.lookup "details" account = Some (PList details) \/
  (Py.lookup "details" account = None /\ details = []).

(** The loop of [trading_bot] as far as the histories go: one
    [analyze_with_deepseek] per observation, whatever each call yields. *)
Fixpoint analyze_all (cfg : trading_config) (ex : option exchange)
         (client : option deepseek_client) (observations : list price_data)
         (w : world) : world :=
  match observations with
  | [] => w
  | pd :: rest =>
      analyze_all cfg ex client rest
                  (snd (analyze_with_deepseek cfg ex client pd w))
  end.

(** [accuracy_rate] of [get_signal_accuracy], before it is rounded:
    [(winning_trades / total_trades * 100) if total_trades > 0 else 0]. *)
Definition accuracy_rate (counters : Z * Z * Z) : Q :=
  let '(total_trades, winning_trades, _) := counters in
  if (0 <? total_trades)%Z
  then inject_Z winning_trades / inject_Z total_trades * 100
  else 0.

(** *** One iteration of [trading_bot] *)

(** How an iteration ends, as far as trading goes: the two early
    [continue]s, the call of [execute_trade], or the [except] of the loop
    body. *)
Inductive cycle_outcome : Type :=
| NoSnapshot
| NoSignal
| Executed
| CycleError (e : exn).

(** The body of the [while] up to and including [execute_trade], under
    the [except] of the loop; what follows in the iteration only reads the
    account and reports. *)
Definition trading_cycle (cfg : trading_config) (ex : option exchange)
           (client : option deepseek_client) (now : string)
  : prog cycle_outcome :=
  catch
    (price_data <- read (fun w => get_btc_ohlcv cfg ex now (submitted w)) ;;
     match price_data with
     | None => ret NoSnapshot
     | Some pd =>
         signal_data <- analyze_with_deepseek cfg ex client pd ;;
         match signal_data with
         | None => ret NoSignal
         | Some sd =>
             if negb (Py.truthy sd) then ret NoSignal
             else execute_trade cfg ex sd ;;; ret Executed
         end
     end)
    (fun e => ret (CycleError e)).

(** *** What the process does that could touch the trade counters *)

(** An iteration of the trading loop, or a request to [get_status] or
    [refresh_data] (the callers of [load_trade_stats]). *)
Inductive activity : Type :=
| LoopIteration (cfg : trading_config) (ex : option exchange)
                (client : option deepseek_client) (now : string)
| StatusRequest (readable writable : bool) (now : string).

Definition perform (w : world) (a : activity) : world :=
  match a with
  | LoopIteration cfg ex client now =>
      snd (trading_cycle cfg ex client now w)
  | StatusRequest readable writable now =>
      snd (trade_count readable writable now w)
  end.

Definition perform_all (activities : list activity) (w : world) : world :=
  fold_left perform activities w.

(** ** Properties of the executor *)

Open Scope list_scope.

Ltac run := repeat (cbn [bind ret prog_monad result_monad lift read write catch
                          post_trade_order create_market_order_safe
                          fst snd submitted with_submitted price_history
                          signal_history trade_stats_file]).

(** [create_market_order_safe] records exactly its own order and touches
    nothing else, whatever the exchange replies. *)
Lemma create_market_order_safe_world (ex : exchange) (s : order_side) (q : Q)
      (ro : bool) (w : world) :
  snd (create_market_order_safe ex s q ro w)
  = with_submitted w (submitted w ++ [market_order_params s q ro]).
Proof.
  unfold create_market_order_safe, post_trade_order. run.
  destruct (private_post_trade_order ex (submitted w) (market_order_params s q ro));
    run; reflexivity.
Qed.

(** The orders recorded do not change what the oracle reads from a given
    list of orders; the world's other fields play no part in it. *)
Lemma execute_trade_body_orders (cfg : trading_config) (ex : exchange)
      (cp : option position_info) (signal : pyval) (w : world) :
  let w' := snd (execute_trade_body cfg ex cp signal w) in
  price_history w' = price_history w /\
  signal_history w' = signal_history w /\
  trade_stats_file w' = trade_stats_file w /\
  (submitted w' = submitted w \/
   exists o, submitted w' = submitted w ++ [o]).
Proof.
  unfold execute_trade_body.
  destruct (Py.eq_str signal "BUY");
    [| destruct (Py.eq_str signal "SELL");
       [| destruct (Py.eq_str signal "HOLD"); cbn; auto ] ].
  all: unfold lift; cbn [bind prog_monad].
  all: destruct (position_has_side cp _) as [[|]|]; cbn [fst snd]; auto.
  all: try (destruct (current_size cp); cbn [fst snd]; auto).
  all: match goal with
       | |- context [create_market_order_safe ?e ?s ?q ?r ?w] =>
           pose proof (create_market_order_safe_world e s q r w) as Hw;
           destruct (create_market_order_safe e s q r w) as [[?|?] w1];
           cbn [fst snd] in *; subst w1; cbn; eauto 6
       end.
Qed.

(** *** What an open position reported by the oracle looks like *)

Ltac bind_inv H :=
  match type of H with
  | context [match ?c with Ok _ => _ | Raise _ => _ end] =>
      let E := fresh "E" in
      destruct c eqn:E; cbn [bind result_monad] in H; [| discriminate H]
  end.

Lemma open_position_inv (cfg : trading_config) (pos_data : pyval) (pos f t : Q)
      (st : position_state) :
  open_position cfg pos_data pos f t = Ok st ->
  pos_side st = (if Qlt_bool 0 pos then Long else Short) /\
  size st = Qabs pos /\ position_amt st = pos /\
  pos_total_balance st = t /\ pos_free_balance st = f.
Proof.
  unfold open_position. cbn [bind result_monad]. intros H.
  repeat bind_inv H.
  injection H as <-. cbn. repeat split; reflexivity.
Qed.

Lemma scan_positions_open (cfg : trading_config) (f t : Q) (l : list pyval)
      (st : position_state) :
  scan_positions cfg f t l = Ok (OpenPosition st) ->
  Qlt_bool 0 (Qabs (position_amt st)) = true /\
  pos_side st = (if Qlt_bool 0 (position_amt st) then Long else Short) /\
  size st = Qabs (position_amt st) /\
  pos_total_balance st = t /\ pos_free_balance st = f.
Proof.
  induction l as [|pos_data rest IH]; cbn [scan_positions bind result_monad].
  - discriminate.
  - intros H. bind_inv H.
    destruct (Py.eq_str a inst_id); [| auto].
    bind_inv H.
    destruct (Qlt_bool 0 (Qabs a0)) eqn:Hpos; [| auto].
    bind_inv H. injection H as <-.
    apply open_position_inv in E1 as (Hs & Hsz & Ha & Ht & Hf).
    rewrite Ha. auto.
Qed.

Lemma get_current_position_open (cfg : trading_config) (ex : option exchange)
      (orders : list order_params) (st : position_state) :
  get_current_position cfg ex orders = Some (OpenPosition st) ->
  Qlt_bool 0 (Qabs (position_amt st)) = true /\
  pos_side st = (if Qlt_bool 0 (position_amt st) then Long else Short) /\
  size st = Qabs (position_amt st).
Proof.
  unfold get_current_position, try_or_none, get_current_position_body.
  destruct ex as [e|]; [| discriminate].
  cbn [bind result_monad]. intros H.
  destruct (private_get_account_positions e orders); [| discriminate].
  cbn [bind result_monad] in H.
  destruct (response_data a); [| discriminate]. cbn [bind result_monad] in H.
  destruct (Py.iter a0); [| discriminate]. cbn [bind result_monad] in H.
  destruct (private_get_account_balance e orders); [| discriminate].
  cbn [bind result_monad] in H.
  destruct (resolve_balances a2); [| discriminate]. cbn [bind result_monad] in H.
  destruct (scan_positions cfg (fst a3) (snd a3) a1) eqn:Hscan; [| discriminate].
  injection H as ->.
  apply scan_positions_open in Hscan as (Habs & Hside & Hsize & _).
  split; [exact Habs |]. split; [exact Hside | exact Hsize].
Qed.

Lemma Qlt_bool_iff (a b : Q) : Qlt_bool a b = true <-> a < b.
Proof.
  unfold Qlt_bool. rewrite negb_true_iff.
  split; intros H.
  - apply Qnot_le_lt. intros Hle. apply Qle_bool_iff in Hle. congruence.
  - destruct (Qle_bool b a) eqn:E; [| reflexivity].
    apply Qle_bool_iff in E. exfalso. apply (Qlt_not_le _ _ H E).
Qed.

(** A long position is one whose raw quantity is positive, and its size is
    that quantity. *)
Lemma long_position_amount (cfg : trading_config) (ex : option exchange)
      (orders : list order_params) (st : position_state) :
  get_current_position cfg ex orders = Some (OpenPosition st) ->
  pos_side st = Long ->
  0 < position_amt st /\ size st = Qabs (position_amt st) /\ 0 < size st.
Proof.
  intros H Hlong.
  apply get_current_position_open in H as (Habs & Hside & Hsize).
  rewrite Hside in Hlong.
  destruct (Qlt_bool 0 (position_amt st)) eqn:Hp; [| discriminate].
  apply Qlt_bool_iff in Hp. apply Qlt_bool_iff in Habs.
  rewrite Hsize. auto.
Qed.

(** *** The branches of the [try] of [execute_trade] *)

Ltac one_order e s q r w :=
  let Hw := fresh "Hw" in
  let w1 := fresh "w" in
  pose proof (create_market_order_safe_world e s q r w) as Hw;
  destruct (create_market_order_safe e s q r w) as [[?|?] w1];
  cbn [fst snd ret prog_monad] in *; exact Hw.

(** Already long, told to buy: the [else] branch opens once more. *)
Lemma long_buy_body (cfg : trading_config) (e : exchange)
      (st : position_state) (w : world) :
  pos_side st = Long ->
  snd (execute_trade_body cfg e (Some (OpenPosition st)) (PStr "BUY") w)
  = with_submitted w (submitted w ++ [market_order_params Buy (amount cfg) false]).
Proof.
  intros Hlong. unfold execute_trade_body, lift.
  cbn [Py.eq_str String.eqb Ascii.eqb Bool.eqb position_has_side
       position_item_side bind prog_monad result_monad].
  rewrite Hlong.
  one_order e Buy (amount cfg) false w.
Qed.

(** Long, told to sell: one reduce-only sell of the whole size. *)
Lemma long_sell_body (cfg : trading_config) (e : exchange)
      (st : position_state) (w : world) :
  pos_side st = Long ->
  snd (execute_trade_body cfg e (Some (OpenPosition st)) (PStr "SELL") w)
  = with_submitted w (submitted w ++ [market_order_params Sell (size st) true]).
Proof.
  intros Hlong. unfold execute_trade_body, lift.
  cbn [Py.eq_str String.eqb Ascii.eqb Bool.eqb position_has_side
       position_item_side current_size position_item_size
       bind prog_monad result_monad].
  rewrite Hlong. cbn [bind prog_monad].
  one_order e Sell (size st) true w.
Qed.

(** No position but account figures: ['side'] is looked up in a dict
    that lacks it. *)
Lemma flat_body (cfg : trading_config) (e : exchange) (direction : pyval)
      (total free : Q) (w : world) :
  direction = PStr "BUY" \/ direction = PStr "SELL" ->
  execute_trade_body cfg e (Some (AccountInfoOnly total free)) direction w
  = (Raise (KeyError "side"), w).
Proof.
  intros [-> | ->]; reflexivity.
Qed.

(** The oracle failed: the [else] branch opens a position. *)
Lemma unavailable_buy_body (cfg : trading_config) (e : exchange) (w : world) :
  snd (execute_trade_body cfg e None (PStr "BUY") w)
  = with_submitted w (submitted w ++ [market_order_params Buy (amount cfg) false]).
Proof.
  unfold execute_trade_body, lift.
  cbn [Py.eq_str String.eqb Ascii.eqb Bool.eqb position_has_side
       bind prog_monad result_monad].
  one_order e Buy (amount cfg) false w.
Qed.

(** The executor never writes the histories or the stats file, whatever
    the signal, the position and the mode. *)
Lemma execute_trade_keeps_ledger (cfg : trading_config) (ex : option exchange)
      (signal_data : pyval) (w : world) :
  let w' := snd (execute_trade cfg ex signal_data w) in
  price_history w' = price_history w /\
  signal_history w' = signal_history w /\
  trade_stats_file w' = trade_stats_file w.
Proof.
  destruct ex as [e|]; [| cbn; auto].
  unfold execute_trade, read, lift, catch.
  cbn [bind prog_monad ret].
  destruct (Py.item signal_data "signal") as [direction|]; [| cbn; auto].
  destruct (Py.item signal_data "confidence"); [| cbn; auto].
  destruct (Py.item signal_data "reason"); [| cbn; auto].
  destruct (test_mode cfg); [cbn; auto |].
  pose proof (execute_trade_body_orders cfg e
                (get_current_position cfg (Some e) (submitted w)) direction w)
    as (Hp & Hs & Ht & _).
  destruct (execute_trade_body cfg e _ direction w) as [[[|]|err] w1];
    cbn [fst snd] in *; auto.
Qed.

(** *** The reconciliation table, for a well-formed signal *)

Section Reconcile.

Variables (cfg : trading_config) (e : exchange).
Variables (signal_data direction confidence reason : pyval).
Variable w : world.

Hypothesis Hsignal : Py.item signal_data "signal" = Ok direction.
Hypothesis Hconfidence : Py.item signal_data "confidence" = Ok confidence.
Hypothesis Hreason : Py.item signal_data "reason" = Ok reason.

(** Dry run: the decision is logged and nothing is submitted. *)
Lemma execute_trade_test_mode :
  test_mode cfg = true ->
  execute_trade cfg (Some e) signal_data w = (Ok tt, w).
Proof.
  intros Htest. unfold execute_trade, read, lift.
  cbn [bind prog_monad]. rewrite Hsignal, Hconfidence, Hreason, Htest.
  reflexivity.
Qed.

(** Live mode: [execute_trade] is the body of its [try], any exception
    swallowed. *)
Lemma execute_trade_live :
  test_mode cfg = false ->
  execute_trade cfg (Some e) signal_data w
  = (Ok tt,
     snd (execute_trade_body cfg e
            (get_current_position cfg (Some e) (submitted w)) direction w)).
Proof.
  intros Hlive. unfold execute_trade, read, lift, catch.
  cbn [bind prog_monad ret]. rewrite Hsignal, Hconfidence, Hreason, Hlive.
  destruct (execute_trade_body cfg e _ direction w) as [[[|]|err] w1];
    reflexivity.
Qed.

End Reconcile.

(** C1, as the code has it: an open long position and a BUY signal of any
    confidence: in live mode [execute_trade] submits exactly one order, a
    market buy of the configured [amount] that is not reduce-only (it adds
    to the long); in test mode it submits nothing. *)
Theorem long_buy_opens_again
        (cfg : trading_config) (e : exchange)
        (signal_data confidence reason : pyval)
        (st : position_state) (w : world) :
  get_current_position cfg (Some e) (submitted w) = Some (OpenPosition st) ->
  pos_side st = Long ->
  Py.item signal_data "signal" = Ok (PStr "BUY") ->
  Py.item signal_data "confidence" = Ok confidence ->
  Py.item signal_data "reason" = Ok reason ->
  execute_trade cfg (Some e) signal_data w
  = (Ok tt,
     if test_mode cfg then w
     else with_submitted w
            (submitted w ++ [market_order_params Buy (amount cfg) false])).
Proof.
  intros Hpos Hlong Hs Hc Hr.
  destruct (test_mode cfg) eqn:Hmode.
  - eapply execute_trade_test_mode; eassumption.
  - erewrite execute_trade_live by eassumption. rewrite Hpos.
    rewrite (long_buy_body cfg e st w Hlong). reflexivity.
Qed.

(** Long and told to sell, live: the world after [execute_trade] differs
    by one submitted order, the reduce-only sell of the position's size. *)
Lemma long_sell_execute
      (cfg : trading_config) (e : exchange)
      (signal_data confidence reason : pyval)
      (st : position_state) (w : world) :
  test_mode cfg = false ->
  get_current_position cfg (Some e) (submitted w) = Some (OpenPosition st) ->
  pos_side st = Long ->
  Py.item signal_data "signal" = Ok (PStr "SELL") ->
  Py.item signal_data "confidence" = Ok confidence ->
  Py.item signal_data "reason" = Ok reason ->
  execute_trade cfg (Some e) signal_data w
  = (Ok tt,
     with_submitted w
       (submitted w ++ [market_order_params Sell (size st) true])).
Proof.
  intros Hmode Hpos Hlong Hs Hc Hr.
  erewrite execute_trade_live by eassumption. rewrite Hpos.
  rewrite (long_sell_body cfg e st w Hlong). reflexivity.
Qed.

(** C2: no same-cycle flip: for an open long position and a SELL signal
    of any confidence, live [execute_trade] submits exactly one order; it
    is a reduce-only market sell of the whole position size, and nothing
    that opens a position is submitted in that cycle. *)
Theorem long_sell_closes_once
        (cfg : trading_config) (e : exchange)
        (signal_data confidence reason : pyval)
        (st : position_state) (w : world) :
  test_mode cfg = false ->
  get_current_position cfg (Some e) (submitted w) = Some (OpenPosition st) ->
  pos_side st = Long ->
  Py.item signal_data "signal" = Ok (PStr "SELL") ->
  Py.item signal_data "confidence" = Ok confidence ->
  Py.item signal_data "reason" = Ok reason ->
  exists order : order_params,
    execute_trade cfg (Some e) signal_data w
    = (Ok tt, with_submitted w (submitted w ++ [order])) /\
    side order = Sell /\ ordType order = "market" /\
    reduceOnly order = true /\
    sz order = size st /\ size st = Qabs (position_amt st) /\
    0 < position_amt st.
Proof.
  intros Hmode Hpos Hlong Hs Hc Hr.
  exists (market_order_params Sell (size st) true).
  rewrite (long_sell_execute cfg e signal_data w Hmode Hpos Hlong Hs Hc Hr).
  destruct (long_position_amount _ _ _ Hpos Hlong) as (Hamt & Hsize & _).
  do 5 (split; [reflexivity |]).
  split; [exact Hsize | exact Hamt].
Qed.

(** No open position but account balances, and a BUY or SELL signal: live
    [execute_trade] ends in its [except] clause and submits nothing. *)
Lemma flat_submits_nothing
      (cfg : trading_config) (e : exchange)
      (signal_data direction confidence reason : pyval)
      (total free : Q) (w : world) :
  test_mode cfg = false ->
  get_current_position cfg (Some e) (submitted w)
  = Some (AccountInfoOnly total free) ->
  Py.item signal_data "signal" = Ok direction ->
  direction = PStr "BUY" \/ direction = PStr "SELL" ->
  Py.item signal_data "confidence" = Ok confidence ->
  Py.item signal_data "reason" = Ok reason ->
  execute_trade cfg (Some e) signal_data w = (Ok tt, w).
Proof.
  intros Hmode Hpos Hs Hdir Hc Hr.
  erewrite execute_trade_live by eassumption. rewrite Hpos.
  rewrite (flat_body cfg e total free w Hdir). reflexivity.
Qed.

(** The oracle unavailable and a BUY signal: live [execute_trade] opens a
    long of the configured [amount]. *)
Lemma unavailable_buy_opens
      (cfg : trading_config) (e : exchange)
      (signal_data confidence reason : pyval) (w : world) :
  test_mode cfg = false ->
  get_current_position cfg (Some e) (submitted w) = None ->
  Py.item signal_data "signal" = Ok (PStr "BUY") ->
  Py.item signal_data "confidence" = Ok confidence ->
  Py.item signal_data "reason" = Ok reason ->
  execute_trade cfg (Some e) signal_data w
  = (Ok tt, with_submitted w
              (submitted w ++ [market_order_params Buy (amount cfg) false])).
Proof.
  intros Hmode Hpos Hs Hc Hr.
  erewrite execute_trade_live by eassumption. rewrite Hpos.
  rewrite (unavailable_buy_body cfg e w). reflexivity.
Qed.

(** ** Properties of the position oracle *)

Lemma Qeq_bool_zero (q : Q) : q == 0 -> Qeq_bool q 0 = true.
Proof. intros H. apply Qeq_bool_iff. exact H. Qed.

Lemma Qabs_zero_not_pos (q : Q) : q == 0 -> Qlt_bool 0 (Qabs q) = false.
Proof.
  intros H. destruct (Qlt_bool 0 (Qabs q)) eqn:E; [| reflexivity].
  apply Qlt_bool_iff in E. rewrite H in E. cbn in E.
  exfalso. apply (Qlt_irrefl 0). exact E.
Qed.

(** What the [or] chains pick is one of their operands. *)
Lemma or_cases (a b : pyval) :
  (Py.truthy a = true /\ Py.or_ a b = a) \/
  (Py.truthy a = false /\ Py.or_ a b = b).
Proof. unfold Py.or_. destruct (Py.truthy a); auto. Qed.

Lemma lookup_get (d : list (string * pyval)) (k : string) :
  Py.get (PDict d) k = Ok (field d k).
Proof. reflexivity. Qed.

Lemma scan_positions_none (cfg : trading_config) (free total : Q)
      (positions : list pyval) :
  Forall no_open_position positions ->
  scan_positions cfg free total positions = Ok (AccountInfoOnly total free).
Proof.
  induction 1 as [| pos_data rest (d & -> & Hd) _ IH]; [reflexivity |].
  cbn [scan_positions]. rewrite lookup_get. cbn [bind result_monad].
  destruct Hd as [-> | (q & -> & Hq)]; [exact IH |].
  cbn [bind result_monad]. rewrite (Qabs_zero_not_pos Hq).
  destruct (Py.eq_str (field d "instId") inst_id); exact IH.
Qed.

Lemma lookup_truthy (d : list (string * pyval)) (k : string) (v : pyval) :
  Py.lookup k d = Some v -> Py.truthy (PDict d) = true.
Proof. destruct d; [discriminate | reflexivity]. Qed.

Lemma response_data_dict (r : list (string * pyval)) (v : pyval) :
  Py.lookup "data" r = Some v -> response_data (PDict r) = Ok v.
Proof.
  intros H. unfold response_data.
  rewrite (lookup_truthy _ _ H), H. reflexivity.
Qed.

(** *** Resolution of the balances *)

Lemma truthy_is_not_none (v : pyval) :
  Py.truthy v = true -> Py.is_not_none v = true.
Proof. destruct v; [discriminate | reflexivity ..]. Qed.

(** The [or] chain yields the tier. *)
Lemma tier_first_truthy (d : list (string * pyval)) (k1 k2 k3 : string)
      (v : pyval) :
  tier d k1 k2 k3 v ->
  first_truthy (PDict d) k1 k2 k3 = Ok v /\ Py.truthy v = true.
Proof.
  unfold first_truthy. rewrite !lookup_get. cbn [bind result_monad].
  unfold Py.or_.
  intros [(H1 & ->) | [(H1 & H2 & ->) | (H1 & H2 & H3 & ->)]];
    (split; [| assumption]).
  - rewrite H1. cbv iota. rewrite H1. reflexivity.
  - rewrite H1. cbv iota. rewrite H2. reflexivity.
  - rewrite H1. cbv iota. rewrite H2. reflexivity.
Qed.

Lemma tier_balance (d : list (string * pyval)) (k1 k2 k3 : string)
      (v : pyval) (q : Q) :
  tier d k1 k2 k3 v -> py_float v = Ok q -> detail_balance d k1 k2 k3 = Ok q.
Proof.
  intros Htier Hq. unfold detail_balance.
  destruct (tier_first_truthy Htier) as (-> & Htruthy).
  cbn [bind result_monad]. unfold float_or_field.
  rewrite (truthy_is_not_none _ Htruthy). exact Hq.
Qed.

Lemma tier_zero_balance (d : list (string * pyval)) (k1 k2 k3 : string) :
  tier_zero d k1 k2 k3 ->
  exists q, detail_balance d k1 k2 k3 = Ok q /\ q == 0.
Proof.
  intros [(v & q & Htier & Hq & Hz) | (H1 & H2 & H3 & Hlast)].
  - exists q. split; [exact (tier_balance Htier Hq) | exact Hz].
  - unfold detail_balance, first_truthy. rewrite !lookup_get.
    cbn [bind result_monad]. unfold Py.or_.
    rewrite H1. cbv iota. rewrite H2. unfold float_or_field.
    destruct Hlast as [(Hnone & Hk1) | (q & Hq & Hz)].
    + rewrite Hnone. cbn [Py.is_not_none Py.get_default bind result_monad].
      unfold reads_zero in Hk1.
      destruct (Py.lookup k1 d) as [v|]; [exact Hk1 |].
      exists 0. split; reflexivity.
    + exists q. split; [| exact Hz].
      destruct (field d k3); try exact Hq. discriminate Hq.
Qed.

Lemma scan_details_skip (skipped rest : list pyval) :
  Forall other_currency skipped ->
  scan_details (skipped ++ rest) = scan_details rest.
Proof.
  induction 1 as [| detail more (d & -> & Hccy) _ IH]; [reflexivity |].
  cbn [app scan_details]. rewrite lookup_get. cbn [bind result_monad].
  rewrite Hccy. exact IH.
Qed.

(** The loop over [details] stops at the first USDT entry and takes both
    balances from it; without one both stay 0. *)
Lemma scan_details_usdt (details : list pyval)
      (detail : option (list (string * pyval))) :
  usdt_detail details detail ->
  scan_details details
  = match detail with
    | None => Ok (0, 0)
    | Some d =>
        free_balance <- detail_balance d "availBal" "availEq" "eq" ;;
        total_balance <- detail_balance d "bal" "eq" "frozenBal" ;;
        Ok (free_balance, total_balance)
    end.
Proof.
  destruct detail as [d|]; cbn [usdt_detail].
  - intros (skipped & rest & -> & Hskip & Hccy).
    rewrite (scan_details_skip _ Hskip).
    cbn [scan_details]. rewrite lookup_get. cbn [bind result_monad].
    rewrite Hccy. reflexivity.
  - intros Hall. rewrite <- (app_nil_r details).
    rewrite (scan_details_skip _ Hall). reflexivity.
Qed.

Lemma account_fallback_nonzero (account : pyval) (key : string) (x : Q) :
  ~ x == 0 -> account_fallback account key x = Ok x.
Proof.
  intros Hx. unfold account_fallback.
  destruct (Qeq_bool x 0) eqn:E; [| reflexivity].
  apply Qeq_bool_iff in E. contradiction.
Qed.

Lemma account_fallback_at_zero (account : list (string * pyval))
      (key : string) (x : Q) :
  x == 0 ->
  account_fallback (PDict account) key x
  = if Py.truthy (field account key) then py_float (field account key)
    else Ok x.
Proof.
  intros Hx. unfold account_fallback.
  rewrite (Qeq_bool_zero Hx), lookup_get. reflexivity.
Qed.

(** One balance, from the USDT entry through the account-level field. *)
Lemma resolved_balance (detail : option (list (string * pyval)))
      (account : list (string * pyval)) (k1 k2 k3 key : string) (q : Q) :
  resolved detail account k1 k2 k3 key q ->
  exists x q',
    match detail with
    | None => x = 0
    | Some d => detail_balance d k1 k2 k3 = Ok x
    end /\
    account_fallback (PDict account) key x = Ok q' /\ q' == q.
Proof.
  unfold resolved. cbv zeta.
  assert (Hzero : match detail with
                  | None => True
                  | Some d => tier_zero d k1 k2 k3
                  end ->
                  exists x, match detail with
                            | None => x = 0
                            | Some d => detail_balance d k1 k2 k3 = Ok x
                            end /\ x == 0).
  { destruct detail as [d|].
    - intros Hd. destruct (tier_zero_balance Hd) as (x & Hx & Hz).
      exists x. split; assumption.
    - intros _. exists 0. split; reflexivity. }
  intros [(d & v & -> & Htier & Hq & Hnz) | [(Hd & Ht & Hq) | (Hd & Ht & Hz)]].
  - exists q, q. split; [exact (tier_balance Htier Hq) |].
    split; [apply account_fallback_nonzero; exact Hnz | reflexivity].
  - destruct (Hzero Hd) as (x & Hx & Hxz). exists x, q.
    split; [exact Hx |].
    rewrite (account_fallback_at_zero _ _ Hxz), Ht.
    split; [exact Hq | reflexivity].
  - destruct (Hzero Hd) as (x & Hx & Hxz). exists x, x.
    split; [exact Hx |].
    rewrite (account_fallback_at_zero _ _ Hxz), Ht.
    split; [reflexivity |]. rewrite Hxz, Hz. reflexivity.
Qed.

(** C6: a zero balance is not a failure, and the balances are resolved
    by tiers.  With no open position of the instrument in the positions
    payload, [get_current_position] returns the account-only dict, not
    [None], and each balance it carries is resolved as follows, from the
    first USDT entry of [details] if there is one: the first truthy of
    [availBal], [availEq], [eq] (of [bal], [eq], [frozenBal] for the
    total) when its value is not zero; when it is zero, or all three are
    absent, or there is no USDT entry, the account-level [availEq]
    ([eqUsd]) if that is truthy, and zero otherwise.  In particular an
    account whose every field is absent or zero gives the dict with both
    balances zero. *)
Theorem zero_balance_is_account_info
        (cfg : trading_config) (e : exchange) (orders : list order_params)
        (r b account : list (string * pyval))
        (positions more details : list pyval)
        (detail : option (list (string * pyval))) (free total : Q) :
  private_get_account_positions e orders = Ok (PDict r) ->
  Py.lookup "data" r = Some (PList positions) ->
  Forall no_open_position positions ->
  private_get_account_balance e orders = Ok (PDict b) ->
  Py.lookup "data" b = Some (PList (PDict account :: more)) ->
  account_details account details ->
  usdt_detail details detail ->
  resolved detail account "availBal" "availEq" "eq" "availEq" free ->
  resolved detail account "bal" "eq" "frozenBal" "eqUsd" total ->
  exists total' free',
    get_current_position cfg (Some e) orders
    = Some (AccountInfoOnly total' free') /\
    total' == total /\ free' == free.
Proof.
  intros Hpos Hr Hnone Hbal Hb Hdetails Husdt Hfree Htotal.
  destruct (resolved_balance Hfree) as (xf & free' & Hxf & Hfree' & Hfq).
  destruct (resolved_balance Htotal) as (xt & total' & Hxt & Htotal' & Htq).
  exists total', free'. split; [| split; assumption].
  assert (Hscan : scan_details details = Ok (xf, xt)).
  { rewrite (scan_details_usdt _ _ Husdt).
    destruct detail as [d|].
    - rewrite Hxf. cbn [bind result_monad]. rewrite Hxt. reflexivity.
    - subst xf xt. reflexivity. }
  unfold get_current_position, try_or_none, get_current_position_body.
  rewrite Hpos. cbn [bind result_monad].
  rewrite (response_data_dict _ Hr). cbn [bind result_monad Py.iter].
  rewrite Hbal. cbn [bind result_monad].
  assert (Hres : resolve_balances (PDict b) = Ok (free', total')).
  { unfold resolve_balances, response_data_nonempty.
    rewrite (response_data_dict _ Hb).
    cbn [bind result_monad Py.truthy negb Py.index nth_error Py.get_default].
    assert (Hiter : (details_v <- Ok match Py.lookup "details" account with
                                     | Some x => x
                                     | None => PList []
                                     end ;; Py.iter details_v) = Ok details).
    { destruct Hdetails as [-> | [-> ->]]; reflexivity. }
    cbn [bind result_monad] in Hiter |- *. rewrite Hiter.
    rewrite Hscan. cbn [bind result_monad fst snd].
    rewrite Hfree'. cbn [bind result_monad]. rewrite Htotal'. reflexivity. }
  rewrite Hres. cbn [bind result_monad fst snd].
  rewrite (scan_positions_none cfg free' total' Hnone). reflexivity.
Qed.

(** ** Properties of the bounded histories *)

Section Bounded.

Variable A : Type.

Lemma last_n_short (n : nat) (l : list A) :
  (List.length l <= n)%nat -> last_n n l = l.
Proof.
  intros H. unfold last_n.
  replace (List.length l - n)%nat with O by lia. reflexivity.
Qed.

Lemma last_n_length (n : nat) (l : list A) :
  List.length (last_n n l) = Nat.min n (List.length l).
Proof. unfold last_n. rewrite length_skipn. lia. Qed.

(** Dropping the front early or late comes to the same. *)
Lemma last_n_app (n : nat) (a b : list A) :
  last_n n (last_n n a ++ b) = last_n n (a ++ b).
Proof.
  unfold last_n.
  destruct (Nat.le_gt_cases (List.length a) n) as [Hle | Hgt].
  - replace (List.length a - n)%nat with O by lia. reflexivity.
  - set (k := (List.length a - n)%nat).
    rewrite !length_app, length_skipn.
    replace (List.length a - k + List.length b - n)%nat
      with (List.length b) by lia.
    replace (List.length a + List.length b - n)%nat
      with (k + List.length b)%nat by lia.
    rewrite (Nat.add_comm k), <- skipn_skipn, (skipn_app k a b).
    replace (k - List.length a)%nat with O by lia. reflexivity.
Qed.

(** One [append] and at most one [pop(0)] keep the last [n] elements,
    provided no more than [n] were held. *)
Lemma append_bounded_last_n (n : nat) (l : list A) (x : A) :
  (List.length l <= n)%nat ->
  append_bounded n l x = last_n n (l ++ [x]).
Proof.
  intros H. unfold append_bounded, last_n.
  rewrite length_app. cbn [List.length].
  destruct (Nat.ltb_spec n (List.length l + 1)) as [Hlt | Hge].
  - replace (List.length l + 1 - n)%nat with 1%nat by lia.
    destruct (l ++ [x]); reflexivity.
  - replace (List.length l + 1 - n)%nat with O by lia. reflexivity.
Qed.

Lemma append_bounded_length (n : nat) (l : list A) (x : A) :
  (List.length l <= n)%nat ->
  List.length (append_bounded n l x) = Nat.min (S (List.length l)) n.
Proof.
  intros H. rewrite append_bounded_last_n by exact H.
  rewrite last_n_length, length_app.
  cbn [List.length]. lia.
Qed.

Lemma append_bounded_le (n : nat) (l : list A) (x : A) :
  (List.length l <= n)%nat ->
  (List.length (append_bounded n l x) <= n)%nat.
Proof. intros H. rewrite append_bounded_length by exact H. lia. Qed.

(** Folding [append_bounded] over [xs] keeps the last [n] of all. *)
Lemma fold_append_bounded (n : nat) (xs l : list A) :
  (List.length l <= n)%nat ->
  fold_left (append_bounded n) xs l = last_n n (l ++ xs).
Proof.
  revert l. induction xs as [| x xs IH]; intros l H; cbn [fold_left].
  - rewrite app_nil_r. symmetry. apply last_n_short. exact H.
  - rewrite IH by (apply append_bounded_le; exact H).
    rewrite append_bounded_last_n by exact H.
    rewrite last_n_app, <- app_assoc.
    reflexivity.
Qed.

End Bounded.

(** ** Properties of the signal generator *)

(** Building the prompt reads the world and leaves it as it is. *)
Lemma build_prompt_world
      (cfg : trading_config) (ex : option exchange) (pd : price_data)
      (w : world) :
  snd (build_prompt cfg ex pd w) = w.
Proof.
  unfold build_prompt, read, lift. cbn [bind prog_monad ret].
  destruct (kline_lines (kline_data pd)); [| reflexivity].
  destruct (indicator (price_history w) pd); [| reflexivity].
  destruct (last_signal_summary (signal_history w)); [| reflexivity].
  destruct (position_summary _); reflexivity.
Qed.

(** [analyze_with_deepseek] for a configured client, outcome by outcome:
    the prompt is built in the world that already holds the observation;
    an exception there leaves the function; a failed call or parse gives
    [None]; a parsed signal is appended and returned. *)
Lemma analyze_with_deepseek_outcome
      (cfg : trading_config) (ex : option exchange) (cl : deepseek_client)
      (pd : price_data) (w : world) :
  let w1 := with_price_history w (append_bounded 20 (price_history w) pd) in
  analyze_with_deepseek cfg ex (Some cl) pd w
  = match fst (build_prompt cfg ex pd w1) with
    | Raise err => (Raise err, w1)
    | Ok p =>
        match (reply <- chat_completions_create cl p ;; parse_signal reply pd) with
        | Ok (Some signal_data) =>
            (Ok (Some signal_data),
             with_signal_history w1
               (append_bounded 30 (signal_history w) signal_data))
        | Ok None | Raise _ => (Ok None, w1)
        end
    end.
Proof.
  intros w1. unfold analyze_with_deepseek, write, catch.
  cbn [bind prog_monad]. fold w1.
  pose proof (build_prompt_world cfg ex pd w1) as Hw.
  destruct (build_prompt cfg ex pd w1) as [[p|err] w2]; cbn [fst snd] in *;
    subst w2; [| reflexivity].
  unfold lift. cbn [bind prog_monad result_monad].
  destruct (chat_completions_create cl p) as [reply|]; [| reflexivity].
  destruct (parse_signal reply pd) as [[sd|]|]; reflexivity.
Qed.

Lemma analyze_price_history
      (cfg : trading_config) (ex : option exchange) (cl : deepseek_client)
      (pd : price_data) (w : world) :
  price_history (snd (analyze_with_deepseek cfg ex (Some cl) pd w))
  = append_bounded 20 (price_history w) pd.
Proof.
  rewrite analyze_with_deepseek_outcome.
  destruct (fst (build_prompt cfg ex pd _)) as [p|]; [| reflexivity].
  destruct (reply <- chat_completions_create cl p ;; parse_signal reply pd)
    as [[sd|]|]; reflexivity.
Qed.

Lemma analyze_all_price_history
      (cfg : trading_config) (ex : option exchange) (cl : deepseek_client)
      (observations : list price_data) (w : world) :
  price_history (analyze_all cfg ex (Some cl) observations w)
  = fold_left (append_bounded 20) observations (price_history w).
Proof.
  revert w. induction observations as [| pd rest IH]; intros w;
    cbn [analyze_all fold_left]; [reflexivity |].
  rewrite IH, analyze_price_history. reflexivity.
Qed.

Lemma analyze_without_client
      (cfg : trading_config) (ex : option exchange) (pd : price_data)
      (w : world) :
  analyze_with_deepseek cfg ex None pd w = (Ok None, w).
Proof. reflexivity. Qed.

(** The bound of 20 is an invariant of the loop over observations, with
    or without a client. *)
Lemma analyze_all_bounded
      (cfg : trading_config) (ex : option exchange)
      (client : option deepseek_client)
      (observations : list price_data) (w : world) :
  (List.length (price_history w) <= 20)%nat ->
  (List.length (price_history (analyze_all cfg ex client observations w)) <= 20)%nat.
Proof.
  revert w. induction observations as [| pd rest IH]; intros w H;
    cbn [analyze_all]; [exact H |].
  apply IH. destruct client as [cl|].
  - rewrite analyze_price_history. apply append_bounded_le. exact H.
  - exact H.
Qed.

(** C7: bounded price history: from an empty history, recording 25
    observations leaves exactly 20, the 20 most recent ones in order; and
    from there on no run of [analyze_with_deepseek] or [execute_trade]
    makes the history longer than 20. *)
Theorem price_history_keeps_last_20
        (cfg : trading_config) (ex : option exchange) (cl : deepseek_client)
        (observations : list price_data) (w : world) :
  price_history w = [] ->
  List.length observations = 25%nat ->
  let w' := analyze_all cfg ex (Some cl) observations w in
  price_history w' = skipn 5 observations /\
  List.length (price_history w') = 20%nat /\
  (forall n : nat,
      (List.length
         (price_history (analyze_all cfg ex (Some cl) (firstn n observations) w))
       <= 20)%nat) /\
  (forall (more : list price_data) (client : option deepseek_client)
          (signal_data : pyval),
      let w2 := analyze_all cfg ex client more w' in
      (List.length (price_history w2) <= 20)%nat /\
      (List.length (price_history (snd (execute_trade cfg ex signal_data w2)))
       <= 20)%nat).
Proof.
  intros Hempty Hlen w'.
  assert (Hw' : price_history w' = skipn 5 observations).
  { unfold w'. rewrite analyze_all_price_history, Hempty.
    rewrite fold_append_bounded by (cbn; lia).
    unfold last_n. rewrite app_nil_l, Hlen. reflexivity. }
  assert (Hlen' : List.length (price_history w') = 20%nat).
  { rewrite Hw', length_skipn, Hlen. reflexivity. }
  repeat split.
  - exact Hw'.
  - exact Hlen'.
  - intros n. apply analyze_all_bounded. rewrite Hempty. cbn. lia.
  - apply analyze_all_bounded. lia.
  - destruct (execute_trade_keeps_ledger cfg ex signal_data
                (analyze_all cfg ex client more w')) as (-> & _).
    apply analyze_all_bounded. lia.
Qed.

(** C10: signal generation is not atomic: with a client configured, the
    observation is put in the bounded price history first; the prompt for
    the inference call is built from that history; whether the function
    then raises, returns [None] or returns a signal, the price history
    holds the observation (one element more, up to 20); the signal history
    grows only when a signal was parsed and is returned. *)
Theorem price_recorded_before_inference
        (cfg : trading_config) (ex : option exchange) (cl : deepseek_client)
        (pd : price_data) (w : world) :
  let w1 := with_price_history w (append_bounded 20 (price_history w) pd) in
  let out := analyze_with_deepseek cfg ex (Some cl) pd w in
  price_history (snd out) = append_bounded 20 (price_history w) pd /\
  ((List.length (price_history w) <= 20)%nat ->
   List.length (price_history (snd out))
   = Nat.min (S (List.length (price_history w))) 20 /\
   last (price_history (snd out)) pd = pd) /\
  (forall p : prompt,
      fst (build_prompt cfg ex pd w1) = Ok p ->
      Ok (prompt_indicator p)
      = indicator (append_bounded 20 (price_history w) pd) pd) /\
  ((fst out = Ok None \/ exists err, fst out = Raise err) ->
   snd out = w1 /\ signal_history (snd out) = signal_history w) /\
  (forall signal_data : pyval,
      fst out = Ok (Some signal_data) ->
      signal_history (snd out)
      = append_bounded 30 (signal_history w) signal_data /\
      exists p reply,
        fst (build_prompt cfg ex pd w1) = Ok p /\
        chat_completions_create cl p = Ok reply /\
        parse_signal reply pd = Ok (Some signal_data)).
Proof.
  intros w1 out.
  assert (Hout := analyze_with_deepseek_outcome cfg ex cl pd w).
  cbv zeta in Hout. fold w1 out in Hout.
  split; [apply analyze_price_history |].
  split.
  { intros Hlen. unfold out. rewrite analyze_price_history.
    split; [apply append_bounded_length; exact Hlen |].
    rewrite append_bounded_last_n by exact Hlen.
    unfold last_n. rewrite length_app. cbn [List.length].
    destruct (Nat.le_gt_cases (List.length (price_history w) + 1) 20).
    - replace (List.length (price_history w) + 1 - 20)%nat with O by lia.
      cbn [skipn]. apply last_last.
    - replace (List.length (price_history w) + 1 - 20)%nat with 1%nat by lia.
      destruct (price_history w) as [| x l]; [cbn in *; lia |].
      cbn [app skipn]. apply last_last. }
  split.
  { intros p. unfold build_prompt, read, lift. cbn [bind prog_monad ret].
    destruct (kline_lines (kline_data pd)); [| discriminate].
    unfold w1 at 1. cbn [price_history with_price_history].
    destruct (indicator _ pd) as [ind|]; [| discriminate].
    destruct (last_signal_summary (signal_history w1)); [| discriminate].
    destruct (position_summary _); [| discriminate].
    cbn [fst]. intros [= <-]. reflexivity. }
  destruct (fst (build_prompt cfg ex pd w1)) as [p|err].
  - destruct (chat_completions_create cl p) as [reply|] eqn:Hreply;
      cbn [bind result_monad] in Hout.
    + destruct (parse_signal reply pd) as [[sd|]|] eqn:Hparse;
        rewrite Hout; cbn [fst snd]; split.
      * intros [H | [err H]]; discriminate H.
      * intros sd' [= <-]. split; [reflexivity | eauto].
      * intros _. auto.
      * intros sd' H. discriminate H.
      * intros _. auto.
      * intros sd' H. discriminate H.
    + rewrite Hout. cbn [fst snd]. split; [auto |].
      intros sd' H. discriminate H.
  - rewrite Hout. cbn [fst snd]. split; [auto |].
    intros sd' H. discriminate H.
Qed.

(** ** Extraction of the signal from the reply *)

Lemma find_char_none (c : ascii) (s : string) :
  find_char c s = None -> forall i, String.get i s <> Some c.
Proof.
  induction s as [| c' rest IH]; cbn [find_char String.get]; intros H i.
  - discriminate.
  - destruct (Ascii.eqb_spec c c') as [Heq | Hne]; [discriminate H |].
    destruct (find_char c rest); [discriminate H |].
    destruct i as [| i]; [congruence | apply IH; reflexivity].
Qed.

(** [find] answers the first index that holds the character. *)
Lemma find_char_some (c : ascii) (s : string) (a : nat) :
  find_char c s = Some a ->
  String.get a s = Some c /\ forall i, (i < a)%nat -> String.get i s <> Some c.
Proof.
  revert a. induction s as [| c' rest IH]; cbn [find_char]; intros a H.
  - discriminate H.
  - destruct (Ascii.eqb_spec c c') as [Heq | Hne].
    + injection H as <-. subst c'. split; [reflexivity |]. intros i Hi. lia.
    + destruct (find_char c rest) as [n|]; [| discriminate H].
      injection H as <-. destruct (IH n eq_refl) as [Hget Hbefore].
      split; [exact Hget |].
      intros [| i] Hi; cbn [String.get]; [congruence | apply Hbefore; lia].
Qed.

Lemma rfind_char_none (c : ascii) (s : string) :
  rfind_char c s = None -> forall i, String.get i s <> Some c.
Proof.
  induction s as [| c' rest IH]; cbn [rfind_char String.get]; intros H i.
  - discriminate.
  - destruct (rfind_char c rest); [discriminate H |].
    destruct (Ascii.eqb_spec c c') as [Heq | Hne]; [discriminate H |].
    destruct i as [| i]; [congruence | apply IH; reflexivity].
Qed.

(** [rfind] answers the last index that holds the character. *)
Lemma rfind_char_some (c : ascii) (s : string) (b : nat) :
  rfind_char c s = Some b ->
  String.get b s = Some c /\ forall i, (b < i)%nat -> String.get i s <> Some c.
Proof.
  revert b. induction s as [| c' rest IH]; cbn [rfind_char]; intros b H.
  - discriminate H.
  - destruct (rfind_char c rest) as [n|] eqn:Hrest.
    + injection H as <-. destruct (IH n eq_refl) as [Hget Hafter].
      split; [exact Hget |].
      intros [| i] Hi; cbn [String.get]; [lia | apply Hafter; lia].
    + destruct (Ascii.eqb_spec c c') as [Heq | Hne]; [| discriminate H].
      injection H as <-. subst c'. split; [reflexivity |].
      intros [| i] Hi; cbn [String.get]; [lia |].
      eapply rfind_char_none. exact Hrest.
  Qed.

(** The span runs from the first opening brace to the last closing one;
    there is none exactly when one of the two braces is missing. *)
Lemma json_span_spec (reply : string) :
  match json_span reply with
  | Some span =>
      exists a b,
        String.get a reply = Some "{"%char /\
        (forall i, (i < a)%nat -> String.get i reply <> Some "{"%char) /\
        String.get b reply = Some "}"%char /\
        (forall i, (b < i)%nat -> String.get i reply <> Some "}"%char) /\
        span = substring a (S b - a) reply
  | None =>
      (forall i, String.get i reply <> Some "{"%char) \/
      (forall i, String.get i reply <> Some "}"%char)
  end.
Proof.
  unfold json_span.
  destruct (find_char "{" reply) as [a|] eqn:Ha.
  - destruct (rfind_char "}" reply) as [b|] eqn:Hb.
    + apply find_char_some in Ha as [Hga Hbefore].
      apply rfind_char_some in Hb as [Hgb Hafter].
      exists a, b. auto.
    + right. apply rfind_char_none. exact Hb.
  - left. apply find_char_none. exact Ha.
Qed.

(** C5, as the code has it: the span from the first opening brace to the
    last closing brace of the reply is handed to [json.loads]; no signal is
    returned when there is no such span or when it is not JSON; when it is
    a JSON object, that object is returned as the signal with only
    ['timestamp'] set, whichever of the fields it has or lacks. *)
Theorem signal_is_any_json_object
        (cfg : trading_config) (ex : option exchange) (cl : deepseek_client)
        (pd : price_data) (w : world) (p : prompt) (reply : string) :
  let w1 := with_price_history w (append_bounded 20 (price_history w) pd) in
  let out := analyze_with_deepseek cfg ex (Some cl) pd w in
  fst (build_prompt cfg ex pd w1) = Ok p ->
  chat_completions_create cl p = Ok reply ->
  match json_span reply with
  | None =>
      ((forall i, String.get i reply <> Some "{"%char) \/
       (forall i, String.get i reply <> Some "}"%char)) /\
      fst out = Ok None
  | Some span =>
      (exists a b,
          String.get a reply = Some "{"%char /\
          (forall i, (i < a)%nat -> String.get i reply <> Some "{"%char) /\
          String.get b reply = Some "}"%char /\
          (forall i, (b < i)%nat -> String.get i reply <> Some "}"%char) /\
          span = substring a (S b - a) reply) /\
      (json_loads span = None -> fst out = Ok None) /\
      (forall d : list (string * pyval),
          json_loads span = Some (PDict d) ->
          fst out
          = Ok (Some (PDict (Py.set_item d "timestamp" (PStr (timestamp pd))))))
  end.
Proof.
  intros w1 out Hp Hreply.
  assert (Hout := analyze_with_deepseek_outcome cfg ex cl pd w).
  cbv zeta in Hout. fold w1 out in Hout.
  rewrite Hp, Hreply in Hout. cbn [bind result_monad] in Hout.
  unfold parse_signal in Hout.
  pose proof (json_span_spec reply) as Hspan.
  destruct (json_span reply) as [span|].
  - split; [exact Hspan |]. split.
    + intros Hnone. rewrite Hnone in Hout. rewrite Hout. reflexivity.
    + intros d Hd. rewrite Hd in Hout. rewrite Hout. reflexivity.
  - split; [exact Hspan |]. rewrite Hout. reflexivity.
Qed.

(** ** Properties of the market snapshot *)

Lemma candle_rows_forall2 (candles : list pyval) (rows : list kline) :
  candle_rows candles = Ok rows ->
  Forall2 (fun candle row => candle_row candle = Ok row) candles rows.
Proof.
  revert rows. induction candles as [| candle rest IH]; intros rows;
    cbn [candle_rows bind result_monad].
  - intros [= <-]. constructor.
  - destruct (candle_row candle) as [row|] eqn:Hrow; [| discriminate].
    destruct (candle_rows rest) as [rows'|]; [| discriminate].
    intros [= <-]. constructor; [exact Hrow | apply IH; reflexivity].
Qed.

Lemma last_rev_hd (A : Type) (l : list A) (d : A) : last (rev l) d = hd d l.
Proof.
  destruct l as [| x l]; [reflexivity |].
  cbn [rev hd]. apply last_last.
Qed.

(** The previous bar of [snapshot_of_frame] is the bar before the last
    one, and the last one itself in a frame of one row. *)
Lemma snapshot_of_frame_inv (cfg : trading_config) (now : string)
      (df : list kline) (obs : price_data) :
  snapshot_of_frame cfg now df = Ok obs ->
  exists older current,
    df = older ++ [current] /\
    price obs = k_close current /\
    price_change obs
    = percent_change (k_close current) (k_close (last older current)).
Proof.
  unfold snapshot_of_frame.
  destruct (rev df) as [| current before] eqn:Hrev; [discriminate |].
  intros [= <-].
  assert (Hdf : df = rev before ++ [current]).
  { rewrite <- (rev_involutive df), Hrev. reflexivity. }
  exists (rev before), current. split; [exact Hdf |].
  split; [reflexivity |].
  cbn [price_change]. rewrite last_rev_hd.
  rewrite Hdf, length_app, length_rev. cbn [List.length].
  rewrite Nat.add_1_r.
  destruct before as [| previous before']; reflexivity.
Qed.

Lemma percent_change_defined (current previous : Q) :
  ~ previous == 0 ->
  percent_change current previous
  = Some ((current - previous) / previous * 100).
Proof.
  intros H. unfold percent_change.
  destruct (Qeq_bool previous 0) eqn:E; [| reflexivity].
  apply Qeq_bool_iff in E. contradiction.
Qed.

Lemma candle_row_cells (candle : pyval) (row : kline) :
  candle_row candle = Ok row -> candle_cells candle row.
Proof.
  unfold candle_row, candle_cells. cbn [bind result_monad]. intros H.
  destruct (Py.index candle 0) as [c0|]; [| discriminate H].
  destruct (Py.index candle 1) as [c1|]; [| discriminate H].
  destruct (Py.index candle 2) as [c2|]; [| discriminate H].
  destruct (Py.index candle 3) as [c3|]; [| discriminate H].
  destruct (Py.index candle 4) as [c4|]; [| discriminate H].
  destruct (Py.index candle 5) as [c5|]; [| discriminate H].
  cbn [bind result_monad] in H.
  destruct (to_timestamp c0) as [t|] eqn:Ht; [| discriminate H].
  destruct (py_float c1) as [o|] eqn:Ho; [| discriminate H].
  destruct (py_float c2) as [h|] eqn:Hh; [| discriminate H].
  destruct (py_float c3) as [l|] eqn:Hl; [| discriminate H].
  destruct (py_float c4) as [c|] eqn:Hc; [| discriminate H].
  destruct (py_float c5) as [v|] eqn:Hv; [| discriminate H].
  cbn [bind result_monad] in H. injection H as <-.
  exists c0, c1, c2, c3, c4, c5.
  cbn [k_timestamp k_open k_high k_low k_close k_volume].
  do 6 (split; [reflexivity |]).
  split; [exact Ht |]. split; [exact Ho |]. split; [exact Hh |].
  split; [exact Hl |]. split; [exact Hc | exact Hv].
Qed.

Lemma Forall2_rev_both (A B : Type) (R : A -> B -> Prop)
      (l : list A) (l' : list B) :
  Forall2 R l l' -> Forall2 R (rev l) (rev l').
Proof.
  induction 1 as [| x y l l' Hxy _ IH]; cbn [rev]; [constructor |].
  apply Forall2_app; [exact IH |]. constructor; [exact Hxy | constructor].
Qed.

Lemma ForallOrdPairs_app (A : Type) (R : A -> A -> Prop) (a b : list A) :
  ForallOrdPairs R a -> ForallOrdPairs R b ->
  (forall x y, In x a -> In y b -> R x y) ->
  ForallOrdPairs R (a ++ b).
Proof.
  induction 1 as [| x a Hx _ IH]; intros Hb Hab; cbn [app]; [exact Hb |].
  constructor.
  - apply Forall_app. split; [exact Hx |].
    apply Forall_forall. intros y Hy. apply Hab; [left; reflexivity | exact Hy].
  - apply IH; [exact Hb |]. intros u v Hu Hv. apply Hab; [right; exact Hu | exact Hv].
Qed.

(** Reversing a reply that is newest first puts it in the order of time. *)
Lemma newest_first_rev (rows : list kline) :
  newest_first rows -> chronological (rev rows).
Proof.
  unfold newest_first, chronological.
  induction 1 as [| x rows Hx _ IH]; cbn [rev]; [constructor |].
  apply ForallOrdPairs_app; [exact IH | constructor; constructor |].
  intros u v Hu [<- | []]. apply in_rev in Hu.
  rewrite Forall_forall in Hx. apply Hx. exact Hu.
Qed.

(** C8, as the code has it: on a successful fetch the reply is reversed,
    not sorted, and each candle is read cell by cell; the price is the
    close of the reply's first candle, and the change reported is
    [(c - p) / p * 100] for that close [c] and the close [p] of the reply's
    second candle, [c] itself when the reply has one candle.  The value is
    such for a non-zero [p]; at a zero [p] no finite number is reported,
    not even in the one-candle case, where the change is otherwise exactly
    0.  When the reply lists the candles newest first, the frame is in
    chronological order and [c] and [p] are the closes of its last two
    bars in time. *)
Theorem percent_change_over_last_two_bars
        (cfg : trading_config) (now : string) (response : pyval)
        (obs : price_data) :
  get_btc_ohlcv_body cfg now response = Ok obs ->
  exists (data first_candle : pyval) (rest : list pyval)
         (current : kline) (older_rows : list kline),
    response_data_nonempty response = Ok data /\
    Py.iter data = Ok (first_candle :: rest) /\
    Forall2 candle_cells (first_candle :: rest) (current :: older_rows) /\
    kline_data obs = last_n 5 (rev (current :: older_rows)) /\
    price obs = k_close current /\
    let previous := hd current older_rows in
    price_change obs = percent_change (k_close current) (k_close previous) /\
    (~ k_close previous == 0 ->
     price_change obs
     = Some ((k_close current - k_close previous) / k_close previous * 100)) /\
    (k_close previous == 0 -> price_change obs = None) /\
    (rest = [] ->
     previous = current /\
     (~ k_close current == 0 ->
      exists q, price_change obs = Some q /\ q == 0)) /\
    (newest_first (current :: older_rows) ->
     chronological (rev (current :: older_rows)) /\
     Forall (fun row => (k_timestamp row < k_timestamp current)%Z) older_rows /\
     Forall (fun row => (k_timestamp row < k_timestamp previous)%Z)
            (tl older_rows)).
Proof.
  unfold get_btc_ohlcv_body. cbn [bind result_monad]. intros H.
  destruct (response_data_nonempty response) as [data|] eqn:Hdata;
    [| discriminate H].
  destruct (Py.iter data) as [candles|] eqn:Hiter; [| discriminate H].
  destruct (candle_rows (rev candles)) as [rows|] eqn:Hrows; [| discriminate H].
  assert (Hkline : kline_data obs = last_n 5 rows).
  { unfold snapshot_of_frame in H. destruct (rev rows); [discriminate H |].
    injection H as <-. reflexivity. }
  apply snapshot_of_frame_inv in H as (older & current & -> & Hprice & Hchange).
  apply candle_rows_forall2 in Hrows.
  apply Forall2_rev_both in Hrows.
  rewrite rev_involutive, rev_app_distr in Hrows. cbn [rev app] in Hrows.
  assert (Hcells : Forall2 candle_cells candles (current :: rev older)).
  { revert Hrows. apply Forall2_impl. exact candle_row_cells. }
  destruct candles as [| first_candle rest]; [inversion Hrows |].
  exists data, first_candle, rest, current, (rev older).
  split; [reflexivity |]. split; [exact Hiter |]. split; [exact Hcells |].
  split.
  { rewrite Hkline. cbn [rev]. rewrite rev_involutive. reflexivity. }
  split; [exact Hprice |].
  assert (Hprev : hd current (rev older) = last older current).
  { rewrite <- (rev_involutive older) at 2. symmetry. apply last_rev_hd. }
  cbv zeta. rewrite Hprev.
  split; [exact Hchange |].
  split.
  { intros Hnz. rewrite Hchange. apply percent_change_defined. exact Hnz. }
  split.
  { intros Hz. rewrite Hchange. unfold percent_change.
    apply Qeq_bool_iff in Hz. rewrite Hz. reflexivity. }
  split.
  { intros ->.
    assert (Holder : older = []).
    { apply Forall2_length in Hrows. cbn [List.length] in Hrows.
      rewrite length_rev in Hrows.
      destruct older as [| x older']; [reflexivity | discriminate Hrows]. }
    subst older. cbn [last]. split; [reflexivity |].
    intros Hnz. rewrite Hchange. cbn [last].
    rewrite (percent_change_defined _ Hnz).
    eexists. split; [reflexivity |]. field. exact Hnz. }
  intros Hnewest.
  split; [apply newest_first_rev; exact Hnewest |].
  unfold newest_first in Hnewest.
  inversion Hnewest as [| ? ? Hcurrent Hrest]; subst.
  split; [exact Hcurrent |].
  rewrite <- Hprev.
  destruct (rev older) as [| previous older_rest]; [constructor |].
  cbn [hd tl]. inversion Hrest as [| ? ? Hprevious _]; subst.
  exact Hprevious.
Qed.

(** ** Properties of the drawdown statistics *)

Lemma Qlt_bool_false (a b : Q) : Qlt_bool a b = false -> b <= a.
Proof.
  unfold Qlt_bool. rewrite negb_false_iff. apply Qle_bool_iff.
Qed.

(** What one iteration does to the three loop variables. *)
Lemma drawdown_step_spec (st : drawdown_state) (b : Q) :
  let st' := drawdown_step st b in
  max_balance_seen st <= max_balance_seen st' /\
  b <= max_balance_seen st' /\
  (max_balance_seen st' = max_balance_seen st \/ max_balance_seen st' = b) /\
  drawdown st' = drawdown_of b (max_balance_seen st') /\
  max_drawdown st' <= max_drawdown st /\
  max_drawdown st' <= drawdown st' /\
  (max_drawdown st' = max_drawdown st \/ max_drawdown st' = drawdown st').
Proof.
  unfold drawdown_step. cbn [max_balance_seen max_drawdown drawdown].
  set (seen := if Qlt_bool (max_balance_seen st) b then b else max_balance_seen st).
  assert (Hseen : max_balance_seen st <= seen /\ b <= seen /\
                  (seen = max_balance_seen st \/ seen = b)).
  { unfold seen. destruct (Qlt_bool (max_balance_seen st) b) eqn:E.
    - apply Qlt_bool_iff in E. repeat split; auto; lra.
    - apply Qlt_bool_false in E. repeat split; auto; lra. }
  destruct Hseen as (H1 & H2 & H3).
  repeat split; try assumption.
  - destruct (Qlt_bool (drawdown_of b seen) (max_drawdown st)) eqn:E.
    + apply Qlt_bool_iff in E. lra.
    + lra.
  - destruct (Qlt_bool (drawdown_of b seen) (max_drawdown st)) eqn:E.
    + lra.
    + apply Qlt_bool_false in E. exact E.
  - destruct (Qlt_bool (drawdown_of b seen) (max_drawdown st)); auto.
Qed.

Lemma drawdown_trace_length (st : drawdown_state) (l : list Q) :
  List.length (drawdown_trace st l) = List.length l.
Proof.
  revert st. induction l as [| b rest IH]; intros st; cbn; [| rewrite IH];
    reflexivity.
Qed.

(** The state after iteration [i]: its maximum bounds the balances seen
    so far and is one of them (or the initial value); its drawdown is that
    of balance [i] against this maximum. *)
Lemma drawdown_trace_nth (l : list Q) :
  forall (st0 : drawdown_state) (i : nat) (st : drawdown_state) (b : Q),
    nth_error (drawdown_trace st0 l) i = Some st ->
    nth_error l i = Some b ->
    max_balance_seen st0 <= max_balance_seen st /\
    (forall b', In b' (firstn (S i) l) -> b' <= max_balance_seen st) /\
    (max_balance_seen st = max_balance_seen st0 \/
     In (max_balance_seen st) (firstn (S i) l)) /\
    drawdown st = drawdown_of b (max_balance_seen st).
Proof.
  induction l as [| b0 rest IH]; intros st0 i st b Hst Hb.
  - destruct i; discriminate Hb.
  - cbn [drawdown_trace] in Hst.
    destruct (drawdown_step_spec st0 b0) as (H1 & H2 & H3 & H4 & _).
    cbv zeta in H1, H2, H3, H4.
    destruct i as [| j]; cbn [nth_error] in Hst, Hb.
    + injection Hst as <-. injection Hb as <-.
      cbn [firstn]. split; [| split; [| split]].
      * exact H1.
      * intros b' [<- | []]. exact H2.
      * destruct H3 as [H3 | H3]; [left | right; left]; auto.
      * exact H4.
    + destruct (IH _ _ _ _ Hst Hb) as (I1 & I2 & I3 & I4).
      split; [| split; [| split]].
      * lra.
      * intros b' Hin. change (firstn (S (S j)) (b0 :: rest))
          with (b0 :: firstn (S j) rest) in Hin.
        destruct Hin as [<- | Hin]; [lra | apply I2; exact Hin].
      * change (firstn (S (S j)) (b0 :: rest)) with (b0 :: firstn (S j) rest).
        destruct I3 as [I3 | I3].
        -- rewrite I3. destruct H3 as [H3 | H3]; [left | right; left]; auto.
        -- right. right. exact I3.
      * exact I4.
Qed.

(** The loop as a whole: the minimum of the drawdowns and the maximum of
    the balances, each attained. *)
Lemma drawdown_loop_spec (l : list Q) :
  forall st0 : drawdown_state,
    let final := drawdown_loop st0 l in
    max_drawdown final <= max_drawdown st0 /\
    (forall st, In st (drawdown_trace st0 l) -> max_drawdown final <= drawdown st) /\
    (max_drawdown final = max_drawdown st0 \/
     exists st, In st (drawdown_trace st0 l) /\ max_drawdown final = drawdown st) /\
    max_balance_seen st0 <= max_balance_seen final /\
    (forall b, In b l -> b <= max_balance_seen final) /\
    (max_balance_seen final = max_balance_seen st0 \/ In (max_balance_seen final) l).
Proof.
  induction l as [| b0 rest IH]; intros st0; cbn [drawdown_loop fold_left].
  - cbn. repeat split; auto; try lra; intros ? [].
  - destruct (drawdown_step_spec st0 b0) as (H1 & H2 & H3 & _ & H5 & H6 & H7).
    cbv zeta in H1, H2, H3, H5, H6, H7.
    destruct (IH (drawdown_step st0 b0)) as (I1 & I2 & I3 & I4 & I5 & I6).
    cbv zeta in I1, I2, I3, I4, I5, I6. fold (drawdown_loop (drawdown_step st0 b0) rest) in *.
    cbn [drawdown_trace]. split; [| split; [| split; [| split; [| split]]]].
    + lra.
    + intros st [<- | Hin]; [lra | apply I2; exact Hin].
    + destruct I3 as [I3 | (st & Hin & I3)].
      * rewrite I3. destruct H7 as [H7 | H7]; [left; exact H7 |].
        right. exists (drawdown_step st0 b0). split; [left; reflexivity | exact H7].
      * right. exists st. split; [right; exact Hin | exact I3].
    + lra.
    + intros b [<- | Hin]; [lra | apply I5; exact Hin].
    + destruct I6 as [I6 | I6].
      * rewrite I6. destruct H3 as [H3 | H3]; [left | right; left]; auto.
      * right. right. exact I6.
Qed.

Lemma equity_example_trough (current : Q) :
  975 # 10 <= current ->
  exists st,
    equity_drawdown Sample.equity_example current = Some st /\
    max_drawdown st == -25.
Proof.
  intros H. eexists. split; [reflexivity |].
  unfold Sample.equity_example, drawdown_loop, drawdown_init.
  cbn [map fold_left ep_balance Sample.point].
  set (st4 := drawdown_step _ 130).
  assert (Hseen : max_balance_seen st4 = 130) by reflexivity.
  assert (Hdd : max_drawdown st4 == -25) by reflexivity.
  unfold drawdown_step. cbn [max_drawdown]. rewrite Hseen.
  destruct (Qlt_bool 130 current) eqn:Hc.
  - apply Qlt_bool_iff in Hc. unfold drawdown_of.
    assert (Hpos : Qlt_bool 0 current = true) by (apply Qlt_bool_iff; lra).
    rewrite Hpos.
    destruct (Qlt_bool _ (max_drawdown st4)) eqn:E; [| exact Hdd].
    apply Qlt_bool_iff in E. exfalso.
    assert (Hz : (current - current) / current * 100 == 0) by (field; lra).
    lra.
  - apply Qlt_bool_false in Hc. unfold drawdown_of.
    change (Qlt_bool 0 130) with true. cbv iota.
    destruct (Qlt_bool _ (max_drawdown st4)) eqn:E; [| exact Hdd].
    apply Qlt_bool_iff in E. exfalso.
    assert (Hz : (current - 130) / 130 * 100 == (current - 130) * (10 # 13))
      by field.
    lra.
Qed.

(** C9, as the code has it: for any stored equity sequence and live
    balance: after iteration [i] the running maximum bounds the first
    [i+1] balances and is one of them; the drawdown of iteration [i] is
    [(balance - running_max) / running_max * 100] when the running maximum
    is positive and 0 when it is not; the live balance is treated as one
    more iteration; the reported maximum drawdown is the least of 0 and
    all these drawdowns.  For [100, 120, 90, 130] the running maxima are
    [100, 120, 120, 130] and the maximum drawdown is -25 (percent) for any
    live balance of 97.5 or more. *)
Theorem drawdown_against_running_max
        (first : equity_point) (rest : list equity_point) (current : Q) :
  let equity_data := first :: rest in
  let balances := map ep_balance equity_data in
  let trace := drawdown_trace (drawdown_init first) balances in
  exists final : drawdown_state,
    equity_drawdown equity_data current = Some final /\
    List.length trace = List.length equity_data /\
    (forall (i : nat) (st : drawdown_state) (b : Q),
        nth_error trace i = Some st ->
        nth_error balances i = Some b ->
        (forall b', In b' (firstn (S i) balances) -> b' <= max_balance_seen st) /\
        In (max_balance_seen st) (firstn (S i) balances) /\
        drawdown st
        = if Qlt_bool 0 (max_balance_seen st)
          then (b - max_balance_seen st) / max_balance_seen st * 100
          else 0) /\
    (forall b', In b' (current :: balances) -> b' <= max_balance_seen final) /\
    In (max_balance_seen final) (current :: balances) /\
    drawdown final
    = (if Qlt_bool 0 (max_balance_seen final)
       then (current - max_balance_seen final) / max_balance_seen final * 100
       else 0) /\
    (forall st, In st trace -> max_drawdown final <= drawdown st) /\
    max_drawdown final <= drawdown final /\
    max_drawdown final <= 0 /\
    (max_drawdown final = 0 \/ max_drawdown final = drawdown final \/
     exists st, In st trace /\ max_drawdown final = drawdown st) /\
    map max_balance_seen
        (drawdown_trace (drawdown_init (Sample.point 100))
                        (map ep_balance Sample.equity_example))
    = [100; 120; 120; 130] /\
    (forall live : Q,
        975 # 10 <= live ->
        exists st,
          equity_drawdown Sample.equity_example live = Some st /\
          max_drawdown st == -25).
Proof.
  intros equity_data balances trace.
  set (init := drawdown_init first).
  set (st := drawdown_loop init balances).
  exists (drawdown_step st current).
  destruct (drawdown_loop_spec balances init) as (L1 & L2 & L3 & L4 & L5 & L6).
  cbv zeta in L1, L2, L3, L4, L5, L6. fold st in L1, L2, L3, L4, L5, L6.
  destruct (drawdown_step_spec st current) as (S1 & S2 & S3 & S4 & S5 & S6 & S7).
  cbv zeta in S1, S2, S3, S4, S5, S6, S7.
  change (max_drawdown init) with 0 in L1, L3.
  change (max_balance_seen init) with (ep_balance first) in L4, L6.
  split; [reflexivity |].
  split; [unfold trace, balances; rewrite drawdown_trace_length, length_map;
          reflexivity |].
  split.
  { intros i s b Hs Hb.
    destruct (drawdown_trace_nth balances init i Hs Hb) as (_ & T2 & T3 & T4).
    split; [exact T2 |]. split; [| exact T4].
    destruct T3 as [T3 | T3]; [| exact T3].
    rewrite T3. left. reflexivity. }
  split.
  { intros b' [<- | Hin]; [exact S2 |].
    apply Qle_trans with (max_balance_seen st); [apply L5; exact Hin | exact S1]. }
  split.
  { destruct S3 as [-> | ->]; [right | left; reflexivity].
    destruct L6 as [-> | L6]; [left; reflexivity | exact L6]. }
  split; [exact S4 |].
  split.
  { intros s Hin. apply Qle_trans with (max_drawdown st);
      [exact S5 | apply L2; exact Hin]. }
  split; [exact S6 |].
  split; [lra |].
  split.
  { destruct S7 as [S7 | S7]; [| right; left; exact S7].
    rewrite S7. destruct L3 as [L3 | (s & Hin & L3)]; [left; exact L3 |].
    right. right. exists s. split; assumption. }
  split; [reflexivity | exact equity_example_trough].
Qed.

(** ** Properties of the trade counters *)

(** A save that goes through is read back as it was written; one that
    fails changes nothing. *)
Lemma save_trade_stats_file (writable : bool) (now : string)
      (stats : trade_stats) (w : world) :
  save_trade_stats writable now stats w
  = if writable
    then (Ok true, with_trade_stats_file w (Some (stamped now stats)))
    else (Ok false, w).
Proof. destruct writable; reflexivity. Qed.

(** [load_trade_stats] never raises; it leaves the file as it is, or
    creates it with zero counters when it was missing. *)
Lemma load_trade_stats_file (readable writable : bool) (now : string)
      (w : world) :
  exists stats,
    fst (load_trade_stats readable writable now w) = Ok stats /\
    (total_trades stats, winning_trades stats, losing_trades stats)
    = match trade_stats_file w with
      | Some file =>
          if readable
          then (total_trades file, winning_trades file, losing_trades file)
          else (0, 0, 0)%Z
      | None => (0, 0, 0)%Z
      end /\
    snd (load_trade_stats readable writable now w)
    = match trade_stats_file w with
      | Some _ => w
      | None =>
          if writable
          then with_trade_stats_file w (Some (stamped now default_stats))
          else w
      end.
Proof.
  unfold load_trade_stats, read, save_trade_stats, write.
  cbn [bind prog_monad ret].
  destruct (trade_stats_file w) as [file|].
  - destruct readable; eexists; cbn [fst snd ret prog_monad];
      (split; [reflexivity |]); split; reflexivity.
  - destruct writable; eexists; cbn [fst snd bind ret prog_monad];
      (split; [reflexivity |]); split; reflexivity.
Qed.

Lemma trade_count_outcome (readable writable : bool) (now : string)
      (w : world) :
  fst (trade_count readable writable now w)
  = Ok (match trade_stats_file w with
        | Some file => if readable then total_trades file else 0%Z
        | None => 0%Z
        end) /\
  snd (trade_count readable writable now w)
  = snd (load_trade_stats readable writable now w).
Proof.
  unfold trade_count, load_trade_stats, read, save_trade_stats, write.
  cbn [bind prog_monad ret].
  destruct (trade_stats_file w) as [file|].
  - destruct readable; split; reflexivity.
  - destruct writable; split; reflexivity.
Qed.

(** The analysis leaves the stats file alone. *)
Lemma analyze_keeps_stats_file
      (cfg : trading_config) (ex : option exchange)
      (client : option deepseek_client) (pd : price_data) (w : world) :
  trade_stats_file (snd (analyze_with_deepseek cfg ex client pd w))
  = trade_stats_file w.
Proof.
  destruct client as [cl|]; [| reflexivity].
  rewrite analyze_with_deepseek_outcome.
  destruct (fst (build_prompt cfg ex pd _)) as [p|err]; [| reflexivity].
  destruct (reply <- chat_completions_create cl p ;; parse_signal reply pd)
    as [[sd|]|]; reflexivity.
Qed.

(** So does a whole iteration of the loop. *)
Lemma trading_cycle_keeps_stats_file
      (cfg : trading_config) (ex : option exchange)
      (client : option deepseek_client) (now : string) (w : world) :
  trade_stats_file (snd (trading_cycle cfg ex client now w))
  = trade_stats_file w.
Proof.
  unfold trading_cycle, catch, read. cbn [bind prog_monad].
  destruct (get_btc_ohlcv cfg ex now (submitted w)) as [pd|]; [| reflexivity].
  pose proof (analyze_keeps_stats_file cfg ex client pd w) as Hfile.
  destruct (analyze_with_deepseek cfg ex client pd w) as [[[sd|]|err] w1];
    cbn [fst snd] in Hfile; [| exact Hfile ..].
  destruct (Py.truthy sd); cbn [negb]; [| exact Hfile].
  cbn [bind prog_monad].
  pose proof (execute_trade_keeps_ledger cfg ex sd w1) as (_ & _ & Hledger).
  destruct (execute_trade cfg ex sd w1) as [[[]|err] w2];
    cbn [fst snd ret prog_monad] in *; congruence.
Qed.

(** One activity leaves the file as it is, or creates it with zero
    counters when it was missing. *)
Lemma perform_stats_file (a : activity) (w : world) :
  trade_stats_file (perform w a) = trade_stats_file w \/
  (trade_stats_file w = None /\
   exists now,
     trade_stats_file (perform w a) = Some (stamped now default_stats)).
Proof.
  destruct a as [cfg ex client now | readable writable now]; cbn [perform].
  - left. apply trading_cycle_keeps_stats_file.
  - rewrite (proj2 (trade_count_outcome readable writable now w)).
    destruct (load_trade_stats_file readable writable now w)
      as (stats & _ & _ & Hw).
    rewrite Hw.
    destruct (trade_stats_file w) as [file|] eqn:Hfile; [left; exact Hfile |].
    destruct writable; [| left; exact Hfile].
    right. split; [reflexivity |]. exists now. reflexivity.
Qed.

(** Counters that are in the file stay what they are, whatever the
    process does. *)
Lemma perform_all_keeps_counters (activities : list activity) :
  forall (w : world) (stats : trade_stats),
    trade_stats_file w = Some stats ->
    trade_stats_file (perform_all activities w) = Some stats.
Proof.
  unfold perform_all.
  induction activities as [| a rest IH]; intros w stats Hfile;
    cbn [fold_left]; [exact Hfile |].
  apply IH.
  destruct (perform_stats_file a w) as [-> | (Hnone & _)]; [exact Hfile |].
  rewrite Hnone in Hfile. discriminate Hfile.
Qed.

(** A file that is missing stays missing or is created with zero
    counters. *)
Lemma perform_all_from_no_file (activities : list activity) :
  forall w : world,
    trade_stats_file w = None ->
    trade_stats_file (perform_all activities w) = None \/
    exists now,
      trade_stats_file (perform_all activities w)
      = Some (stamped now default_stats).
Proof.
  unfold perform_all.
  induction activities as [| a rest IH]; intros w Hfile; cbn [fold_left];
    [left; exact Hfile |].
  destruct (perform_stats_file a w) as [Hsame | (_ & now & Hnew)].
  - apply IH. rewrite Hsame. exact Hfile.
  - right. exists now.
    apply (perform_all_keeps_counters rest _ Hnew).
Qed.

Lemma count_position_dict (pos : list (string * pyval))
      (total winning losing : Z) :
  count_position (total, winning, losing) (PDict pos)
  = Ok ((if is_closed pos then total + 1 else total)%Z,
        (if is_win pos then winning + 1 else winning)%Z,
        (if is_loss pos then losing + 1 else losing)%Z).
Proof.
  unfold count_position, is_win, is_loss, is_closed, realized_pnl.
  cbn [Py.get_default bind result_monad].
  destruct (Py.truthy match Py.lookup "closeAvgPx" pos with
                      | Some c => c
                      | None => PStr EmptyString
                      end); cbn [andb]; [| reflexivity].
  cbv zeta.
  destruct (Py.truthy match Py.lookup "realizedPnl" pos with
                      | Some v => v
                      | None => PStr "0"
                      end).
  - destruct (py_float _) as [pnl|]; cbn [try_or_none]; [| reflexivity].
    destruct (Qlt_bool 0 pnl) eqn:Hwin.
    + assert (Hloss : Qlt_bool pnl 0 = false).
      { destruct (Qlt_bool pnl 0) eqn:E; [| reflexivity].
        apply Qlt_bool_iff in E. apply Qlt_bool_iff in Hwin.
        exfalso. apply (Qlt_irrefl 0). apply (Qlt_trans _ pnl); assumption. }
      rewrite Hloss. reflexivity.
    + destruct (Qlt_bool pnl 0); reflexivity.
  - change (Qlt_bool 0 0) with false. reflexivity.
Qed.

(** The counting loop as a whole: the closed records, and among them
    those with a positive and those with a negative realized PnL. *)
Lemma count_positions_filter (records : list (list (string * pyval))) :
  forall total winning losing : Z,
    count_positions (total, winning, losing) (map PDict records)
    = ((total + Z.of_nat (List.length (filter is_closed records)))%Z,
       (winning + Z.of_nat (List.length (filter is_win records)))%Z,
       (losing + Z.of_nat (List.length (filter is_loss records)))%Z).
Proof.
  induction records as [| pos rest IH]; intros total winning losing;
    cbn [map count_positions filter].
  - cbn [List.length Z.of_nat]. rewrite !Z.add_0_r. reflexivity.
  - rewrite count_position_dict, IH.
    destruct (is_closed pos), (is_win pos), (is_loss pos);
      cbn [List.length];
      (apply pair_equal_spec; split; [apply pair_equal_spec; split |]); lia.
Qed.

(** C4, as the code has it: for a long position of size 1 and a SELL
    signal, live [execute_trade] submits one reduce-only market sell of
    size 1, and the stats file and the trade count reported by
    [get_status] and [refresh_data] are after it what they were before.
    Nothing the process does increments the persisted counters: through
    any sequence of loop iterations and status requests, counters that are
    in the file stay as they are, and a missing file stays missing or is
    created with zero counters.  The count reported is the file's
    [total_trades], 0 when the file is missing or cannot be read.
    [save_trade_stats] persists what it is handed when the write goes
    through, and then it is what [load_trade_stats] returns; when the write
    fails the answer is [False] and the file is as it was.  Counting by the
    sign of the realized PnL is done by [get_signal_accuracy] alone, anew on
    each request, over the exchange's history of positions: the total is
    the number of closed records, the winning and the losing count the
    numbers of those with a positive and with a negative realized PnL. *)
Theorem close_submits_order_counters_from_history
        (cfg : trading_config) (e : exchange)
        (signal_data confidence reason : pyval)
        (st : position_state) (w : world) :
  test_mode cfg = false ->
  get_current_position cfg (Some e) (submitted w) = Some (OpenPosition st) ->
  pos_side st = Long ->
  size st == 1 ->
  Py.item signal_data "signal" = Ok (PStr "SELL") ->
  Py.item signal_data "confidence" = Ok confidence ->
  Py.item signal_data "reason" = Ok reason ->
  let out := execute_trade cfg (Some e) signal_data w in
  (exists order : order_params,
      submitted (snd out) = submitted w ++ [order] /\
      side order = Sell /\ ordType order = "market" /\
      reduceOnly order = true /\ sz order == 1) /\
  trade_stats_file (snd out) = trade_stats_file w /\
  (forall (readable writable : bool) (now : string),
      fst (trade_count readable writable now (snd out))
      = fst (trade_count readable writable now w)) /\
  (forall (activities : list activity) (w0 : world) (stats : trade_stats),
      trade_stats_file w0 = Some stats ->
      trade_stats_file (perform_all activities w0) = Some stats) /\
  (forall (activities : list activity) (w0 : world),
      trade_stats_file w0 = None ->
      trade_stats_file (perform_all activities w0) = None \/
      exists now,
        trade_stats_file (perform_all activities w0)
        = Some {| total_trades := 0; winning_trades := 0;
                  losing_trades := 0; last_updated := Some now |}) /\
  (forall (readable writable : bool) (now : string) (w0 : world),
      fst (trade_count readable writable now w0)
      = Ok (match trade_stats_file w0 with
            | Some file => if readable then total_trades file else 0%Z
            | None => 0%Z
            end)) /\
  (forall (now later : string) (stats : trade_stats) (writable : bool)
          (w0 : world),
      let saved := save_trade_stats true now stats w0 in
      fst saved = Ok true /\
      load_trade_stats true writable later (snd saved)
      = (Ok {| total_trades := total_trades stats;
               winning_trades := winning_trades stats;
               losing_trades := losing_trades stats;
               last_updated := Some now |}, snd saved) /\
      save_trade_stats false now stats w0 = (Ok false, w0)) /\
  (forall records : list (list (string * pyval)),
      count_positions (0, 0, 0)%Z (map PDict records)
      = (Z.of_nat (List.length (filter is_closed records)),
         Z.of_nat (List.length (filter is_win records)),
         Z.of_nat (List.length (filter is_loss records)))).
Proof.
  intros Hmode Hpos Hlong Hsize Hs Hc Hr out.
  pose proof (long_sell_execute cfg e signal_data w Hmode Hpos Hlong Hs Hc Hr)
    as Hout.
  fold out in Hout.
  assert (Hfile : trade_stats_file (snd out) = trade_stats_file w)
    by apply (execute_trade_keeps_ledger cfg (Some e) signal_data w).
  split.
  { exists (market_order_params Sell (size st) true).
    rewrite Hout. cbn [snd submitted with_submitted].
    cbn [side ordType reduceOnly sz market_order_params]. auto. }
  split; [exact Hfile |].
  split.
  { intros readable writable now.
    destruct (trade_count_outcome readable writable now (snd out)) as (-> & _).
    destruct (trade_count_outcome readable writable now w) as (-> & _).
    rewrite Hfile. reflexivity. }
  split; [exact perform_all_keeps_counters |].
  split; [exact perform_all_from_no_file |].
  split.
  { intros readable writable now w0.
    apply (trade_count_outcome readable writable now w0). }
  split.
  { intros now later stats writable w0. cbv zeta.
    split; [reflexivity |]. split; reflexivity. }
  intros records. rewrite count_positions_filter. reflexivity.
Qed.

(** ** Further properties of the executor *)

Lemma Qabs_Qabs (q : Q) : Qabs (Qabs q) = Qabs q.
Proof.
  destruct q as [n d]. unfold Qabs. rewrite Z.abs_idemp. reflexivity.
Qed.

(** Short, told to buy: one reduce-only buy of the whole size. *)
Lemma short_buy_body (cfg : trading_config) (e : exchange)
      (st : position_state) (w : world) :
  pos_side st = Short ->
  snd (execute_trade_body cfg e (Some (OpenPosition st)) (PStr "BUY") w)
  = with_submitted w
      (submitted w ++ [market_order_params Buy (Qabs (size st)) true]).
Proof.
  intros Hshort. unfold execute_trade_body, lift.
  cbn [Py.eq_str String.eqb Ascii.eqb Bool.eqb position_has_side
       position_item_side current_size position_item_size
       bind prog_monad result_monad].
  rewrite Hshort. cbn [bind prog_monad].
  one_order e Buy (Qabs (size st)) true w.
Qed.

(** A short position is one whose raw quantity is negative. *)
Lemma short_position_amount (cfg : trading_config) (ex : option exchange)
      (orders : list order_params) (st : position_state) :
  get_current_position cfg ex orders = Some (OpenPosition st) ->
  pos_side st = Short ->
  position_amt st < 0 /\ size st = Qabs (position_amt st) /\ 0 < size st.
Proof.
  intros H Hshort.
  apply get_current_position_open in H as (Habs & Hside & Hsize).
  rewrite Hside in Hshort.
  destruct (Qlt_bool 0 (position_amt st)) eqn:Hp; [discriminate |].
  unfold Qlt_bool in Hp. rewrite negb_false_iff in Hp.
  apply Qle_bool_iff in Hp. apply Qlt_bool_iff in Habs.
  split; [| split; [exact Hsize | rewrite Hsize; exact Habs]].
  destruct (Qlt_le_dec (position_amt st) 0) as [Hneg | Hnonneg]; [exact Hneg |].
  exfalso. rewrite Qabs_pos in Habs by exact Hnonneg.
  apply (Qlt_not_le _ _ Habs Hp).
Qed.

(** X1: The reconciliation of a short position told to BUY: live
    [execute_trade] submits exactly one order, a reduce-only market buy of
    the whole size, and nothing that opens a position. *)
Theorem short_buy_closes_once
        (cfg : trading_config) (e : exchange)
        (signal_data confidence reason : pyval)
        (st : position_state) (w : world) :
  test_mode cfg = false ->
  get_current_position cfg (Some e) (submitted w) = Some (OpenPosition st) ->
  pos_side st = Short ->
  Py.item signal_data "signal" = Ok (PStr "BUY") ->
  Py.item signal_data "confidence" = Ok confidence ->
  Py.item signal_data "reason" = Ok reason ->
  exists order : order_params,
    execute_trade cfg (Some e) signal_data w
    = (Ok tt, with_submitted w (submitted w ++ [order])) /\
    side order = Buy /\ ordType order = "market" /\
    reduceOnly order = true /\
    sz order = size st /\ size st = Qabs (position_amt st) /\
    position_amt st < 0.
Proof.
  intros Hmode Hpos Hshort Hs Hc Hr.
  exists (market_order_params Buy (Qabs (size st)) true).
  erewrite execute_trade_live by eassumption. rewrite Hpos.
  rewrite (short_buy_body cfg e st w Hshort).
  destruct (short_position_amount _ _ _ Hpos Hshort) as (Hamt & Hsize & _).
  do 4 (split; [reflexivity |]).
  split; [| split; [exact Hsize | exact Hamt]].
  cbn [sz market_order_params]. rewrite Hsize. apply Qabs_Qabs.
Qed.

(** Whatever [execute_trade_body] submits is a market order on the
    instrument, in cross margin, and there is at most one of it. *)
Lemma execute_trade_body_one_market_order (cfg : trading_config) (ex : exchange)
      (cp : option position_info) (signal : pyval) (w : world) :
  let w' := snd (execute_trade_body cfg ex cp signal w) in
  w' = w \/
  exists s q r, w' = with_submitted w (submitted w ++ [market_order_params s q r]).
Proof.
  unfold execute_trade_body.
  destruct (Py.eq_str signal "BUY");
    [| destruct (Py.eq_str signal "SELL");
       [| destruct (Py.eq_str signal "HOLD"); cbn; auto ] ].
  all: unfold lift; cbn [bind prog_monad].
  all: destruct (position_has_side cp _) as [[|]|]; cbn [fst snd]; auto.
  all: try (destruct (current_size cp); cbn [fst snd]; auto).
  all: match goal with
       | |- context [create_market_order_safe ?e ?s ?q ?r ?w] =>
           pose proof (create_market_order_safe_world e s q r w) as Hw;
           destruct (create_market_order_safe e s q r w) as [[?|?] w1];
           cbn [fst snd] in *; subst w1; cbn; eauto 6
       end.
Qed.

Lemma execute_trade_orders
      (cfg : trading_config) (ex : option exchange) (signal_data : pyval)
      (w : world) :
  let w' := snd (execute_trade cfg ex signal_data w) in
  w' = w \/
  exists order,
    w' = with_submitted w (submitted w ++ [order]) /\
    instId order = "BTC-USDT-SWAP" /\ ordType order = "market" /\
    tdMode order = "cross" /\
    test_mode cfg = false /\ ex <> None.
Proof.
  cbv zeta.
  destruct ex as [e|]; [| left; reflexivity].
  unfold execute_trade, read, lift, catch. cbn [bind prog_monad ret].
  destruct (Py.item signal_data "signal") as [direction|]; [| left; reflexivity].
  destruct (Py.item signal_data "confidence"); [| left; reflexivity].
  destruct (Py.item signal_data "reason"); [| left; reflexivity].
  destruct (test_mode cfg) eqn:Hmode; [left; reflexivity |].
  pose proof (execute_trade_body_one_market_order cfg e
                (get_current_position cfg (Some e) (submitted w)) direction w)
    as Hone.
  cbv zeta in Hone.
  destruct (execute_trade_body cfg e _ direction w) as [[[|]|err] w1];
    cbn [fst snd] in *.
  all: destruct Hone as [-> | (s & q & r & ->)]; [left; reflexivity |].
  all: right; eexists; split; [reflexivity |].
  all: repeat split; discriminate.
Qed.

(** [execute_trade] raises only on a missing key of the signal, before
    anything is submitted. *)
Lemma execute_trade_raise_world
      (cfg : trading_config) (ex : option exchange) (signal_data : pyval)
      (w : world) (err : exn) :
  fst (execute_trade cfg ex signal_data w) = Raise err ->
  snd (execute_trade cfg ex signal_data w) = w.
Proof.
  destruct ex as [e|]; [| discriminate].
  unfold execute_trade, read, lift, catch. cbn [bind prog_monad ret].
  destruct (Py.item signal_data "signal") as [direction|]; [| reflexivity].
  destruct (Py.item signal_data "confidence"); [| reflexivity].
  destruct (Py.item signal_data "reason"); [| reflexivity].
  destruct (test_mode cfg); [discriminate |].
  destruct (execute_trade_body cfg e _ direction w) as [[[|]|err'] w1];
    cbn [fst snd]; discriminate.
Qed.

(** X2: One call of [execute_trade] submits at most one order, always a
    market order on BTC-USDT-SWAP, whatever the mode, the signal, the
    position and the replies of the exchange; the histories and the stats
    file are left alone. *)
Theorem execute_trade_at_most_one_order
        (cfg : trading_config) (ex : option exchange) (signal_data : pyval)
        (w : world) :
  let w' := snd (execute_trade cfg ex signal_data w) in
  (w' = w \/
   exists order,
     w' = with_submitted w (submitted w ++ [order]) /\
     instId order = "BTC-USDT-SWAP" /\ ordType order = "market" /\
     tdMode order = "cross" /\
     test_mode cfg = false /\ ex <> None) /\
  price_history w' = price_history w /\
  signal_history w' = signal_history w /\
  trade_stats_file w' = trade_stats_file w.
Proof.
  cbv zeta. split; [apply execute_trade_orders | apply execute_trade_keeps_ledger].
Qed.

(** X3: Nothing is submitted, and the world is left as it was, when the
    exchange is not initialised, in test mode, or when the direction is
    neither BUY nor SELL (HOLD or anything else). *)
Theorem execute_trade_idle
        (cfg : trading_config) (ex : option exchange) (signal_data : pyval)
        (w : world) :
  ex = None \/ test_mode cfg = true \/
  (exists direction,
      Py.item signal_data "signal" = Ok direction /\
      Py.eq_str direction "BUY" = false /\
      Py.eq_str direction "SELL" = false) ->
  snd (execute_trade cfg ex signal_data w) = w.
Proof.
  intros H. destruct ex as [e|]; [| reflexivity].
  unfold execute_trade, read, lift, catch. cbn [bind prog_monad ret].
  destruct (Py.item signal_data "signal") as [direction|] eqn:Hs; [| reflexivity].
  destruct (Py.item signal_data "confidence"); [| reflexivity].
  destruct (Py.item signal_data "reason"); [| reflexivity].
  destruct (test_mode cfg) eqn:Hmode; [reflexivity |].
  destruct H as [H | [H | (d & Hd & Hbuy & Hsell)]]; try discriminate H.
  injection Hd as <-.
  unfold execute_trade_body. rewrite Hbuy, Hsell.
  destruct (Py.eq_str direction "HOLD"); reflexivity.
Qed.

(** X4: [execute_trade] reads ['signal'], ['confidence'] and ['reason'] for
    its log lines before anything else: on an initialised exchange it
    returns normally exactly when all three are there, whatever the
    exchange then answers; when one is missing the [KeyError] leaves the
    function and nothing is submitted. *)
Theorem execute_trade_needs_three_keys
        (cfg : trading_config) (e : exchange) (d : list (string * pyval))
        (w : world) :
  let out := execute_trade cfg (Some e) (PDict d) w in
  (fst out = Ok tt <->
   Py.lookup "signal" d <> None /\ Py.lookup "confidence" d <> None /\
   Py.lookup "reason" d <> None) /\
  (fst out <> Ok tt ->
   snd out = w /\
   exists key, fst out = Raise (KeyError key) /\ Py.lookup key d = None).
Proof.
  cbv zeta. unfold execute_trade, read, lift, catch.
  cbn [bind prog_monad ret Py.item].
  destruct (Py.lookup "signal" d) as [direction|] eqn:Hs.
  - destruct (Py.lookup "confidence" d) as [c|] eqn:Hc.
    + destruct (Py.lookup "reason" d) as [r|] eqn:Hr.
      * cbn [bind prog_monad result_monad].
        destruct (test_mode cfg); cbn [ret prog_monad fst snd].
        -- split; [split; [intros _; repeat split; discriminate | reflexivity] |].
           intros H. contradiction H. reflexivity.
        -- destruct (execute_trade_body cfg e _ direction w) as [[[|]|err] w1];
             cbn [fst snd];
             (split; [split; [intros _; repeat split; discriminate | reflexivity] |]);
             intros H; contradiction H; reflexivity.
      * cbn [bind prog_monad fst snd]. split.
        -- split; [discriminate |]. intros (_ & _ & H). contradiction H. reflexivity.
        -- intros _. split; [reflexivity |]. exists "reason". auto.
    + cbn [bind prog_monad fst snd]. split.
      * split; [discriminate |]. intros (_ & H & _). contradiction H. reflexivity.
      * intros _. split; [reflexivity |]. exists "confidence". auto.
  - cbn [bind prog_monad fst snd]. split.
    + split; [discriminate |]. intros (H & _). contradiction H. reflexivity.
    + intros _. split; [reflexivity |]. exists "signal". auto.
Qed.

(** The oracle failed and a SELL signal: the [else] branch opens a short. *)
Lemma unavailable_sell_body (cfg : trading_config) (e : exchange) (w : world) :
  snd (execute_trade_body cfg e None (PStr "SELL") w)
  = with_submitted w (submitted w ++ [market_order_params Sell (amount cfg) false]).
Proof.
  unfold execute_trade_body, lift.
  cbn [Py.eq_str String.eqb Ascii.eqb Bool.eqb position_has_side
       bind prog_monad result_monad].
  one_order e Sell (amount cfg) false w.
Qed.

(** X5: When the position cannot be read ([get_current_position] gives
    [None]), live [execute_trade] takes the opening branch: a BUY opens a
    long and a SELL a short of the configured [amount], not reduce-only. *)
Theorem unreadable_position_opens
        (cfg : trading_config) (e : exchange)
        (signal_data confidence reason : pyval) (s : order_side) (w : world) :
  test_mode cfg = false ->
  get_current_position cfg (Some e) (submitted w) = None ->
  Py.item signal_data "signal"
  = Ok (PStr (match s with Buy => "BUY" | Sell => "SELL" end)) ->
  Py.item signal_data "confidence" = Ok confidence ->
  Py.item signal_data "reason" = Ok reason ->
  execute_trade cfg (Some e) signal_data w
  = (Ok tt, with_submitted w
              (submitted w ++ [market_order_params s (amount cfg) false])).
Proof.
  intros Hmode Hpos Hs Hc Hr.
  erewrite execute_trade_live by eassumption. rewrite Hpos.
  destruct s.
  - rewrite (unavailable_buy_body cfg e w). reflexivity.
  - rewrite (unavailable_sell_body cfg e w). reflexivity.
Qed.

(** ** Further properties of the position oracle *)

Lemma Qabs_not_pos_zero (q : Q) : Qlt_bool 0 (Qabs q) = false -> q == 0.
Proof.
  unfold Qlt_bool. rewrite negb_false_iff. intros H.
  apply Qle_bool_iff in H.
  assert (Hz : Qabs q == 0) by (apply Qle_antisym; [exact H | apply Qabs_nonneg]).
  destruct (Qlt_le_dec q 0) as [Hneg | Hpos].
  - rewrite Qabs_neg in Hz by (apply Qlt_le_weak; exact Hneg).
    rewrite <- (Qopp_involutive q), Hz. reflexivity.
  - rewrite Qabs_pos in Hz by exact Hpos. exact Hz.
Qed.

Lemma get_ok_dict (v : pyval) (k : string) (x : pyval) :
  Py.get v k = Ok x -> exists d, v = PDict d /\ x = field d k.
Proof.
  destruct v; try discriminate. cbn [Py.get]. intros H.
  injection H as <-. eexists. split; reflexivity.
Qed.

(** The loop falls through to the account-only dict only past entries that
    are no open position of the instrument, and hands the balances over
    as they are. *)
Lemma scan_positions_account_only (cfg : trading_config) (f t f' t' : Q)
      (l : list pyval) :
  scan_positions cfg f t l = Ok (AccountInfoOnly t' f') ->
  t' = t /\ f' = f /\ Forall no_open_position l.
Proof.
  induction l as [|pos_data rest IH]; cbn [scan_positions bind result_monad].
  - intros H. injection H as <- <-. split; [reflexivity |].
    split; [reflexivity | constructor].
  - intros H. bind_inv H.
    apply get_ok_dict in E as (d & -> & ->).
    destruct (Py.eq_str (field d "instId") inst_id) eqn:Hinst.
    + bind_inv H.
      destruct (Qlt_bool 0 (Qabs a)) eqn:Hpos.
      * bind_inv H. discriminate H.
      * destruct (IH H) as (Ht & Hf & Hall).
        split; [exact Ht |]. split; [exact Hf |].
        constructor; [| exact Hall].
        exists d. split; [reflexivity |]. right.
        exists a. split; [exact E | apply Qabs_not_pos_zero; exact Hpos].
    + destruct (IH H) as (Ht & Hf & Hall).
      split; [exact Ht |]. split; [exact Hf |].
      constructor; [| exact Hall].
      exists d. split; [reflexivity |]. left. exact Hinst.
Qed.

Lemma scan_positions_balances (cfg : trading_config) (f t : Q)
      (l : list pyval) (info : position_info) :
  scan_positions cfg f t l = Ok info ->
  info_free_balance info = f /\ info_total_balance info = t.
Proof.
  destruct info as [t' f' | st]; intros H.
  - apply scan_positions_account_only in H as (-> & -> & _).
    split; reflexivity.
  - apply scan_positions_open in H as (_ & _ & _ & Ht & Hf).
    split; [exact Hf | exact Ht].
Qed.

(** X6: The oracle answers only from two good replies: when
    [get_current_position] returns a dict, the positions request returned a
    payload with an iterable ['data'], the balance request returned one
    whose balances resolve, and the dict carries exactly those balances;
    any failure of either request gives [None]. *)
Theorem oracle_answer_needs_both_replies
        (cfg : trading_config) (ex : option exchange)
        (orders : list order_params) (info : position_info) :
  get_current_position cfg ex orders = Some info ->
  exists e response positions_data positions balance_response,
    ex = Some e /\
    private_get_account_positions e orders = Ok response /\
    response_data response = Ok positions_data /\
    Py.iter positions_data = Ok positions /\
    private_get_account_balance e orders = Ok balance_response /\
    resolve_balances balance_response
    = Ok (info_free_balance info, info_total_balance info) /\
    scan_positions cfg (info_free_balance info) (info_total_balance info)
                   positions = Ok info.
Proof.
  unfold get_current_position, try_or_none, get_current_position_body.
  destruct ex as [e|]; [| discriminate].
  cbn [bind result_monad]. intros H.
  destruct (private_get_account_positions e orders) as [response|] eqn:Hr;
    [| discriminate].
  cbn [bind result_monad] in H.
  destruct (response_data response) as [data|] eqn:Hd; [| discriminate].
  cbn [bind result_monad] in H.
  destruct (Py.iter data) as [positions|] eqn:Hi; [| discriminate].
  cbn [bind result_monad] in H.
  destruct (private_get_account_balance e orders) as [balance|] eqn:Hb;
    [| discriminate].
  cbn [bind result_monad] in H.
  destruct (resolve_balances balance) as [[f t]|] eqn:Hres; [| discriminate].
  cbn [bind result_monad fst snd] in H.
  destruct (scan_positions cfg f t positions) as [info'|] eqn:Hscan;
    [| discriminate].
  injection H as ->.
  destruct (scan_positions_balances _ _ _ _ Hscan) as (Hf & Ht).
  exists e, response, data, positions, balance.
  rewrite Hf, Ht.
  do 5 (split; [first [reflexivity | assumption] |]).
  split; [exact Hres | exact Hscan].
Qed.

Lemma get_current_position_scan
      (cfg : trading_config) (e : exchange) (orders : list order_params)
      (response positions_data balance_response : pyval)
      (positions : list pyval) (f t : Q) :
  private_get_account_positions e orders = Ok response ->
  response_data response = Ok positions_data ->
  Py.iter positions_data = Ok positions ->
  private_get_account_balance e orders = Ok balance_response ->
  resolve_balances balance_response = Ok (f, t) ->
  get_current_position cfg (Some e) orders
  = try_or_none (scan_positions cfg f t positions).
Proof.
  intros Hr Hd Hi Hb Hres.
  unfold get_current_position, get_current_position_body.
  rewrite Hr. cbn [bind result_monad]. rewrite Hd. cbn [bind result_monad].
  rewrite Hi. cbn [bind result_monad]. rewrite Hb. cbn [bind result_monad].
  rewrite Hres. reflexivity.
Qed.

(** X7: With both replies good, the oracle returns the account-only dict
    exactly when no entry of the positions payload is an open position of
    BTC-USDT-SWAP: each is a dict for another instrument or with a
    quantity that converts to zero. *)
Theorem account_only_iff_flat
        (cfg : trading_config) (e : exchange) (orders : list order_params)
        (response positions_data balance_response : pyval)
        (positions : list pyval) (f t : Q) :
  private_get_account_positions e orders = Ok response ->
  response_data response = Ok positions_data ->
  Py.iter positions_data = Ok positions ->
  private_get_account_balance e orders = Ok balance_response ->
  resolve_balances balance_response = Ok (f, t) ->
  (get_current_position cfg (Some e) orders = Some (AccountInfoOnly t f)
   <-> Forall no_open_position positions).
Proof.
  intros Hr Hd Hi Hb Hres.
  erewrite get_current_position_scan by eassumption.
  split.
  - unfold try_or_none.
    destruct (scan_positions cfg f t positions) as [info|] eqn:Hscan;
      [| discriminate].
    intros H. injection H as ->.
    apply scan_positions_account_only in Hscan as (_ & _ & Hall). exact Hall.
  - intros Hall. rewrite (scan_positions_none cfg f t Hall). reflexivity.
Qed.

Lemma scan_positions_skip (cfg : trading_config) (f t : Q)
      (skipped rest : list pyval) :
  Forall no_open_position skipped ->
  scan_positions cfg f t (skipped ++ rest) = scan_positions cfg f t rest.
Proof.
  induction 1 as [| pos_data more (d & -> & Hd) _ IH]; [reflexivity |].
  cbn [app scan_positions]. rewrite lookup_get. cbn [bind result_monad].
  destruct Hd as [-> | (q & -> & Hq)]; [exact IH |].
  cbn [bind result_monad]. rewrite (Qabs_zero_not_pos Hq).
  destruct (Py.eq_str (field d "instId") inst_id); exact IH.
Qed.

(** X8: The first open position of the instrument is the one returned: the
    entries before it are passed over, and those after it are never
    looked at, whatever they hold. *)
Theorem first_open_position_wins
        (cfg : trading_config) (e : exchange) (orders : list order_params)
        (response positions_data balance_response : pyval)
        (skipped rest : list pyval) (d : list (string * pyval))
        (pos f t : Q) (st : position_state) :
  private_get_account_positions e orders = Ok response ->
  response_data response = Ok positions_data ->
  Py.iter positions_data = Ok (skipped ++ PDict d :: rest) ->
  private_get_account_balance e orders = Ok balance_response ->
  resolve_balances balance_response = Ok (f, t) ->
  Forall no_open_position skipped ->
  Py.eq_str (field d "instId") inst_id = true ->
  float_field (PDict d) "pos" 0 = Ok pos ->
  ~ pos == 0 ->
  open_position cfg (PDict d) pos f t = Ok st ->
  get_current_position cfg (Some e) orders = Some (OpenPosition st).
Proof.
  intros Hr Hd Hi Hb Hres Hskip Hinst Hpos Hnz Hopen.
  erewrite get_current_position_scan by eassumption.
  rewrite (scan_positions_skip cfg f t (PDict d :: rest) Hskip).
  cbn [scan_positions]. rewrite lookup_get. cbn [bind result_monad].
  rewrite Hinst, Hpos. cbn [bind result_monad].
  destruct (Qlt_bool 0 (Qabs pos)) eqn:Habs.
  - rewrite Hopen. reflexivity.
  - contradiction Hnz. apply Qabs_not_pos_zero. exact Habs.
Qed.

Lemma float_field_missing (d : list (string * pyval)) (k : string) (dflt : Q) :
  Py.lookup k d = None -> float_field (PDict d) k dflt = Ok dflt.
Proof.
  intros H. unfold float_field. cbn [Py.get_default bind result_monad].
  rewrite H. reflexivity.
Qed.

(** Keys the position entry lacks take the defaults of the source: the
    mark price falls back on the entry price, the leverage on the
    configured one, the others on zero; a positive margin ratio is scaled
    by 100 and the side follows the sign of the quantity. *)
Theorem open_position_defaults
        (cfg : trading_config) (d : list (string * pyval))
        (pos f t : Q) (st : position_state) :
  open_position cfg (PDict d) pos f t = Ok st ->
  (Py.lookup "avgPx" d = None -> entry_price st = 0) /\
  (Py.lookup "markPx" d = None -> mark_price st = entry_price st) /\
  (Py.lookup "lever" d = None -> pos_leverage st = leverage cfg) /\
  (Py.lookup "mgnRatio" d = None -> maint_margin_ratio st = 0) /\
  (forall q, float_field (PDict d) "mgnRatio" 0 = Ok q -> 0 < q ->
             maint_margin_ratio st = q * 100) /\
  (pos_side st = Long <-> 0 < pos).
Proof.
  unfold open_position. cbn [bind result_monad]. intros H.
  repeat bind_inv H. injection H as <-.
  cbn [entry_price mark_price pos_leverage maint_margin_ratio pos_side].
  split.
  { intros Hn. erewrite float_field_missing in E by exact Hn.
    injection E as <-. reflexivity. }
  split.
  { intros Hn. erewrite float_field_missing in E2 by exact Hn.
    injection E2 as <-. reflexivity. }
  split.
  { intros Hn. erewrite float_field_missing in E1 by exact Hn.
    injection E1 as <-. reflexivity. }
  split.
  { intros Hn. erewrite float_field_missing in E6 by exact Hn.
    injection E6 as <-. reflexivity. }
  split.
  { intros q Hq Hpos. injection Hq as <-.
    apply Qlt_bool_iff in Hpos. rewrite Hpos. reflexivity. }
  destruct (Qlt_bool 0 pos) eqn:Hp.
  - apply Qlt_bool_iff in Hp. split; [intros _; exact Hp | reflexivity].
  - split; [discriminate |].
    intros Hpos. apply Qlt_bool_iff in Hpos. congruence.
Qed.

(** ** Further properties of the signal generator *)

Lemma lookup_set_item_same (d : list (string * pyval)) (k : string) (v : pyval) :
  Py.lookup k (Py.set_item d k v) = Some v.
Proof.
  induction d as [| [k' v'] rest IH]; cbn [Py.set_item Py.lookup].
  - rewrite String.eqb_refl. reflexivity.
  - destruct (String.eqb k k') eqn:E; cbn [Py.lookup]; rewrite E;
      [reflexivity | exact IH].
Qed.

Lemma lookup_set_item_other (d : list (string * pyval)) (k k' : string)
      (v : pyval) :
  k' <> k -> Py.lookup k' (Py.set_item d k v) = Py.lookup k' d.
Proof.
  intros Hne. induction d as [| [k0 v0] rest IH]; cbn [Py.set_item Py.lookup].
  - destruct (String.eqb_spec k' k) as [Heq | _]; [contradiction | reflexivity].
  - destruct (String.eqb_spec k k0) as [<- | Hk]; cbn [Py.lookup].
    + destruct (String.eqb_spec k' k) as [Heq | _]; [contradiction | reflexivity].
    + rewrite IH. reflexivity.
Qed.

Lemma set_item_truthy (d : list (string * pyval)) (k : string) (v : pyval) :
  Py.truthy (PDict (Py.set_item d k v)) = true.
Proof.
  destruct d as [| [k' v'] rest]; cbn [Py.set_item]; [reflexivity |].
  destruct (String.eqb k k'); reflexivity.
Qed.

Lemma append_bounded_last (A : Type) (n : nat) (l : list A) (x d : A) :
  (0 < n)%nat -> last (append_bounded (S n) l x) d = x.
Proof.
  intros Hn. unfold append_bounded.
  destruct (Nat.ltb (S n) (List.length (l ++ [x]))) eqn:E.
  - apply Nat.ltb_lt in E. rewrite length_app in E. cbn [List.length] in E.
    destruct l as [| y l]; [cbn in E; lia |].
    cbn [app tl]. apply last_last.
  - apply last_last.
Qed.

Lemma account_only_analysis_raises
      (cfg : trading_config) (ex : option exchange) (cl : deepseek_client)
      (pd : price_data) (w : world) (t f : Q) :
  get_current_position cfg ex (submitted w) = Some (AccountInfoOnly t f) ->
  exists err,
    analyze_with_deepseek cfg ex (Some cl) pd w
    = (Raise err,
       with_price_history w (append_bounded 20 (price_history w) pd)).
Proof.
  intros Hpos. rewrite analyze_with_deepseek_outcome.
  unfold build_prompt, read, lift. cbn [bind prog_monad ret].
  cbn [price_history signal_history submitted with_price_history].
  rewrite Hpos.
  destruct (kline_lines (kline_data pd)) as [lines|e1]; cbn [fst snd];
    [| eexists; reflexivity].
  destruct (indicator _ pd) as [ind|e2]; cbn [fst snd];
    [| eexists; reflexivity].
  destruct (last_signal_summary (signal_history w)) as [ls|e3];
    cbn [fst snd position_summary position_item_side bind result_monad];
    eexists; reflexivity.
Qed.

Lemma analyze_keeps_orders
      (cfg : trading_config) (ex : option exchange)
      (client : option deepseek_client) (pd : price_data) (w : world) :
  submitted (snd (analyze_with_deepseek cfg ex client pd w)) = submitted w /\
  trade_stats_file (snd (analyze_with_deepseek cfg ex client pd w))
  = trade_stats_file w.
Proof.
  destruct client as [cl|]; [| split; reflexivity].
  rewrite analyze_with_deepseek_outcome.
  destruct (fst (build_prompt cfg ex pd _)) as [p|e]; [| split; reflexivity].
  destruct (reply <- chat_completions_create cl p ;; parse_signal reply pd)
    as [[sd|]|]; split; reflexivity.
Qed.

(** X9: The account-only dict is a position the prompt cannot describe:
    whenever the oracle reports no open position by that dict,
    [analyze_with_deepseek] leaves by an exception raised before the
    [try] (the [KeyError] on ['side'] once the candle lines and the
    indicator are through); the observation stays recorded, no signal is
    appended, and no signal is ever returned. *)
Theorem account_only_position_breaks_analysis
        (cfg : trading_config) (ex : option exchange) (cl : deepseek_client)
        (pd : price_data) (w : world) (t f : Q) :
  get_current_position cfg ex (submitted w) = Some (AccountInfoOnly t f) ->
  let out := analyze_with_deepseek cfg ex (Some cl) pd w in
  (exists err, fst out = Raise err) /\
  snd out = with_price_history w (append_bounded 20 (price_history w) pd) /\
  (forall lines ind last_signal,
      kline_lines (kline_data pd) = Ok lines ->
      indicator (append_bounded 20 (price_history w) pd) pd = Ok ind ->
      last_signal_summary (signal_history w) = Ok last_signal ->
      fst out = Raise (KeyError "side")).
Proof.
  intros Hpos out. unfold out. rewrite analyze_with_deepseek_outcome.
  unfold build_prompt, read, lift. cbn [bind prog_monad ret].
  cbn [price_history signal_history submitted with_price_history].
  rewrite Hpos.
  destruct (kline_lines (kline_data pd)) as [lines|e1]; cbn [fst snd].
  - destruct (indicator _ pd) as [ind|e2]; cbn [fst snd].
    + destruct (last_signal_summary (signal_history w)) as [ls|e3];
        cbn [fst snd position_summary position_item_side bind result_monad].
      * split; [eexists; reflexivity |]. split; [reflexivity |].
        intros; reflexivity.
      * split; [eexists; reflexivity |]. split; [reflexivity |].
        intros ? ? ? _ _ H. discriminate H.
    + split; [eexists; reflexivity |]. split; [reflexivity |].
      intros ? ? ? _ H. discriminate H.
  - split; [eexists; reflexivity |]. split; [reflexivity |].
    intros ? ? ? H. discriminate H.
Qed.

(** X10: Only the lines before the [try] can make [analyze_with_deepseek]
    raise: it raises exactly when building the prompt does, with the same
    exception; a failing inference call, a reply without braces or one
    that does not parse all come back as [None]. *)
Theorem analysis_raises_only_from_prompt
        (cfg : trading_config) (ex : option exchange)
        (client : option deepseek_client) (pd : price_data) (w : world)
        (err : exn) :
  fst (analyze_with_deepseek cfg ex client pd w) = Raise err <->
  exists cl,
    client = Some cl /\
    fst (build_prompt cfg ex pd
           (with_price_history w (append_bounded 20 (price_history w) pd)))
    = Raise err.
Proof.
  destruct client as [cl|].
  - rewrite analyze_with_deepseek_outcome.
    destruct (fst (build_prompt cfg ex pd _)) as [p|e] eqn:Hp.
    + split.
      * destruct (reply <- chat_completions_create cl p ;; parse_signal reply pd)
          as [[sd|]|]; intros H; discriminate H.
      * intros (cl' & _ & H). discriminate H.
    + cbn [fst]. split.
      * intros H. injection H as <-. exists cl. split; reflexivity.
      * intros (cl' & _ & H). injection H as <-. reflexivity.
  - cbn. split; [discriminate |]. intros (cl & H & _). discriminate H.
Qed.

(** X11: A returned signal is the JSON object of the reply with its
    ['timestamp'] set to the observation's: every other key reads as
    parsed, the dict is never empty, and it is the newest element of the
    signal history. *)
Theorem returned_signal_is_stamped
        (cfg : trading_config) (ex : option exchange)
        (client : option deepseek_client) (pd : price_data) (w : world)
        (signal_data : pyval) :
  fst (analyze_with_deepseek cfg ex client pd w) = Ok (Some signal_data) ->
  exists (json_str : string) (parsed d : list (string * pyval)),
    json_loads json_str = Some (PDict parsed) /\
    signal_data = PDict d /\
    Py.lookup "timestamp" d = Some (PStr (timestamp pd)) /\
    (forall k, k <> "timestamp" -> Py.lookup k d = Py.lookup k parsed) /\
    Py.truthy signal_data = true /\
    last (signal_history (snd (analyze_with_deepseek cfg ex client pd w))) PNone
    = signal_data.
Proof.
  destruct client as [cl|]; [| discriminate].
  rewrite analyze_with_deepseek_outcome.
  destruct (fst (build_prompt cfg ex pd _)) as [p|e]; [| discriminate].
  destruct (chat_completions_create cl p) as [reply|];
    cbn [bind result_monad]; [| discriminate].
  destruct (parse_signal reply pd) as [[sd|]|] eqn:Hparse; try discriminate.
  cbn [fst snd]. intros H. injection H as <-.
  unfold parse_signal in Hparse.
  destruct (json_span reply) as [json_str|]; [| discriminate Hparse].
  destruct (json_loads json_str) as [[| | | | |parsed]|] eqn:Hloads;
    try discriminate Hparse.
  injection Hparse as <-.
  exists json_str, parsed, (Py.set_item parsed "timestamp" (PStr (timestamp pd))).
  split; [exact Hloads |]. split; [reflexivity |].
  split; [apply lookup_set_item_same |].
  split; [intros k Hk; apply lookup_set_item_other; exact Hk |].
  split; [apply set_item_truthy |].
  cbn [signal_history with_signal_history].
  apply append_bounded_last. lia.
Qed.

(** X12: [analyze_with_deepseek] touches neither the orders nor the stats
    file, and the bound of 30 on [signal_history] is kept by every call,
    whatever its outcome. *)
Theorem analysis_keeps_orders_and_signal_bound
        (cfg : trading_config) (ex : option exchange)
        (client : option deepseek_client) (pd : price_data) (w : world) :
  let w' := snd (analyze_with_deepseek cfg ex client pd w) in
  submitted w' = submitted w /\
  trade_stats_file w' = trade_stats_file w /\
  ((List.length (signal_history w) <= 30)%nat ->
   (List.length (signal_history w') <= 30)%nat).
Proof.
  cbv zeta. destruct client as [cl|].
  - rewrite analyze_with_deepseek_outcome.
    destruct (fst (build_prompt cfg ex pd _)) as [p|e];
      [| cbn; repeat split; auto; fail].
    destruct (reply <- chat_completions_create cl p ;; parse_signal reply pd)
      as [[sd|]|]; try solve [cbn; repeat split; auto].
    cbn [snd submitted trade_stats_file signal_history with_signal_history
         with_price_history].
    split; [reflexivity |]. split; [reflexivity |].
    apply append_bounded_le.
  - cbn. repeat split; auto.
Qed.

(** ** Further properties of the market snapshot *)

Lemma candle_rows_app (a b : list pyval) :
  candle_rows (a ++ b)
  = (ra <- candle_rows a ;; rb <- candle_rows b ;; Ok (ra ++ rb)).
Proof.
  induction a as [| candle rest IH]; cbn [app candle_rows bind result_monad].
  - destruct (candle_rows b); reflexivity.
  - destruct (candle_row candle); [| reflexivity].
    rewrite IH. cbn [bind result_monad].
    destruct (candle_rows rest); [| reflexivity].
    cbn [bind result_monad]. destruct (candle_rows b); reflexivity.
Qed.

Lemma candle_rows_length (candles : list pyval) (rows : list kline) :
  candle_rows candles = Ok rows -> List.length rows = List.length candles.
Proof.
  intros H. apply candle_rows_forall2 in H.
  symmetry. apply (Forall2_length H).
Qed.

Lemma candle_rows_app_inv (a b : list pyval) (rows : list kline) :
  candle_rows (a ++ b) = Ok rows ->
  exists ra rb,
    candle_rows a = Ok ra /\ candle_rows b = Ok rb /\ rows = ra ++ rb.
Proof.
  rewrite candle_rows_app. cbn [bind result_monad].
  destruct (candle_rows a) as [ra|]; [| discriminate].
  destruct (candle_rows b) as [rb|]; [| discriminate].
  intros H. injection H as <-. exists ra, rb.
  split; [reflexivity |]. split; reflexivity.
Qed.

Lemma get_btc_ohlcv_body_inv (cfg : trading_config) (now : string)
      (response data : pyval) (candles : list pyval) (obs : price_data) :
  get_btc_ohlcv_body cfg now response = Ok obs ->
  response_data_nonempty response = Ok data ->
  Py.iter data = Ok candles ->
  exists ohlcv,
    candle_rows (rev candles) = Ok ohlcv /\
    snapshot_of_frame cfg now ohlcv = Ok obs.
Proof.
  unfold get_btc_ohlcv_body. intros H Hdata Hiter.
  rewrite Hdata in H. cbn [bind result_monad] in H.
  rewrite Hiter in H. cbn [bind result_monad] in H.
  destruct (candle_rows (rev candles)) as [ohlcv|]; [| discriminate H].
  exists ohlcv. split; [reflexivity | exact H].
Qed.

(** X13: The exchange lists the newest candle first; the snapshot's price,
    high, low and volume are those of that first candle of the reply,
    its timestamp is the wall clock and its timeframe the configured
    one. *)
Theorem snapshot_reads_newest_candle
        (cfg : trading_config) (now : string) (response data newest : pyval)
        (older : list pyval) (obs : price_data) :
  get_btc_ohlcv_body cfg now response = Ok obs ->
  response_data_nonempty response = Ok data ->
  Py.iter data = Ok (newest :: older) ->
  exists row,
    candle_row newest = Ok row /\
    price obs = k_close row /\ high obs = k_high row /\
    low obs = k_low row /\ volume obs = k_volume row /\
    timestamp obs = now /\ pd_timeframe obs = timeframe cfg.
Proof.
  intros H Hdata Hiter.
  destruct (get_btc_ohlcv_body_inv _ _ _ H Hdata Hiter) as (ohlcv & Hrows & Hsnap).
  cbn [rev] in Hrows.
  apply candle_rows_app_inv in Hrows as (ra & rb & _ & Hb & ->).
  cbn [candle_rows bind result_monad] in Hb.
  destruct (candle_row newest) as [row|]; [| discriminate Hb].
  cbn [bind result_monad] in Hb. injection Hb as <-.
  exists row. split; [reflexivity |].
  unfold snapshot_of_frame in Hsnap.
  rewrite rev_app_distr in Hsnap. cbn [rev app] in Hsnap.
  injection Hsnap as <-. cbn.
  do 5 (split; [reflexivity |]). reflexivity.
Qed.

(** X14: ['kline_data'] holds the five newest candles of the reply (all of
    them when there are fewer), converted and put oldest first. *)
Theorem kline_data_is_five_newest
        (cfg : trading_config) (now : string) (response data : pyval)
        (candles : list pyval) (obs : price_data) :
  get_btc_ohlcv_body cfg now response = Ok obs ->
  response_data_nonempty response = Ok data ->
  Py.iter data = Ok candles ->
  candle_rows (rev (firstn 5 candles)) = Ok (kline_data obs) /\
  List.length (kline_data obs) = Nat.min 5 (List.length candles).
Proof.
  intros H Hdata Hiter.
  destruct (get_btc_ohlcv_body_inv _ _ _ H Hdata Hiter) as (ohlcv & Hrows & Hsnap).
  rewrite <- (firstn_skipn 5 candles), rev_app_distr in Hrows.
  apply candle_rows_app_inv in Hrows as (ra & rb & Ha & Hb & ->).
  assert (Hkline : kline_data obs = last_n 5 (ra ++ rb)).
  { unfold snapshot_of_frame in Hsnap.
    destruct (rev (ra ++ rb)); [discriminate Hsnap |].
    injection Hsnap as <-. reflexivity. }
  pose proof (candle_rows_length _ Ha) as Hla.
  pose proof (candle_rows_length _ Hb) as Hlb.
  rewrite length_rev, length_skipn in Hla.
  rewrite length_rev, length_firstn in Hlb.
  assert (Hlast : last_n 5 (ra ++ rb) = rb).
  { unfold last_n. rewrite length_app.
    replace (List.length ra + List.length rb - 5)%nat with (List.length ra) by lia.
    rewrite skipn_app, skipn_all, Nat.sub_diag. reflexivity. }
  rewrite Hkline, Hlast. split; [exact Hb | exact Hlb].
Qed.

Lemma candle_rows_total (candles : list pyval) :
  Forall (fun candle => exists row, candle_row candle = Ok row) candles ->
  exists rows, candle_rows candles = Ok rows.
Proof.
  induction 1 as [| candle rest (row & Hrow) _ (rows & IH)];
    cbn [candle_rows bind result_monad].
  - exists []. reflexivity.
  - rewrite Hrow, IH. cbn [bind result_monad]. eexists. reflexivity.
Qed.

Lemma candle_rows_each (candles : list pyval) (rows : list kline) :
  candle_rows candles = Ok rows ->
  Forall (fun candle => exists row, candle_row candle = Ok row) candles.
Proof.
  intros H. apply candle_rows_forall2 in H.
  induction H as [| candle row rest rows' Hrow _ IH]; constructor.
  - exists row. exact Hrow.
  - exact IH.
Qed.

Lemma iter_truthy_nonempty (data : pyval) (l : list pyval) :
  Py.truthy data = true -> Py.iter data = Ok l -> l <> [].
Proof.
  destruct data as [| b | q | s | l0 | d]; cbn [Py.iter Py.truthy];
    try discriminate.
  - destruct s; [discriminate |]. intros _ H. injection H as <-. discriminate.
  - destruct l0; [discriminate |]. intros _ H. injection H as <-. discriminate.
  - destruct d; [discriminate |]. intros _ H. injection H as <-. discriminate.
Qed.

Lemma response_data_nonempty_truthy (response data : pyval) :
  response_data_nonempty response = Ok data -> Py.truthy data = true.
Proof.
  unfold response_data_nonempty. cbn [bind result_monad].
  destruct (response_data response) as [v|]; [| discriminate].
  destruct (Py.truthy v) eqn:Hv; cbn [negb]; [| discriminate].
  intros H. injection H as <-. exact Hv.
Qed.

(** X15: A snapshot is all or nothing: [get_btc_ohlcv] returns one exactly
    when the request succeeds with a non-empty ['data'] in which every
    candle converts, the ones beyond the five it reports included; one
    bad cell anywhere in the reply gives [None]. *)
Theorem snapshot_iff_all_candles_convert
        (cfg : trading_config) (e : exchange) (now : string)
        (orders : list order_params) :
  get_btc_ohlcv cfg (Some e) now orders <> None <->
  exists response data candles,
    public_get_market_candles e orders = Ok response /\
    response_data_nonempty response = Ok data /\
    Py.iter data = Ok candles /\
    Forall (fun candle => exists row, candle_row candle = Ok row) candles.
Proof.
  unfold get_btc_ohlcv, try_or_none, get_btc_ohlcv_body.
  cbn [bind result_monad]. split.
  - intros H.
    destruct (public_get_market_candles e orders) as [response|] eqn:Hreply;
      [| contradiction H; reflexivity].
    cbn [bind result_monad] in H.
    destruct (response_data_nonempty response) as [data|] eqn:Hdata;
      [| contradiction H; reflexivity].
    cbn [bind result_monad] in H.
    destruct (Py.iter data) as [candles|] eqn:Hiter;
      [| contradiction H; reflexivity].
    cbn [bind result_monad] in H.
    destruct (candle_rows (rev candles)) as [rows|] eqn:Hrows;
      [| contradiction H; reflexivity].
    exists response, data, candles.
    split; [reflexivity |]. split; [exact Hdata |]. split; [exact Hiter |].
    apply candle_rows_each in Hrows. apply Forall_rev in Hrows.
    rewrite rev_involutive in Hrows. exact Hrows.
  - intros (response & data & candles & -> & Hdata & Hiter & Hall).
    cbn [bind result_monad].
    pose proof (response_data_nonempty_truthy _ Hdata) as Htruthy.
    rewrite Hdata. cbn [bind result_monad]. rewrite Hiter.
    cbn [bind result_monad].
    destruct (candle_rows_total (Forall_rev Hall)) as (rows & Hrows).
    rewrite Hrows.
    pose proof (candle_rows_length _ Hrows) as Hlen.
    rewrite length_rev in Hlen.
    pose proof (iter_truthy_nonempty _ Htruthy Hiter) as Hne.
    unfold snapshot_of_frame.
    destruct (rev rows) eqn:Hrev; [| discriminate].
    apply (f_equal (@List.length kline)) in Hrev.
    rewrite length_rev, Hlen in Hrev.
    destruct candles; [contradiction Hne; reflexivity | discriminate Hrev].
Qed.

(** ** Further properties of the drawdown statistics and the counters *)

(** A balance at or below the running maximum has a drawdown of at most
    zero, and of no less than -100 when it is not negative. *)
Lemma drawdown_of_range (b seen : Q) :
  b <= seen ->
  drawdown_of b seen <= 0 /\ (0 <= b -> -100 <= drawdown_of b seen).
Proof.
  intros Hle. unfold drawdown_of.
  destruct (Qlt_bool 0 seen) eqn:Hseen; [| split; [lra | intros _; lra]].
  apply Qlt_bool_iff in Hseen.
  split.
  - assert (H : (b - seen) / seen <= 0)
      by (apply Qle_shift_div_r; [exact Hseen | lra]).
    lra.
  - intros Hb.
    assert (H : -1 <= (b - seen) / seen)
      by (apply Qle_shift_div_l; [exact Hseen | lra]).
    lra.
Qed.

Lemma drawdown_loop_floor (l : list Q) :
  forall st0 : drawdown_state,
    -100 <= max_drawdown st0 ->
    Forall (fun b => 0 <= b) l ->
    -100 <= max_drawdown (drawdown_loop st0 l).
Proof.
  induction l as [| b rest IH]; intros st0 H0 Hall;
    cbn [drawdown_loop fold_left]; [exact H0 |].
  inversion Hall as [| ? ? Hb Hrest]; subst.
  apply IH; [| exact Hrest].
  destruct (drawdown_step_spec st0 b) as (_ & S2 & _ & S4 & _ & _ & S7).
  cbv zeta in S2, S4, S7.
  destruct S7 as [-> | ->]; [exact H0 |].
  rewrite S4. apply drawdown_of_range; assumption.
Qed.

Lemma drawdown_step_range (loop : drawdown_state) (current : Q) :
  let st := drawdown_step loop current in
  drawdown st <= 0 /\
  max_drawdown st <= drawdown st /\
  (-100 <= max_drawdown loop -> 0 <= current ->
   -100 <= max_drawdown st /\ -100 <= drawdown st).
Proof.
  destruct (drawdown_step_spec loop current) as (_ & S2 & _ & S4 & _ & S6 & S7).
  cbv zeta in *.
  destruct (drawdown_of_range S2) as (Hle & Hfloor).
  split; [rewrite S4; exact Hle |].
  split; [exact S6 |].
  intros Hloop Hcur.
  assert (Hdd : -100 <= drawdown (drawdown_step loop current))
    by (rewrite S4; apply Hfloor; exact Hcur).
  split; [| exact Hdd].
  destruct S7 as [-> | ->]; [exact Hloop | exact Hdd].
Qed.

(** X16: The reported drawdowns are percentages of a loss: never positive,
    the maximum drawdown never above the current one, and neither below
    -100 as long as no balance, stored or live, is negative. *)
Theorem drawdown_is_a_loss_percentage
        (equity_data : list equity_point) (current : Q)
        (st : drawdown_state) :
  equity_drawdown equity_data current = Some st ->
  drawdown st <= 0 /\
  max_drawdown st <= drawdown st /\
  (Forall (fun p => 0 <= ep_balance p) equity_data -> 0 <= current ->
   -100 <= max_drawdown st /\ -100 <= drawdown st).
Proof.
  unfold equity_drawdown.
  destruct equity_data as [| first rest]; [discriminate |].
  intros H. injection H as <-.
  destruct (drawdown_step_range
              (drawdown_loop (drawdown_init first)
                             (map ep_balance (first :: rest))) current)
    as (H1 & H2 & H3).
  split; [exact H1 |]. split; [exact H2 |].
  intros Hall Hcur. apply H3; [| exact Hcur].
  apply drawdown_loop_floor.
  - cbn. lra.
  - apply Forall_map. exact Hall.
Qed.

Lemma count_position_spec (total winning losing : Z) (pos : pyval)
      (total' winning' losing' : Z) :
  count_position (total, winning, losing) pos = Ok (total', winning', losing') ->
  (total <= total' <= total + 1)%Z /\
  (winning <= winning')%Z /\ (losing <= losing')%Z /\
  (winning' - winning + (losing' - losing) <= total' - total)%Z.
Proof.
  unfold count_position. cbn [bind result_monad].
  destruct (Py.get_default pos "closeAvgPx" _) as [c|]; [| discriminate].
  cbn [bind result_monad].
  destruct (Py.truthy c).
  - destruct (Py.get_default pos "realizedPnl" _) as [r|]; [| discriminate].
    cbn [bind result_monad].
    destruct (if Py.truthy r then py_float r else Ok 0) as [pnl|].
    + destruct (Qlt_bool 0 pnl); [| destruct (Qlt_bool pnl 0)];
        intros H; injection H as <- <- <-; lia.
    + intros H; injection H as <- <- <-; lia.
  - intros H; injection H as <- <- <-; lia.
Qed.

Lemma count_positions_spec (all_positions : list pyval) :
  forall total winning losing total' winning' losing',
    count_positions (total, winning, losing) all_positions
    = (total', winning', losing') ->
    (total <= total' <= total + Z.of_nat (List.length all_positions))%Z /\
    (winning <= winning')%Z /\ (losing <= losing')%Z /\
    (winning' - winning + (losing' - losing) <= total' - total)%Z.
Proof.
  induction all_positions as [| pos rest IH];
    intros total winning losing total' winning' losing';
    cbn [count_positions].
  - intros H. injection H as <- <- <-. cbn [List.length]. lia.
  - destruct (count_position (total, winning, losing) pos)
      as [[[t1 w1] l1]|] eqn:Hstep.
    + intros H. apply IH in H. apply count_position_spec in Hstep.
      change (List.length (pos :: rest)) with (S (List.length rest)). lia.
    + intros H. injection H as <- <- <-.
      change (List.length (pos :: rest)) with (S (List.length rest)). lia.
Qed.

(** X17: The counters of [get_signal_accuracy] only grow: each record adds at
    most one trade, won and lost trades are disjoint parts of the total,
    and the total does not exceed the number of records read. *)
Theorem counters_are_consistent
        (all_positions : list pyval) (total winning losing : Z) :
  count_positions (0, 0, 0)%Z all_positions = (total, winning, losing) ->
  (0 <= winning)%Z /\ (0 <= losing)%Z /\
  (winning + losing <= total)%Z /\
  (total <= Z.of_nat (List.length all_positions))%Z.
Proof.
  intros H. apply count_positions_spec in H. lia.
Qed.

(** X18: The accuracy rate is a percentage, whatever the history holds, and
    zero when no trade was closed. *)
Theorem accuracy_rate_is_a_percentage (all_positions : list pyval) :
  let counters := count_positions (0, 0, 0)%Z all_positions in
  0 <= accuracy_rate counters <= 100 /\
  (fst (fst counters) = 0%Z -> accuracy_rate counters = 0).
Proof.
  cbv zeta.
  destruct (count_positions (0, 0, 0)%Z all_positions) as [[total winning] losing]
    eqn:Hcount.
  apply count_positions_spec in Hcount.
  unfold accuracy_rate. cbn [fst].
  destruct (Z.ltb_spec 0 total) as [Hpos | Hzero].
  - assert (Ht : 0 < inject_Z total)
      by (change 0 with (inject_Z 0); rewrite <- Zlt_Qlt; exact Hpos).
    assert (Hw : 0 <= inject_Z winning)
      by (change 0 with (inject_Z 0); rewrite <- Zle_Qle; lia).
    assert (Hwt : inject_Z winning <= inject_Z total)
      by (rewrite <- Zle_Qle; lia).
    assert (H0 : 0 <= inject_Z winning / inject_Z total)
      by (apply Qle_shift_div_l; [exact Ht | lra]).
    assert (H1 : inject_Z winning / inject_Z total <= 1)
      by (apply Qle_shift_div_r; [exact Ht | lra]).
    split; [split; lra |]. intros Hz. lia.
  - split; [split; lra | reflexivity].
Qed.

(** ** Properties of one iteration of the loop *)

(** X19: From a flat account the loop never reaches the executor: with a
    snapshot and a client at hand, an oracle that answers with the
    account-only dict makes the analysis raise, the iteration ends in the
    [except] of the loop, and all that changes is the price history. *)
Theorem flat_account_cycle_never_trades
        (cfg : trading_config) (ex : option exchange) (cl : deepseek_client)
        (now : string) (pd : price_data) (t f : Q) (w : world) :
  get_btc_ohlcv cfg ex now (submitted w) = Some pd ->
  get_current_position cfg ex (submitted w) = Some (AccountInfoOnly t f) ->
  exists err,
    trading_cycle cfg ex (Some cl) now w
    = (Ok (CycleError err),
       with_price_history w (append_bounded 20 (price_history w) pd)).
Proof.
  intros Hsnap Hpos.
  destruct (account_only_analysis_raises cfg ex cl pd w Hpos) as (err & Hout).
  exists err. unfold trading_cycle, catch, read.
  cbn [bind prog_monad]. rewrite Hsnap, Hout. reflexivity.
Qed.

(** X20: An iteration never raises and never submits more than one order;
    it submits none unless it got as far as [execute_trade], and then
    only a market order on the instrument, outside test mode.  The stats
    file is not written. *)
Theorem cycle_submits_at_most_one_order
        (cfg : trading_config) (ex : option exchange)
        (client : option deepseek_client) (now : string) (w : world) :
  let out := trading_cycle cfg ex client now w in
  exists outcome,
    fst out = Ok outcome /\
    (submitted (snd out) = submitted w \/
     exists order,
       submitted (snd out) = submitted w ++ [order] /\
       instId order = "BTC-USDT-SWAP" /\ ordType order = "market" /\
       test_mode cfg = false /\ outcome = Executed) /\
    trade_stats_file (snd out) = trade_stats_file w.
Proof.
  cbv zeta. unfold trading_cycle, catch, read. cbn [bind prog_monad].
  destruct (get_btc_ohlcv cfg ex now (submitted w)) as [pd|].
  - destruct (analyze_keeps_orders cfg ex client pd w) as (Hsub & Hfile).
    destruct (analyze_with_deepseek cfg ex client pd w) as [[[sd|]|err] w1];
      cbn [fst snd] in Hsub, Hfile.
    + destruct (Py.truthy sd); cbn [negb].
      * cbn [bind prog_monad].
        pose proof (execute_trade_orders cfg ex sd w1) as Horders.
        pose proof (execute_trade_keeps_ledger cfg ex sd w1) as (_ & _ & Hledger).
        pose proof (execute_trade_raise_world cfg ex sd w1) as Hraise.
        cbv zeta in Horders.
        destruct (execute_trade cfg ex sd w1) as [[[]|err] w2];
          cbn [fst snd ret prog_monad] in *.
        -- exists Executed. split; [reflexivity |]. split; [| congruence].
           destruct Horders as [-> | (order & -> & Hi & Ho & _ & Hm & _)];
             [left; exact Hsub |].
           right. exists order. cbn [submitted with_submitted].
           rewrite Hsub. auto.
        -- exists (CycleError err). split; [reflexivity |].
           split; [| congruence].
           left. rewrite (Hraise err eq_refl). exact Hsub.
      * exists NoSignal. cbn. auto.
    + exists NoSignal. cbn. auto.
    + exists (CycleError err). cbn. auto.
  - exists NoSnapshot. cbn. auto.
Qed.

End Loop.

(** ** The statements at sample inputs

    From here on Python's [float], [json.loads] and the timestamp conversion
    are the readers of module [Reader], and the payloads are those of module
    [Sample]. *)

Section AtSamples.

Open Scope string_scope.
Open Scope list_scope.

(** The position [Sample.ex_long] reports before any order. *)
Lemma ex_long_is_long :
  exists st,
    get_current_position Reader.float_of_string Sample.cfg_live
                         (Some Sample.ex_long) []
    = Some (OpenPosition st) /\
    pos_side st = Long /\ size st = 1 /\ position_amt st = 1.
Proof. eexists. split; [reflexivity |]. repeat split. Qed.

(** C1 does not hold as stated: live, long one contract and told to BUY,
    [execute_trade] submits an order. *)
Lemma long_buy_submits_an_order :
  (exists st,
      get_current_position Reader.float_of_string Sample.cfg_live
                           (Some Sample.ex_long) (submitted Sample.world0)
      = Some (OpenPosition st) /\ pos_side st = Long) /\
  Py.item (Sample.signal "BUY" "LOW") "signal" = Ok (PStr "BUY") /\
  submitted (snd (execute_trade Reader.float_of_string Sample.cfg_live
                                (Some Sample.ex_long)
                                (Sample.signal "BUY" "LOW") Sample.world0))
  = [market_order_params Buy 0.01 false] /\
  submitted (snd (execute_trade Reader.float_of_string Sample.cfg_live
                                (Some Sample.ex_long)
                                (Sample.signal "BUY" "LOW") Sample.world0))
  <> submitted Sample.world0.
Proof.
  split; [eexists; split; reflexivity |].
  split; [reflexivity |]. split; [reflexivity |]. discriminate.
Qed.

Lemma long_buy_opens_again_witness :
  execute_trade Reader.float_of_string Sample.cfg_live (Some Sample.ex_long)
                (Sample.signal "BUY" "LOW") Sample.world0
  = (Ok tt,
     with_submitted Sample.world0 [market_order_params Buy 0.01 false]) /\
  execute_trade Reader.float_of_string Sample.cfg_test (Some Sample.ex_long)
                (Sample.signal "BUY" "HIGH") Sample.world0
  = (Ok tt, Sample.world0).
Proof.
  split.
  - eapply (@long_buy_opens_again Reader.float_of_string Sample.cfg_live);
      reflexivity.
  - eapply (@long_buy_opens_again Reader.float_of_string Sample.cfg_test);
      reflexivity.
Defined.

Lemma long_sell_closes_once_witness :
  exists order : order_params,
    execute_trade Reader.float_of_string Sample.cfg_live (Some Sample.ex_long)
                  (Sample.signal "SELL" "MEDIUM") Sample.world0
    = (Ok tt, with_submitted Sample.world0 [order]) /\
    side order = Sell /\ ordType order = "market" /\
    reduceOnly order = true /\ sz order = 1.
Proof.
  destruct (@long_sell_closes_once Reader.float_of_string Sample.cfg_live
              Sample.ex_long (Sample.signal "SELL" "MEDIUM")
              (PStr "MEDIUM") (PStr "x") Sample.long_state Sample.world0
              eq_refl eq_refl eq_refl eq_refl eq_refl eq_refl)
    as (order & Hrun & Hside & Htype & Hro & Hsz & _).
  exists order. rewrite Hsz. repeat split; assumption.
Defined.

(** C3 at its failing input: live, no position but a balance of 1000 USDT,
    BUY with confidence HIGH.  The branch raises on ['side'] and nothing is
    submitted. *)
Lemma flat_buy_submits_nothing :
  get_current_position Reader.float_of_string Sample.cfg_live
                       (Some Sample.ex_flat) (submitted Sample.world0)
  = Some (AccountInfoOnly 1000 1000) /\
  execute_trade_body Sample.cfg_live Sample.ex_flat
                     (Some (AccountInfoOnly 1000 1000)) (PStr "BUY")
                     Sample.world0
  = (Raise (KeyError "side"), Sample.world0) /\
  execute_trade Reader.float_of_string Sample.cfg_live (Some Sample.ex_flat)
                (Sample.signal "BUY" "HIGH") Sample.world0
  = (Ok tt, Sample.world0) /\
  submitted Sample.world0 = [].
Proof. repeat split. Qed.

(** C4 does not hold as stated: live, long one contract, SELL, the order
    acknowledged with [sCode] ["0"]; the persisted counters stay at 5, 3
    and 2. *)
Lemma filled_close_leaves_counters :
  let out := execute_trade Reader.float_of_string Sample.cfg_live
                           (Some Sample.ex_long)
                           (Sample.signal "SELL" "HIGH") Sample.world0 in
  submitted (snd out) = [market_order_params Sell 1 true] /\
  (exists receipt,
      check_order_response Sample.order_filled = Ok receipt /\
      receipt_status receipt = "filled") /\
  trade_stats_file Sample.world0 = Some Sample.stats0 /\
  trade_stats_file (snd out) = Some Sample.stats0 /\
  total_trades Sample.stats0 = 5%Z /\
  (forall stats,
      trade_stats_file (snd out) = Some stats ->
      total_trades stats <> (total_trades Sample.stats0 + 1)%Z).
Proof.
  cbv zeta. split; [reflexivity |].
  split; [eexists; split; reflexivity |].
  split; [reflexivity |]. split; [reflexivity |]. split; [reflexivity |].
  intros stats [= <-]. discriminate.
Qed.

Lemma close_submits_order_counters_from_history_witness :
  let out := execute_trade Reader.float_of_string Sample.cfg_live
                           (Some Sample.ex_long)
                           (Sample.signal "SELL" "HIGH") Sample.world0 in
  (exists order : order_params,
      submitted (snd out) = [order] /\
      side order = Sell /\ reduceOnly order = true /\ sz order == 1) /\
  fst (trade_count true true "2025-02-01T00:00:00" Sample.world0) = Ok 5%Z /\
  fst (trade_count true true "2025-02-01T00:00:00" (snd out)) = Ok 5%Z /\
  trade_stats_file
    (perform_all Reader.float_of_string Reader.json_loads Reader.to_timestamp
                 [LoopIteration Sample.cfg_live (Some Sample.ex_long)
                                (Some (Sample.client_saying
                                         Sample.reply_complete))
                                "2025-02-01T00:00:00";
                  StatusRequest true true "2025-02-01T00:01:00"]
                 Sample.world0)
  = Some Sample.stats0 /\
  fst (trade_count false true "2025-02-01T00:00:00" Sample.world0) = Ok 0%Z /\
  count_positions Reader.float_of_string (0, 0, 0)%Z
                  Sample.positions_history
  = (2, 1, 1)%Z.
Proof.
  cbv zeta.
  destruct (@close_submits_order_counters_from_history
              Reader.float_of_string Reader.json_loads Reader.to_timestamp
              Sample.cfg_live Sample.ex_long
              (Sample.signal "SELL" "HIGH") (PStr "HIGH") (PStr "x")
              Sample.long_state Sample.world0
              eq_refl eq_refl eq_refl (Qeq_refl 1) eq_refl eq_refl eq_refl)
    as ((order & Hsub & Hside & _ & Hro & Hsz) & _ & Hsame & Hkeep & _
        & Hcount & _ & Hhistory).
  split; [exists order; repeat split; assumption |].
  split; [rewrite Hcount; reflexivity |].
  split; [rewrite Hsame, Hcount; reflexivity |].
  split; [apply Hkeep; reflexivity |].
  split; [rewrite Hcount; reflexivity |].
  exact (Hhistory Sample.history_records).
Defined.

(** C5 does not hold as stated: a reply whose JSON object has neither
    [confidence] nor [stop_loss] is returned as a signal. *)
Lemma direction_only_reply_is_a_signal :
  exists span d,
    json_span Sample.reply_direction_only = Some span /\
    Reader.json_loads span = Some (PDict d) /\
    Py.lookup "confidence" d = None /\
    Py.lookup "stop_loss" d = None /\
    fst (analyze_with_deepseek Reader.float_of_string Reader.json_loads
           Sample.cfg_live (Some Sample.ex_long)
           (Some (Sample.client_saying Sample.reply_direction_only))
           (Sample.observation 50200) Sample.world0)
    = Ok (Some (PDict [("signal", PStr "BUY");
                       ("timestamp", PStr "2025-01-01 00:00:00")])).
Proof.
  eexists. eexists.
  split; [vm_compute; reflexivity |].
  split; [vm_compute; reflexivity |].
  split; [reflexivity |]. split; [reflexivity |].
  vm_compute. reflexivity.
Qed.

Lemma signal_is_any_json_object_witness :
  fst (analyze_with_deepseek Reader.float_of_string Reader.json_loads
         Sample.cfg_live (Some Sample.ex_long)
         (Some (Sample.client_saying Sample.reply_complete))
         (Sample.observation 50200) Sample.world0)
  = Ok (Some (PDict [("signal", PStr "BUY"); ("reason", PStr "x");
                     ("stop_loss", PNum 1); ("take_profit", PNum 2);
                     ("confidence", PStr "HIGH");
                     ("timestamp", PStr "2025-01-01 00:00:00")])).
Proof.
  pose proof (@signal_is_any_json_object Reader.float_of_string
                Reader.json_loads Sample.cfg_live (Some Sample.ex_long)
                (Sample.client_saying Sample.reply_complete)
                (Sample.observation 50200) Sample.world0) as H.
  cbv zeta in H.
  edestruct (build_prompt Reader.float_of_string Sample.cfg_live
               (Some Sample.ex_long) (Sample.observation 50200))
    as [[p|err] w1] eqn:Hp in H.
  - specialize (H p Sample.reply_complete eq_refl eq_refl).
    destruct (json_span Sample.reply_complete) as [span|] eqn:Hspan;
      [| vm_compute in Hspan; discriminate Hspan].
    destruct H as (_ & _ & H).
    vm_compute in Hspan. injection Hspan as <-.
    apply (H [("signal", PStr "BUY"); ("reason", PStr "x");
              ("stop_loss", PNum 1); ("take_profit", PNum 2);
              ("confidence", PStr "HIGH")]).
    vm_compute. reflexivity.
  - vm_compute in Hp. discriminate Hp.
Defined.

Lemma zero_balance_is_account_info_witness :
  (exists total free,
      get_current_position Reader.float_of_string Sample.cfg_live
                           (Some Sample.ex_empty) []
      = Some (AccountInfoOnly total free) /\ total == 0 /\ free == 0) /\
  (exists total free,
      get_current_position Reader.float_of_string Sample.cfg_live
                           (Some Sample.ex_funded) []
      = Some (AccountInfoOnly total free) /\ total == 990 /\ free == 950) /\
  (exists total free,
      get_current_position Reader.float_of_string Sample.cfg_live
                           (Some Sample.ex_lower_tier) []
      = Some (AccountInfoOnly total free) /\ total == 1010 /\ free == 970).
Proof.
  split; [| split].
  - apply (@zero_balance_is_account_info
             Reader.float_of_string Sample.cfg_live Sample.ex_empty []
             [("code", PStr "0"); ("msg", PStr EmptyString); ("data", PList [])]
             [("code", PStr "0"); ("msg", PStr EmptyString);
              ("data", PList [PDict Sample.zero_account])]
             Sample.zero_account [] [] [PDict Sample.zero_detail]
             (Some Sample.zero_detail) 0 0);
      try reflexivity.
    + constructor.
    + left. reflexivity.
    + exists [], []. split; [reflexivity |]. split; [constructor | reflexivity].
    + right. left. split; [| split; reflexivity].
      left. exists (PStr "0"), 0. split; [left; split; reflexivity |].
      split; reflexivity.
    + right. left. split; [| split; reflexivity].
      left. exists (PStr "0"), 0. split; [left; split; reflexivity |].
      split; reflexivity.
  - apply (@zero_balance_is_account_info
             Reader.float_of_string Sample.cfg_live Sample.ex_funded []
             [("code", PStr "0"); ("msg", PStr EmptyString); ("data", PList [])]
             [("code", PStr "0"); ("msg", PStr EmptyString);
              ("data", PList [PDict Sample.funded_account])]
             Sample.funded_account [] [] [PDict Sample.funded_detail]
             (Some Sample.funded_detail) 950 990);
      try reflexivity.
    + constructor.
    + left. reflexivity.
    + exists [], []. split; [reflexivity |]. split; [constructor | reflexivity].
    + left. exists Sample.funded_detail, (PStr "950").
      split; [reflexivity |]. split; [left; split; reflexivity |].
      split; [reflexivity | discriminate].
    + left. exists Sample.funded_detail, (PStr "990").
      split; [reflexivity |]. split; [left; split; reflexivity |].
      split; [reflexivity | discriminate].
  - apply (@zero_balance_is_account_info
             Reader.float_of_string Sample.cfg_live Sample.ex_lower_tier []
             [("code", PStr "0"); ("msg", PStr EmptyString); ("data", PList [])]
             [("code", PStr "0"); ("msg", PStr EmptyString);
              ("data", PList [PDict Sample.lower_tier_account])]
             Sample.lower_tier_account [] []
             [PDict [("ccy", PStr "BTC"); ("availBal", PStr "1")];
              PDict Sample.lower_tier_detail]
             (Some Sample.lower_tier_detail) 970 1010);
      try reflexivity.
    + constructor.
    + left. reflexivity.
    + exists [PDict [("ccy", PStr "BTC"); ("availBal", PStr "1")]], [].
      split; [reflexivity |]. split; [| reflexivity].
      constructor; [| constructor].
      eexists. split; reflexivity.
    + left. exists Sample.lower_tier_detail, (PStr "970").
      split; [reflexivity |].
      split; [right; left; split; [| split]; reflexivity |].
      split; [reflexivity | discriminate].
    + right. left. split; [| split; reflexivity].
      left. exists (PStr "0"), 0. split; [left; split; reflexivity |].
      split; reflexivity.
Defined.

Lemma price_history_keeps_last_20_witness :
  let w' := analyze_all Reader.float_of_string Reader.json_loads
                        Sample.cfg_live (Some Sample.ex_long)
                        (Some Sample.client_down)
                        Sample.observations_25 Sample.world0 in
  price_history w' = skipn 5 Sample.observations_25 /\
  List.length (price_history w') = 20%nat /\
  map price (price_history w')
  = map (fun n => inject_Z (Z.of_nat n)) (seq 6 20).
Proof.
  destruct (@price_history_keeps_last_20 Reader.float_of_string
              Reader.json_loads Sample.cfg_live (Some Sample.ex_long)
              Sample.client_down Sample.observations_25 Sample.world0
              eq_refl eq_refl)
    as (Hlast & Hlen & _).
  cbv zeta. split; [exact Hlast |]. split; [exact Hlen |].
  rewrite Hlast. reflexivity.
Defined.

(** The cells of a sample candle, read off a [candle_cells] fact. *)
Ltac read_cells H :=
  let c0 := fresh "c" in let c1 := fresh "c" in let c2 := fresh "c" in
  let c3 := fresh "c" in let c4 := fresh "c" in let c5 := fresh "c" in
  let I0 := fresh "I" in let I4 := fresh "I" in
  let Ht := fresh "Ht" in let Hc := fresh "Hc" in
  destruct H as (c0 & c1 & c2 & c3 & c4 & c5 & I0 & _ & _ & _ & I4 & _
                 & Ht & _ & _ & _ & Hc & _);
  cbn in I0, I4; injection I0 as <-; injection I4 as <-;
  match type of Ht with
  | ?lhs = _ => let v := eval vm_compute in lhs in change lhs with v in Ht
  end;
  injection Ht as Ht;
  match type of Hc with
  | ?lhs = _ => let v := eval vm_compute in lhs in change lhs with v in Hc
  end;
  injection Hc as Hc.

(** C8 does not hold as stated.  The bars are taken in the order of the
    reply, not of time: on a reply that lists the same two candles oldest
    first, the price reported is the older close and the change is
    negative although the close rose from 50100 to 50200.  And with a
    single candle that closed at zero the change reported is no finite
    number, not 0. *)
Lemma change_follows_reply_order_and_needs_a_price :
  (exists obs q,
      get_btc_ohlcv_body Reader.float_of_string Reader.to_timestamp
                         Sample.cfg_live "2025-01-01 00:00:00"
                         Sample.oldest_first_reply
      = Ok obs /\
      price obs = 50100 /\
      price_change obs = Some q /\
      q == (50100 - 50200) / 50200 * 100 /\ q < 0 /\
      ~ q == (50200 - 50100) / 50100 * 100) /\
  (exists obs,
      get_btc_ohlcv_body Reader.float_of_string Reader.to_timestamp
                         Sample.cfg_live "2025-01-01 00:00:00"
                         Sample.zero_candle_reply
      = Ok obs /\
      price obs = 0 /\
      price_change obs = None /\
      price_change obs <> Some 0).
Proof.
  split.
  - eexists. eexists. split; [vm_compute; reflexivity |].
    split; [reflexivity |]. split; [reflexivity |].
    split; [reflexivity |]. split; [reflexivity |].
    intros H. discriminate H.
  - eexists. split; [vm_compute; reflexivity |].
    split; [reflexivity |]. split; [reflexivity | discriminate].
Qed.

Lemma percent_change_over_last_two_bars_witness :
  (get_btc_ohlcv_body Reader.float_of_string Reader.to_timestamp
                      Sample.cfg_live "2025-01-01 00:00:00"
                      Sample.candles_reply
   = Ok Sample.snapshot /\
   price Sample.snapshot = 50200 /\
   price_change Sample.snapshot
   = Some ((50200 - 50100) / 50100 * 100) /\
   chronological (kline_data Sample.snapshot)) /\
  (exists obs q,
      get_btc_ohlcv_body Reader.float_of_string Reader.to_timestamp
                         Sample.cfg_live "2025-01-01 00:15:00"
                         Sample.single_candle_reply
      = Ok obs /\
      price obs = 50200 /\ price_change obs = Some q /\ q == 0).
Proof.
  split.
  - split; [reflexivity |].
    destruct (@percent_change_over_last_two_bars
                Reader.float_of_string Reader.to_timestamp Sample.cfg_live
                "2025-01-01 00:00:00" Sample.candles_reply Sample.snapshot
                eq_refl)
      as (data & first_candle & rest & current & older_rows & Hdata & Hiter
          & Hcells & Hkline & Hprice & Hrest).
    cbv zeta in Hrest. destruct Hrest as (_ & Hchange & _ & _ & Horder).
    vm_compute in Hdata. injection Hdata as <-.
    cbn in Hiter. injection Hiter as <- <-.
    inversion Hcells as [| ? ? ? ? Hnew Htail]; subst.
    inversion Htail as [| ? previous ? ? Hold Hnil]; subst.
    inversion Hnil; subst.
    read_cells Hnew. read_cells Hold.
    cbn [hd] in Hchange, Horder.
    rewrite <- Hc, <- Hc0 in Hchange.
    split; [rewrite Hprice, <- Hc; reflexivity |].
    split; [apply Hchange; intros H; discriminate H |].
    rewrite Hkline. apply Horder.
    constructor; [| constructor; constructor].
    constructor; [| constructor].
    rewrite <- Ht, <- Ht0. reflexivity.
  - destruct (get_btc_ohlcv_body Reader.float_of_string Reader.to_timestamp
                Sample.cfg_live "2025-01-01 00:15:00"
                Sample.single_candle_reply) as [obs|err] eqn:Hobs;
      [| vm_compute in Hobs; discriminate Hobs].
    destruct (percent_change_over_last_two_bars _ _ _ _ _ Hobs)
      as (data & first_candle & rest & current & older_rows & Hdata & Hiter
          & Hcells & _ & Hprice & Hrest).
    cbv zeta in Hrest. destruct Hrest as (_ & _ & _ & Hone & _).
    vm_compute in Hdata. injection Hdata as <-.
    cbn in Hiter. injection Hiter as <- <-.
    inversion Hcells as [| ? ? ? ? Hnew Htail]; subst.
    read_cells Hnew.
    destruct (Hone eq_refl) as (_ & Hzero).
    destruct Hzero as (q & Hq & Hq0).
    { rewrite <- Hc. intros H. discriminate H. }
    exists obs, q. split; [reflexivity |].
    split; [rewrite Hprice, <- Hc; reflexivity |].
    split; [exact Hq | exact Hq0].
Defined.

(** A single candle that closed at zero: the change reported is not a
    finite number. *)
Lemma zero_close_has_no_finite_change :
  exists obs,
    get_btc_ohlcv_body Reader.float_of_string Reader.to_timestamp
                       Sample.cfg_live "2025-01-01 00:15:00"
                       Sample.zero_candle_reply
    = Ok obs /\
    price_change obs = None.
Proof. eexists. split; vm_compute; reflexivity. Qed.

(** Two candles, newest first in the reply: the change is that of the
    newest close against the one before, [(50200 - 50100) / 50100 * 100]. *)
Lemma two_candles_change :
  exists obs q,
    get_btc_ohlcv Reader.float_of_string Reader.to_timestamp Sample.cfg_live
                  (Some Sample.ex_long) "2025-01-01 00:15:00" []
    = Some obs /\
    price_change obs = Some q /\ q == (50200 - 50100) / 50100 * 100.
Proof. eexists. eexists. split; [vm_compute; reflexivity |]. split; reflexivity. Qed.

(** C9 does not hold as stated: on an account in debit the running
    maximum is negative and the drawdown is 0, not
    [(balance - running_max) / running_max]. *)
Lemma debit_drawdown_is_zero :
  let balances := map ep_balance Sample.equity_in_debit in
  let trace := drawdown_trace (drawdown_init (Sample.point (-100))) balances in
  balances = [-100; -150] /\
  map max_balance_seen trace = [-100; -100] /\
  map drawdown trace = [0; 0] /\
  ~ 0 == (-150 - -100) / -100 /\
  ~ 0 == (-150 - -100) / -100 * 100.
Proof.
  cbv zeta. split; [reflexivity |]. split; [reflexivity |].
  split; [reflexivity |]. split; intros H; discriminate H.
Qed.

Lemma drawdown_against_running_max_witness :
  exists final,
    equity_drawdown Sample.equity_example 130 = Some final /\
    max_balance_seen final = 130 /\
    max_drawdown final == -25 /\
    max_drawdown final <= drawdown final.
Proof.
  destruct (drawdown_against_running_max (Sample.point 100)
              [Sample.point 120; Sample.point 90; Sample.point 130] 130)
    as (final & Hfinal & _ & _ & _ & _ & _ & _ & Hle & _).
  exists final. split; [exact Hfinal |].
  vm_compute in Hfinal. injection Hfinal as <-.
  split; [reflexivity |]. split; [reflexivity | exact Hle].
Defined.

Lemma price_recorded_before_inference_witness :
  let out := analyze_with_deepseek Reader.float_of_string Reader.json_loads
               Sample.cfg_live (Some Sample.ex_long)
               (Some Sample.client_down) (Sample.observation 50200)
               Sample.world0 in
  fst out = Ok None /\
  price_history (snd out) = [Sample.observation 50200] /\
  signal_history (snd out) = [].
Proof.
  destruct (@price_recorded_before_inference Reader.float_of_string
              Reader.json_loads Sample.cfg_live (Some Sample.ex_long)
              Sample.client_down (Sample.observation 50200) Sample.world0)
    as (Hprice & _ & _ & Hfail & _).
  cbv zeta. split; [reflexivity |]. split; [exact Hprice |].
  apply Hfail. left. reflexivity.
Defined.

(** The same when the account holds no position: building the prompt
    raises on ['side'], after the observation was recorded. *)
Lemma flat_account_analysis_raises :
  let out := analyze_with_deepseek Reader.float_of_string Reader.json_loads
               Sample.cfg_live (Some Sample.ex_flat)
               (Some (Sample.client_saying Sample.reply_complete))
               (Sample.observation 50200) Sample.world0 in
  fst out = Raise (KeyError "side") /\
  price_history (snd out) = [Sample.observation 50200] /\
  signal_history (snd out) = [].
Proof. cbv zeta. repeat split. Qed.

(** Balance fields that are present and blank do not read zero: the [or]
    chain hands the blank to [float], and the call fails as a whole. *)
Lemma blank_balance_fields_fail :
  get_current_position Reader.float_of_string Sample.cfg_live
                       (Some Sample.ex_blank) []
  = None /\
  detail_free_balance Reader.float_of_string
    (PDict [("ccy", PStr "USDT"); ("availBal", PStr EmptyString);
            ("availEq", PStr EmptyString); ("eq", PStr EmptyString)])
  = Raise ValueError.
Proof. split; reflexivity. Qed.

(** The tiers at work: a blank [availBal] gives way to [availEq]. *)
Lemma blank_availBal_falls_to_availEq :
  detail_free_balance Reader.float_of_string
    (PDict [("ccy", PStr "USDT"); ("availBal", PStr EmptyString);
            ("availEq", PStr "12.5"); ("eq", PStr "20")])
  = Ok 12.5.
Proof. reflexivity. Qed.

(** The counting loop on a history of one gain, one loss and one
    position still open. *)
Lemma positions_history_counts :
  count_positions Reader.float_of_string (0, 0, 0)%Z Sample.positions_history
  = (2, 1, 1)%Z.
Proof. reflexivity. Qed.

(** Without a stats file, [load_trade_stats] answers zero counters and
    leaves the file written when it can be. *)
Lemma load_trade_stats_creates_file (readable : bool) (now : string)
      (w : world) :
  trade_stats_file w = None ->
  exists stats,
    load_trade_stats readable true now w
    = (Ok stats, with_trade_stats_file w (Some stats)) /\
    total_trades stats = 0%Z /\ winning_trades stats = 0%Z /\
    losing_trades stats = 0%Z.
Proof.
  intros Hnone. unfold load_trade_stats, read, save_trade_stats, write.
  cbn [bind prog_monad ret]. rewrite Hnone.
  eexists. split; [reflexivity |]. cbn. auto.
Qed.

(** A stats file that cannot be read is answered with zero counters and
    left as it is. *)
Lemma unreadable_stats_file_is_left_alone :
  load_trade_stats false true "2025-02-01T00:00:00" Sample.world0
  = (Ok default_stats, Sample.world0).
Proof. reflexivity. Qed.

(** The reply of the extraction example parses, prose around it ignored. *)
Lemma prose_around_json_is_ignored :
  exists span d,
    json_span Sample.reply_complete = Some span /\
    String.get 0 span = Some "{"%char /\
    String.get (String.length span - 1) span = Some "}"%char /\
    Reader.json_loads span = Some (PDict d) /\
    Py.lookup "signal" d = Some (PStr "BUY") /\
    Py.lookup "confidence" d = Some (PStr "HIGH").
Proof.
  eexists. eexists. split; [vm_compute; reflexivity |].
  split; [reflexivity |]. split; [reflexivity |].
  split; [vm_compute; reflexivity |]. split; reflexivity.
Qed.

(** *** The further properties at sample inputs *)

Lemma short_buy_closes_once_witness :
  exists order : order_params,
    execute_trade Reader.float_of_string Sample.cfg_live (Some Sample.ex_short)
                  (Sample.signal "BUY" "HIGH") Sample.world0
    = (Ok tt, with_submitted Sample.world0 [order]) /\
    side order = Buy /\ reduceOnly order = true /\ sz order = 2.
Proof.
  destruct (@short_buy_closes_once Reader.float_of_string Sample.cfg_live
              Sample.ex_short (Sample.signal "BUY" "HIGH")
              (PStr "HIGH") (PStr "x") Sample.short_state Sample.world0
              eq_refl eq_refl eq_refl eq_refl eq_refl eq_refl)
    as (order & Hrun & Hside & _ & Hro & Hsz & _).
  exists order. rewrite Hsz. repeat split; assumption.
Defined.

Lemma execute_trade_idle_witness :
  snd (execute_trade Reader.float_of_string Sample.cfg_live
                     (Some Sample.ex_long) (Sample.signal "HOLD" "LOW")
                     Sample.world0)
  = Sample.world0 /\
  snd (execute_trade Reader.float_of_string Sample.cfg_test
                     (Some Sample.ex_long) (Sample.signal "BUY" "HIGH")
                     Sample.world0)
  = Sample.world0.
Proof.
  split.
  - apply execute_trade_idle. right. right. exists (PStr "HOLD").
    split; [reflexivity |]. split; reflexivity.
  - apply execute_trade_idle. right. left. reflexivity.
Defined.

Lemma unreadable_position_opens_witness :
  get_current_position Reader.float_of_string Sample.cfg_live
                       (Some Sample.ex_unreachable) []
  = None /\
  execute_trade Reader.float_of_string Sample.cfg_live
                (Some Sample.ex_unreachable) (Sample.signal "SELL" "HIGH")
                Sample.world0
  = (Ok tt,
     with_submitted Sample.world0 [market_order_params Sell 0.01 false]).
Proof.
  split; [reflexivity |].
  apply (@unreadable_position_opens Reader.float_of_string Sample.cfg_live
           Sample.ex_unreachable (Sample.signal "SELL" "HIGH")
           (PStr "HIGH") (PStr "x") Sell Sample.world0);
    reflexivity.
Defined.

Lemma oracle_answer_needs_both_replies_witness :
  exists response balance_response,
    private_get_account_positions Sample.ex_flat [] = Ok response /\
    private_get_account_balance Sample.ex_flat [] = Ok balance_response /\
    resolve_balances Reader.float_of_string balance_response = Ok (1000, 1000).
Proof.
  destruct (@oracle_answer_needs_both_replies Reader.float_of_string
              Sample.cfg_live (Some Sample.ex_flat) []
              (AccountInfoOnly 1000 1000) eq_refl)
    as (e & response & data & positions & balance & He & Hr & _ & _ & Hb
        & Hres & _).
  injection He as <-. exists response, balance.
  split; [exact Hr |]. split; [exact Hb | exact Hres].
Defined.

Lemma account_only_iff_flat_witness :
  get_current_position Reader.float_of_string Sample.cfg_live
                       (Some Sample.ex_flat) []
  = Some (AccountInfoOnly 1000 1000).
Proof.
  apply (proj2 (@account_only_iff_flat Reader.float_of_string Sample.cfg_live
                  Sample.ex_flat [] (Sample.reply []) (PList [])
                  (Sample.balance_reply "1000" "1000") [] 1000 1000
                  eq_refl eq_refl eq_refl eq_refl eq_refl)).
  constructor.
Defined.

Lemma first_open_position_wins_witness :
  get_current_position Reader.float_of_string Sample.cfg_live
                       (Some Sample.ex_short) []
  = Some (OpenPosition Sample.short_state).
Proof.
  apply (@first_open_position_wins Reader.float_of_string Sample.cfg_live
           Sample.ex_short []
           (Sample.reply [Sample.other_position; Sample.short_position;
                          PStr "garbage"])
           (PList [Sample.other_position; Sample.short_position;
                   PStr "garbage"])
           (Sample.balance_reply "950" "1000")
           [Sample.other_position] [PStr "garbage"] Sample.short_fields
           (-2) 950 1000 Sample.short_state);
    try reflexivity.
  - constructor; [| constructor].
    eexists. split; [reflexivity |]. left. reflexivity.
  - intros H. discriminate H.
Defined.

Lemma open_position_defaults_witness :
  mark_price Sample.short_state = entry_price Sample.short_state /\
  pos_leverage Sample.short_state = leverage Sample.cfg_live /\
  maint_margin_ratio Sample.short_state = 0.
Proof.
  destruct (@open_position_defaults Reader.float_of_string Sample.cfg_live
              Sample.short_fields (-2) 950 1000 Sample.short_state eq_refl)
    as (_ & Hmark & Hlever & Hratio & _).
  split; [apply Hmark; reflexivity |].
  split; [apply Hlever; reflexivity | apply Hratio; reflexivity].
Defined.

Lemma account_only_position_breaks_analysis_witness :
  fst (analyze_with_deepseek Reader.float_of_string Reader.json_loads
                             Sample.cfg_live (Some Sample.ex_flat)
                             (Some (Sample.client_saying Sample.reply_complete))
                             (Sample.observation 100) Sample.world0)
  = Raise (KeyError "side").
Proof.
  destruct (@account_only_position_breaks_analysis
              Reader.float_of_string Reader.json_loads Sample.cfg_live
              (Some Sample.ex_flat)
              (Sample.client_saying Sample.reply_complete)
              (Sample.observation 100) Sample.world0 1000 1000 eq_refl)
    as (_ & _ & Hkey).
  eapply Hkey; reflexivity.
Defined.

Lemma returned_signal_is_stamped_witness :
  fst (analyze_with_deepseek Reader.float_of_string Reader.json_loads
                             Sample.cfg_live (Some Sample.ex_long)
                             (Some (Sample.client_saying Sample.reply_complete))
                             (Sample.observation 100) Sample.world0)
  = Ok (Some Sample.stamped_signal) /\
  exists d,
    Sample.stamped_signal = PDict d /\
    Py.lookup "timestamp" d = Some (PStr "2025-01-01 00:00:00") /\
    Py.truthy Sample.stamped_signal = true.
Proof.
  split; [reflexivity |].
  destruct (@returned_signal_is_stamped
              Reader.float_of_string Reader.json_loads Sample.cfg_live
              (Some Sample.ex_long)
              (Some (Sample.client_saying Sample.reply_complete))
              (Sample.observation 100) Sample.world0 Sample.stamped_signal
              eq_refl)
    as (json_str & parsed & d & _ & Hd & Hstamp & _ & Htruthy & _).
  exists d. split; [exact Hd |]. split; [exact Hstamp | exact Htruthy].
Defined.

Lemma snapshot_reads_newest_candle_witness :
  exists row,
    candle_row Reader.float_of_string Reader.to_timestamp
               (Sample.candle "1700000900000" "50100" "50300" "50050"
                              "50200" "12.5")
    = Ok row /\
    price Sample.snapshot = k_close row /\
    high Sample.snapshot = k_high row /\
    low Sample.snapshot = k_low row /\
    volume Sample.snapshot = k_volume row /\
    timestamp Sample.snapshot = "2025-01-01 00:00:00" /\
    pd_timeframe Sample.snapshot = timeframe Sample.cfg_live.
Proof.
  exact (@snapshot_reads_newest_candle
           Reader.float_of_string Reader.to_timestamp Sample.cfg_live
           "2025-01-01 00:00:00" Sample.candles_reply
           (PList [Sample.candle "1700000900000" "50100" "50300" "50050"
                                 "50200" "12.5";
                   Sample.candle "1700000000000" "50000" "50150" "49900"
                                 "50100" "10"])
           (Sample.candle "1700000900000" "50100" "50300" "50050"
                          "50200" "12.5")
           [Sample.candle "1700000000000" "50000" "50150" "49900"
                          "50100" "10"]
           Sample.snapshot eq_refl eq_refl eq_refl).
Defined.

Lemma kline_data_is_five_newest_witness :
  candle_rows Reader.float_of_string Reader.to_timestamp
              [Sample.candle "1700000000000" "50000" "50150" "49900"
                             "50100" "10";
               Sample.candle "1700000900000" "50100" "50300" "50050"
                             "50200" "12.5"]
  = Ok (kline_data Sample.snapshot) /\
  List.length (kline_data Sample.snapshot) = 2%nat.
Proof.
  exact (@kline_data_is_five_newest
           Reader.float_of_string Reader.to_timestamp Sample.cfg_live
           "2025-01-01 00:00:00" Sample.candles_reply
           (PList [Sample.candle "1700000900000" "50100" "50300" "50050"
                                 "50200" "12.5";
                   Sample.candle "1700000000000" "50000" "50150" "49900"
                                 "50100" "10"])
           [Sample.candle "1700000900000" "50100" "50300" "50050"
                          "50200" "12.5";
            Sample.candle "1700000000000" "50000" "50150" "49900"
                          "50100" "10"]
           Sample.snapshot eq_refl eq_refl eq_refl).
Defined.

Lemma drawdown_is_a_loss_percentage_witness :
  exists st,
    equity_drawdown Sample.equity_example 100 = Some st /\
    drawdown st <= 0 /\ -100 <= max_drawdown st.
Proof.
  eexists. split; [reflexivity |].
  destruct (@drawdown_is_a_loss_percentage Sample.equity_example 100 _ eq_refl)
    as (Hle & _ & Hfloor).
  split; [exact Hle |].
  apply Hfloor.
  - repeat constructor; discriminate.
  - discriminate.
Defined.

Lemma counters_are_consistent_witness :
  count_positions Reader.float_of_string (0, 0, 0)%Z Sample.positions_history
  = (2, 1, 1)%Z /\
  (1 + 1 <= 2)%Z /\
  (2 <= Z.of_nat (List.length Sample.positions_history))%Z.
Proof.
  split; [reflexivity |].
  destruct (@counters_are_consistent Reader.float_of_string
              Sample.positions_history 2 1 1 eq_refl)
    as (_ & _ & Hparts & Htotal).
  split; [exact Hparts | exact Htotal].
Defined.

Lemma flat_account_cycle_never_trades_witness :
  exists err,
    trading_cycle Reader.float_of_string Reader.json_loads Reader.to_timestamp
                  Sample.cfg_live (Some Sample.ex_flat)
                  (Some (Sample.client_saying Sample.reply_complete))
                  "2025-01-01 00:00:00" Sample.world0
    = (Ok (CycleError err),
       with_price_history Sample.world0 [Sample.snapshot]).
Proof.
  exact (@flat_account_cycle_never_trades
           Reader.float_of_string Reader.json_loads Reader.to_timestamp
           Sample.cfg_live (Some Sample.ex_flat)
           (Sample.client_saying Sample.reply_complete)
           "2025-01-01 00:00:00" Sample.snapshot 1000 1000 Sample.world0
           eq_refl eq_refl).
Defined.

End AtSamples.

(** ** Properties of the request throttle *)

Section Throttle.

Open Scope string_scope.
Open Scope list_scope.

Import RateLimit.

Lemma rate_lookup_set_same (t : table) (ip : string) (e : entry) :
  lookup ip (set_item t ip e) = Some e.
Proof.
  induction t as [| [ip' e'] rest IH]; cbn [set_item lookup].
  - rewrite String.eqb_refl. reflexivity.
  - destruct (String.eqb ip ip') eqn:E; cbn [lookup]; rewrite E;
      [reflexivity | exact IH].
Qed.

Lemma rate_lookup_set_other (t : table) (ip other : string) (e : entry) :
  other <> ip -> lookup other (set_item t ip e) = lookup other t.
Proof.
  intros Hne. induction t as [| [ip' e'] rest IH]; cbn [set_item lookup].
  - destruct (String.eqb_spec other ip) as [Heq | _];
      [contradiction | reflexivity].
  - destruct (String.eqb_spec ip ip') as [<- | Hk]; cbn [lookup].
    + destruct (String.eqb_spec other ip) as [Heq | _];
        [contradiction | reflexivity].
    + rewrite IH. reflexivity.
Qed.

(** Inside the window the count climbs to the limit and stays there; the
    start of the window does not move. *)
Lemma burst_from_entry (ip : string) (t0 : Q) (times : list Q) :
  forall (t : table) (c : Z),
    lookup ip t = Some {| count := c; last_request := t0 |} ->
    (1 <= c <= 60)%Z ->
    Forall (fun now => now - t0 < 60) times ->
    fst (serve (burst ip times) t)
    = repeat Served (Nat.min (List.length times) (Z.to_nat (60 - c)))
      ++ repeat RateLimitExceeded (List.length times - Z.to_nat (60 - c)) /\
    lookup ip (snd (serve (burst ip times) t))
    = Some {| count := Z.min 60 (c + Z.of_nat (List.length times));
              last_request := t0 |}.
Proof.
  induction times as [| now rest IH]; intros t c Hentry Hc Hall.
  - cbn [burst map serve fst snd List.length Nat.min repeat app Nat.sub].
    split; [reflexivity |].
    rewrite Hentry. f_equal. f_equal. cbn [Z.of_nat]. lia.
  - inversion Hall as [| ? ? Hnow Hrest]; subst.
    cbn [burst map serve]. unfold decorated_function.
    rewrite Hentry. cbn [count last_request].
    assert (Hin : Qlt_bool (now - t0) 60 = true)
      by (apply Qlt_bool_iff; exact Hnow).
    rewrite Hin. unfold MAX_REQUESTS_PER_MINUTE.
    destruct (Z.leb_spec 60 c) as [Hfull | Hroom].
    + assert (c = 60%Z) by lia. subst c.
      destruct (IH t 60%Z Hentry Hc Hrest) as (Hv & Ht).
      fold (burst ip rest).
      destruct (serve (burst ip rest) t) as [vs t2]. cbn [fst snd] in *.
      split.
      * rewrite Hv. cbn [List.length].
        change (Z.to_nat (60 - 60)) with O.
        rewrite !Nat.min_0_r, !Nat.sub_0_r. reflexivity.
      * rewrite Ht. f_equal. f_equal. cbn [List.length]. lia.
    + set (t1 := set_item t ip {| count := c + 1; last_request := t0 |}).
      assert (Hentry1 : lookup ip t1
                        = Some {| count := c + 1; last_request := t0 |})
        by apply rate_lookup_set_same.
      destruct (IH t1 (c + 1)%Z Hentry1 ltac:(lia) Hrest) as (Hv & Ht).
      fold (burst ip rest).
      destruct (serve (burst ip rest) t1) as [vs t2]. cbn [fst snd] in *.
      split.
      * rewrite Hv. cbn [List.length].
        replace (Z.to_nat (60 - c)) with (S (Z.to_nat (60 - (c + 1)))) by lia.
        reflexivity.
      * rewrite Ht. f_equal. f_equal. cbn [List.length]. lia.
Qed.

Lemma first_request_entry (ip : string) (t0 : Q) (t : table) :
  lookup ip t = None ->
  decorated_function ip t0 t
  = (Served, set_item t ip {| count := 1; last_request := t0 |}).
Proof. intros H. unfold decorated_function. rewrite H. reflexivity. Qed.

(** X21: A client not seen before is served its first 60 requests of the
    minute that starts with the first of them, and none of the others:
    the answers to a burst are 60 acceptances at most, followed by
    rejections only. *)
Theorem burst_is_cut_at_sixty
        (ip : string) (t0 : Q) (times : list Q) (t : table) :
  lookup ip t = None ->
  Forall (fun now => now - t0 < 60) times ->
  fst (serve (burst ip (t0 :: times)) t)
  = repeat Served (Nat.min (S (List.length times)) 60)
    ++ repeat RateLimitExceeded (S (List.length times) - 60).
Proof.
  intros Hnew Hall. cbn [burst map serve].
  rewrite (first_request_entry ip t0 t Hnew).
  set (t1 := set_item t ip {| count := 1; last_request := t0 |}).
  assert (Hentry : lookup ip t1 = Some {| count := 1; last_request := t0 |})
    by apply rate_lookup_set_same.
  destruct (@burst_from_entry ip t0 times t1 1%Z Hentry ltac:(lia) Hall)
    as (Hv & _).
  fold (burst ip times).
  destruct (serve (burst ip times) t1) as [vs t2]. cbn [fst snd] in *.
  rewrite Hv. change (Z.to_nat (60 - 1)) with 59%nat.
  destruct (Nat.le_gt_cases (List.length times) 59) as [Hle | Hgt].
  - replace (Nat.min (List.length times) 59) with (List.length times) by lia.
    replace (List.length times - 59)%nat with O by lia.
    replace (Nat.min (S (List.length times)) 60) with (S (List.length times))
      by lia.
    replace (S (List.length times) - 60)%nat with O by lia.
    reflexivity.
  - replace (Nat.min (List.length times) 59) with 59%nat by lia.
    replace (Nat.min (S (List.length times)) 60) with 60%nat by lia.
    replace (S (List.length times) - 60)%nat with (List.length times - 59)%nat
      by lia.
    reflexivity.
Qed.

(** X22: The window is fixed by its first request: however many requests
    were made or rejected inside it, the first one that comes 60 seconds
    or more after that start is served and opens a new window with a
    count of 1. *)
Theorem rejections_do_not_extend_the_window
        (ip : string) (t0 later : Q) (times : list Q) (t : table) :
  lookup ip t = None ->
  Forall (fun now => now - t0 < 60) times ->
  60 <= later - t0 ->
  let t' := snd (serve (burst ip (t0 :: times)) t) in
  fst (decorated_function ip later t') = Served /\
  lookup ip (snd (decorated_function ip later t'))
  = Some {| count := 1; last_request := later |}.
Proof.
  intros Hnew Hall Hlater. cbv zeta. cbn [burst map serve].
  rewrite (first_request_entry ip t0 t Hnew).
  set (t1 := set_item t ip {| count := 1; last_request := t0 |}).
  assert (Hentry : lookup ip t1 = Some {| count := 1; last_request := t0 |})
    by apply rate_lookup_set_same.
  destruct (@burst_from_entry ip t0 times t1 1%Z Hentry ltac:(lia) Hall)
    as (_ & Ht).
  fold (burst ip times).
  destruct (serve (burst ip times) t1) as [vs t2]. cbn [fst snd] in *.
  unfold decorated_function. rewrite Ht. cbn [last_request].
  assert (Hout : Qlt_bool (later - t0) 60 = false).
  { destruct (Qlt_bool (later - t0) 60) eqn:E; [| reflexivity].
    apply Qlt_bool_iff in E. exfalso. apply (Qlt_not_le _ _ E Hlater). }
  rewrite Hout. cbn [fst snd].
  split; [reflexivity | apply rate_lookup_set_same].
Qed.

(** X23: Clients are throttled apart: a request changes no other client's
    entry, its verdict depends on its own client's entry alone, and a
    rejected request changes nothing at all. *)
Theorem clients_do_not_interfere
        (ip : string) (now : Q) (t : table) :
  (forall other, other <> ip ->
                 lookup other (snd (decorated_function ip now t))
                 = lookup other t) /\
  (forall t', lookup ip t' = lookup ip t ->
              fst (decorated_function ip now t')
              = fst (decorated_function ip now t)) /\
  (fst (decorated_function ip now t) = RateLimitExceeded ->
   snd (decorated_function ip now t) = t).
Proof.
  split; [| split].
  - intros other Hne. unfold decorated_function.
    destruct (lookup ip t) as [e|].
    + destruct (Qlt_bool (now - last_request e) 60).
      * destruct (MAX_REQUESTS_PER_MINUTE <=? count e)%Z; cbn [snd];
          [reflexivity | apply rate_lookup_set_other; exact Hne].
      * cbn [snd]. apply rate_lookup_set_other. exact Hne.
    + cbn [snd]. apply rate_lookup_set_other. exact Hne.
  - intros t' H. unfold decorated_function. rewrite H.
    destruct (lookup ip t) as [e|]; [| reflexivity].
    destruct (Qlt_bool (now - last_request e) 60); [| reflexivity].
    destruct (MAX_REQUESTS_PER_MINUTE <=? count e)%Z; reflexivity.
  - unfold decorated_function.
    destruct (lookup ip t) as [e|]; [| discriminate].
    destruct (Qlt_bool (now - last_request e) 60); [| discriminate].
    destruct (MAX_REQUESTS_PER_MINUTE <=? count e)%Z;
      [reflexivity | discriminate].
Qed.

Lemma decorated_function_counts (ip : string) (now : Q) (t : table) :
  counts_in_range t -> counts_in_range (snd (decorated_function ip now t)).
Proof.
  unfold counts_in_range, MAX_REQUESTS_PER_MINUTE.
  intros Hinv ip' e'. unfold decorated_function.
  destruct (lookup ip t) as [e|] eqn:Hentry.
  - destruct (Qlt_bool (now - last_request e) 60).
    + unfold MAX_REQUESTS_PER_MINUTE.
      destruct (Z.leb_spec 60 (count e)) as [Hfull | Hroom]; cbn [snd].
      * apply Hinv.
      * destruct (String.eqb_spec ip' ip) as [-> | Hne].
        -- rewrite rate_lookup_set_same. intros H. injection H as <-.
           cbn [count]. pose proof (Hinv ip e Hentry). lia.
        -- rewrite rate_lookup_set_other by exact Hne. apply Hinv.
    + cbn [snd]. destruct (String.eqb_spec ip' ip) as [-> | Hne].
      * rewrite rate_lookup_set_same. intros H. injection H as <-.
        cbn [count]. lia.
      * rewrite rate_lookup_set_other by exact Hne. apply Hinv.
  - cbn [snd]. destruct (String.eqb_spec ip' ip) as [-> | Hne].
    + rewrite rate_lookup_set_same. intros H. injection H as <-.
      cbn [count]. lia.
    + rewrite rate_lookup_set_other by exact Hne. apply Hinv.
Qed.

(** X24: Every count of the table lies between 1 and the limit, and stays
    there through any sequence of requests of any clients at any times. *)
Theorem counts_stay_within_limit
        (requests : list (string * Q)) (t : table) :
  (forall ip e, lookup ip t = Some e -> (1 <= count e <= 60)%Z) ->
  forall ip e,
    lookup ip (snd (serve requests t)) = Some e -> (1 <= count e <= 60)%Z.
Proof.
  revert t. induction requests as [| [ip0 now] rest IH]; intros t Hinv.
  - exact Hinv.
  - cbn [serve].
    pose proof (decorated_function_counts ip0 now Hinv) as Hstep.
    destruct (decorated_function ip0 now t) as [v t1]. cbn [snd] in Hstep.
    specialize (IH t1 Hstep).
    destruct (serve rest t1) as [vs t2]. cbn [snd] in *. exact IH.
Qed.

Lemma burst_is_cut_at_sixty_witness :
  fst (serve (burst WebSample.client (0 :: repeat 1 70)) [])
  = repeat Served 60 ++ repeat RateLimitExceeded 11.
Proof.
  apply (@burst_is_cut_at_sixty WebSample.client 0 (repeat 1 70) [] eq_refl).
  apply Forall_forall. intros now Hin.
  apply repeat_spec in Hin. subst now. reflexivity.
Defined.

Lemma rejections_do_not_extend_the_window_witness :
  fst (decorated_function
         WebSample.client 60
         (snd (serve (burst WebSample.client (0 :: repeat 1 70)) [])))
  = Served /\
  lookup WebSample.client
         (snd (decorated_function
                 WebSample.client 60
                 (snd (serve (burst WebSample.client (0 :: repeat 1 70)) []))))
  = Some {| count := 1; last_request := 60 |}.
Proof.
  apply (@rejections_do_not_extend_the_window
           WebSample.client 0 60 (repeat 1 70) [] eq_refl).
  - apply Forall_forall. intros now Hin.
    apply repeat_spec in Hin. subst now. reflexivity.
  - discriminate.
Defined.

Lemma counts_stay_within_limit_witness :
  lookup WebSample.client
         (snd (serve (burst WebSample.client [0; 1; 61; 62]) []))
  = Some {| count := 2; last_request := 61 |} /\
  (1 <= 2 <= 60)%Z.
Proof.
  assert (Hempty : forall ip e,
             lookup ip [] = Some e -> (1 <= count e <= 60)%Z)
    by (intros ip e H; discriminate H).
  split; [reflexivity |].
  apply (@counts_stay_within_limit
           (burst WebSample.client [0; 1; 61; 62]) [] Hempty WebSample.client
           {| count := 2; last_request := 61 |}).
  reflexivity.
Defined.

End Throttle.

(** ** Properties of the configuration file and of [update_config] *)

Section Configuration.

Open Scope string_scope.
Open Scope list_scope.

Import Web.

Lemma lookup_set_same (d : list (string * jval)) (k : string) (v : jval) :
  lookup k (set_item d k v) = Some v.
Proof.
  induction d as [| [k' v'] rest IH]; cbn [set_item lookup].
  - rewrite String.eqb_refl. reflexivity.
  - destruct (String.eqb k k') eqn:E; cbn [lookup]; rewrite E;
      [reflexivity | exact IH].
Qed.

Lemma lookup_set_other (d : list (string * jval)) (k k' : string) (v : jval) :
  k' <> k -> lookup k' (set_item d k v) = lookup k' d.
Proof.
  intros Hne. induction d as [| [k0 v0] rest IH]; cbn [set_item lookup].
  - apply String.eqb_neq in Hne. rewrite Hne. reflexivity.
  - destruct (String.eqb_spec k k0) as [-> | Hk]; cbn [lookup].
    + apply String.eqb_neq in Hne. rewrite Hne. reflexivity.
    + rewrite IH. reflexivity.
Qed.

Lemma lookup_assign_keys (data : list (string * jval)) (keys : list string) :
  forall (target : list (string * jval)) (k : string),
    lookup k (assign_keys keys target data)
    = if existsb (String.eqb k) keys
      then match lookup k data with
           | Some v => Some v
           | None => lookup k target
           end
      else lookup k target.
Proof.
  induction keys as [| k0 rest IH]; intros target k;
    cbn [assign_keys existsb]; [reflexivity |].
  rewrite IH.
  destruct (String.eqb_spec k k0) as [-> | Hne]; cbn [orb].
  - destruct (lookup k0 data) as [v|] eqn:Hk.
    + rewrite lookup_set_same. destruct (existsb _ rest); reflexivity.
    + destruct (existsb _ rest); reflexivity.
  - destruct (lookup k0 data) as [v|];
      [rewrite lookup_set_other by exact Hne |]; reflexivity.
Qed.

Lemma lookup_in_keys (d : list (string * jval)) (k : string) (v : jval) :
  lookup k d = Some v -> existsb (String.eqb k) (map fst d) = true.
Proof.
  induction d as [| [k' v'] rest IH]; cbn [lookup map fst existsb];
    [discriminate |].
  destruct (String.eqb k k'); [reflexivity |]. exact IH.
Qed.

(** After [target.update(data)] every item of [data] reads from
    [target], and the other keys read as before. *)
Lemma update_lookup (target data : list (string * jval)) (k : string) :
  lookup k (update target data)
  = match lookup k data with
    | Some v => Some v
    | None => lookup k target
    end.
Proof.
  unfold update. rewrite lookup_assign_keys.
  destruct (lookup k data) as [v|] eqn:Hk.
  - rewrite (lookup_in_keys _ _ Hk). reflexivity.
  - destruct (existsb _ _); reflexivity.
Qed.

Lemma copy_key_dict (data b : list (string * jval)) (k : string) :
  copy_key data k (JDict b) = Ok (JDict (assign_keys [k] b data)).
Proof.
  unfold copy_key. cbn [assign_keys]. destruct (lookup k data); reflexivity.
Qed.

Lemma copy_keys_dict (data b : list (string * jval)) :
  (c1 <- copy_key data "test_mode" (JDict b) ;;
   c2 <- copy_key data "leverage" c1 ;;
   c3 <- copy_key data "timeframe" c2 ;;
   copy_key data "base_usdt_amount" c3)
  = Ok (JDict (assign_keys persisted_keys b data)).
Proof.
  rewrite copy_key_dict. cbn [bind result_monad].
  rewrite copy_key_dict. cbn [bind result_monad].
  rewrite copy_key_dict. cbn [bind result_monad].
  rewrite copy_key_dict. reflexivity.
Qed.

(** Copying into anything but a dict either copies nothing or raises. *)
Lemma copy_keys_other (data : list (string * jval)) (c c' : jval) :
  (c1 <- copy_key data "test_mode" c ;;
   c2 <- copy_key data "leverage" c1 ;;
   c3 <- copy_key data "timeframe" c2 ;;
   copy_key data "base_usdt_amount" c3) = Ok c' ->
  (exists b, c = JDict b /\ c' = JDict (assign_keys persisted_keys b data)) \/
  ((forall b, c <> JDict b) /\ c' = c).
Proof.
  destruct c as [| b0 | q | | n | s0 | l | b].
  8: { rewrite copy_keys_dict. intros H. injection H as <-.
       left. exists b. split; reflexivity. }
  all: unfold copy_key; intros H; right; (split; [discriminate |]).
  all: destruct (lookup "test_mode" data);
    cbn [bind result_monad] in H; [discriminate H |].
  all: destruct (lookup "leverage" data);
    cbn [bind result_monad] in H; [discriminate H |].
  all: destruct (lookup "timeframe" data);
    cbn [bind result_monad] in H; [discriminate H |].
  all: destruct (lookup "base_usdt_amount" data); [discriminate H |].
  all: injection H as <-; reflexivity.
Qed.

Lemma load_bot_config_writable (now : string) (s : state) :
  writable (snd (load_bot_config now s)) = writable s /\
  trading_config (snd (load_bot_config now s)) = trading_config s.
Proof.
  unfold load_bot_config, save_bot_config.
  destruct (bot_config_file s); [| split; reflexivity | split; reflexivity].
  destruct (writable s) eqn:Hw; cbn; auto.
Qed.

(** What passes the range check of a key is absent, or an operand on
    which both comparisons are False. *)
Lemma out_of_range_false (d : list (string * jval)) (k : string)
      (too_low : operand -> bool) (hi : Q) (v : jval) :
  out_of_range d k too_low hi = Ok false ->
  lookup k d = Some v ->
  exists x, number v = Ok x /\ too_low x = false /\ above x hi = false.
Proof.
  unfold out_of_range. intros H Hk. rewrite Hk in H.
  cbn [bind result_monad] in H.
  destruct (number v) as [x|]; [| discriminate H].
  cbn [bind result_monad] in H. injection H as H.
  apply orb_false_iff in H as (Hlow & Hhi).
  exists x. split; [reflexivity |]. split; [exact Hlow | exact Hhi].
Qed.

(** Neither [x <= lo] nor [x > hi]: NaN, or a number above [lo] and at
    most [hi]. *)
Lemma between_strict (x : operand) (lo hi : Q) :
  at_most x lo = false -> above x hi = false ->
  x = NotANumber \/ exists q, x = Finite q /\ lo < q /\ q <= hi.
Proof.
  destruct x as [q | | negative]; cbn [at_most above]; intros Hlo Hhi.
  - right. exists q. split; [reflexivity |]. split.
    + apply Qnot_le_lt. intros Hle. apply Qle_bool_iff in Hle. congruence.
    + apply Qlt_bool_false. exact Hhi.
  - left. reflexivity.
  - subst negative. discriminate Hhi.
Qed.

(** Neither [x < lo] nor [x > hi]: NaN, or a number from [lo] to [hi]. *)
Lemma between (x : operand) (lo hi : Q) :
  below x lo = false -> above x hi = false ->
  x = NotANumber \/ exists q, x = Finite q /\ lo <= q /\ q <= hi.
Proof.
  destruct x as [q | | negative]; cbn [below above]; intros Hlo Hhi.
  - right. exists q. split; [reflexivity |]. split.
    + apply Qlt_bool_false. exact Hlo.
    + apply Qlt_bool_false. exact Hhi.
  - left. reflexivity.
  - subst negative. discriminate Hhi.
Qed.

(** The ways [update_config] ends: a rejection that leaves everything as
    it was; an exception; or, for a dict of valid keys within the ranges,
    the update of [trading_config] followed by the load, the copies and
    the save. *)
Lemma update_config_cases (now : string) (data : jval) (s : state) :
  let out := update_config now data s in
  (status (fst out) = 400%Z /\ snd out = s /\ config (fst out) = None /\
   msg (fst out) <> SaveFailed) \/
  (fst out = failure UpdateFailed) \/
  (exists d bot_config bot_config',
      data = JDict d /\
      find (fun key => negb (is_valid_key key)) (map (fun kv => JStr (fst kv)) d)
      = None /\
      out_of_range d "amount" (fun x => at_most x 0) 1000 = Ok false /\
      out_of_range d "leverage" (fun x => below x 1) 125 = Ok false /\
      out_of_range d "base_usdt_amount" (fun x => at_most x 0) 10000 = Ok false /\
      let s1 := with_trading_config s (update (trading_config s) d) in
      let s2 := snd (load_bot_config now s1) in
      fst (load_bot_config now s1) = bot_config /\
      (c1 <- copy_key d "test_mode" bot_config ;;
       c2 <- copy_key d "leverage" c1 ;;
       c3 <- copy_key d "timeframe" c2 ;;
       copy_key d "base_usdt_amount" c3) = Ok bot_config' /\
      out = (let '(saved, written, s3) := save_bot_config now bot_config' s2 in
             if saved
             then ({| status := 200; success := true; msg := ConfigSaved;
                      config := Some written |}, s3)
             else (failure SaveFailed, s3))).
Proof.
  unfold update_config, update_config_body. cbv zeta.
  destruct (truthy data); cbn [negb];
    [| left; cbn; repeat split; discriminate].
  destruct (iter data) as [keys|] eqn:Hiter;
    [| right; left; reflexivity].
  destruct (find _ keys) as [key|] eqn:Hfind;
    [left; cbn; repeat split; discriminate |].
  destruct data as [| b0 | q | | n | s0 | l | d];
    try (right; left; reflexivity).
  cbn [iter] in Hiter. injection Hiter as <-.
  destruct (out_of_range d "amount" _ 1000) as [[|]|] eqn:Ha;
    [left; cbn; repeat split; discriminate | | right; left; reflexivity].
  destruct (out_of_range d "leverage" _ 125) as [[|]|] eqn:Hl;
    [left; cbn; repeat split; discriminate | | right; left; reflexivity].
  destruct (out_of_range d "base_usdt_amount" _ 10000) as [[|]|] eqn:Hb;
    [left; cbn; repeat split; discriminate | | right; left; reflexivity].
  destruct (load_bot_config now _) as [bot_config s2] eqn:Hload.
  cbn [fst snd].
  destruct (c1 <- copy_key d "test_mode" bot_config ;; _) as [bot_config'|]
    eqn:Hcopy; [| right; left; reflexivity].
  right. right. exists d, bot_config, bot_config'.
  split; [reflexivity |]. split; [exact Hfind |].
  split; [exact Ha |]. split; [exact Hl |]. split; [exact Hb |].
  rewrite Hload. cbn [fst snd].
  split; [reflexivity |]. split; [exact Hcopy |].
  destruct (save_bot_config now bot_config' s2) as [[saved written] s3].
  destruct saved; reflexivity.
Qed.

(** X25: A request answered with 400 has changed nothing: neither the
    configuration in memory nor the file. *)
Theorem rejected_update_changes_nothing
        (now : string) (data : jval) (s : state) :
  status (fst (update_config now data s)) = 400%Z ->
  snd (update_config now data s) = s.
Proof.
  intros Hstatus.
  destruct (update_config_cases now data s)
    as [(_ & Hs & _) | [Hfail | (d & c & c' & _ & _ & _ & _ & _ & Hout)]].
  - exact Hs.
  - rewrite Hfail in Hstatus. discriminate Hstatus.
  - cbv zeta in Hout. destruct Hout as (_ & _ & Hout).
    rewrite Hout in Hstatus.
    destruct (save_bot_config now c' _) as [[[|] written] s3];
      discriminate Hstatus.
Qed.

Lemma find_invalid_none (d : list (string * jval)) :
  find (fun key => negb (is_valid_key key)) (map (fun kv => JStr (fst kv)) d)
  = None ->
  Forall (fun kv => In (fst kv) valid_keys) d.
Proof.
  intros H. apply Forall_forall. intros [k v] Hin.
  assert (Hk : In (JStr k) (map (fun kv => JStr (fst kv)) d))
    by (apply in_map_iff; exists (k, v); split; [reflexivity | exact Hin]).
  pose proof (find_none _ _ H _ Hk) as Hvalid.
  apply negb_false_iff in Hvalid. cbn [is_valid_key] in Hvalid.
  apply existsb_exists in Hvalid as (k' & Hin' & Heq).
  apply String.eqb_eq in Heq. subst k'. exact Hin'.
Qed.

(** What a successful save has written. *)
Lemma save_bot_config_true (now : string) (c written : jval) (s s3 : state) :
  save_bot_config now c s = (true, written, s3) ->
  exists b,
    c = JDict b /\ writable s = true /\
    written = JDict (set_item b "last_updated" (JStr now)) /\
    s3 = with_bot_config_file s (Holds written).
Proof.
  unfold save_bot_config. destruct c as [| | | | | | |b]; try discriminate.
  destruct (writable s); [| discriminate].
  intros H. injection H as <- <-. exists b. repeat split.
Qed.

(** A failed save leaves the state as it was. *)
Lemma save_bot_config_false (now : string) (c written : jval) (s s3 : state) :
  save_bot_config now c s = (false, written, s3) -> s3 = s.
Proof.
  unfold save_bot_config. destruct c as [| | | | | | |b];
    try (intros H; injection H as _ <-; reflexivity).
  destruct (writable s); [discriminate |].
  intros H; injection H as _ <-; reflexivity.
Qed.

(** X26: The answer 200 means this much and no more: the request was a
    dict of configuration keys only, and each of ['amount'], ['leverage']
    and ['base_usdt_amount'] it carries is a number (or a bool) that is
    within its range or is NaN, on which every comparison of the checks is
    False; an infinity, a string or a null there is never answered with
    200.  The file now holds the dict that is sent back, stamped with the
    time of the save and carrying the four persisted keys of the request,
    and [trading_config] reads every item of the request. *)
Theorem saved_config_is_validated
        (now : string) (data : jval) (s : state) :
  status (fst (update_config now data s)) = 200%Z ->
  exists d b,
    data = JDict d /\ writable s = true /\
    Forall (fun kv => In (fst kv) valid_keys) d /\
    (forall v, lookup "amount" d = Some v ->
               exists x, number v = Ok x /\
                         (x = NotANumber \/
                          exists q, x = Finite q /\ 0 < q /\ q <= 1000)) /\
    (forall v, lookup "leverage" d = Some v ->
               exists x, number v = Ok x /\
                         (x = NotANumber \/
                          exists q, x = Finite q /\ 1 <= q /\ q <= 125)) /\
    (forall v, lookup "base_usdt_amount" d = Some v ->
               exists x, number v = Ok x /\
                         (x = NotANumber \/
                          exists q, x = Finite q /\ 0 < q /\ q <= 10000)) /\
    config (fst (update_config now data s)) = Some (JDict b) /\
    bot_config_file (snd (update_config now data s)) = Holds (JDict b) /\
    lookup "last_updated" b = Some (JStr now) /\
    (forall k v, In k persisted_keys -> lookup k d = Some v ->
                 lookup k b = Some v) /\
    (forall k v, lookup k d = Some v ->
                 lookup k (trading_config (snd (update_config now data s)))
                 = Some v).
Proof.
  intros Hstatus.
  destruct (update_config_cases now data s)
    as [(H400 & _) | [Hfail | (d & c & c' & -> & Hkeys & Ha & Hl & Hb & Hout)]].
  - rewrite H400 in Hstatus. discriminate Hstatus.
  - rewrite Hfail in Hstatus. discriminate Hstatus.
  - cbv zeta in Hout. destruct Hout as (Hload & Hcopy & Hout).
    set (s1 := with_trading_config s (update (trading_config s) d)) in *.
    destruct (load_bot_config_writable now s1) as (Hw & Htc).
    destruct (save_bot_config now c' (snd (load_bot_config now s1)))
      as [[saved written] s3] eqn:Hsave.
    rewrite Hout in *. clear Hout.
    destruct saved; [| discriminate Hstatus].
    apply save_bot_config_true in Hsave as (b' & -> & Hwritable & -> & ->).
    destruct (copy_keys_other _ _ Hcopy) as [(b0 & Hc & Hb') | (Hnot & Hsame)].
    2: { exfalso. apply (Hnot b'). symmetry. exact Hsame. }
    injection Hb' as ->.
    exists d, (set_item (assign_keys persisted_keys b0 d)
                        "last_updated" (JStr now)).
    cbn [fst snd config bot_config_file with_bot_config_file trading_config].
    split; [reflexivity |].
    split; [rewrite Hw in Hwritable; exact Hwritable |].
    split; [apply find_invalid_none; exact Hkeys |].
    split.
    { intros v Hv.
      destruct (out_of_range_false _ _ _ _ Ha Hv) as (x & Hx & Hlow & Hhi).
      exists x. split; [exact Hx |]. apply between_strict; assumption. }
    split.
    { intros v Hv.
      destruct (out_of_range_false _ _ _ _ Hl Hv) as (x & Hx & Hlow & Hhi).
      exists x. split; [exact Hx |]. apply between; assumption. }
    split.
    { intros v Hv.
      destruct (out_of_range_false _ _ _ _ Hb Hv) as (x & Hx & Hlow & Hhi).
      exists x. split; [exact Hx |]. apply between_strict; assumption. }
    split; [reflexivity |]. split; [reflexivity |].
    split; [apply lookup_set_same |].
    split.
    { intros k v Hin Hv.
      assert (Hne : k <> "last_updated")
        by (intros ->; cbn in Hin; intuition discriminate).
      rewrite lookup_set_other by exact Hne.
      rewrite lookup_assign_keys, Hv.
      assert (Hex : existsb (String.eqb k) persisted_keys = true).
      { apply existsb_exists. exists k. split; [exact Hin |].
        apply String.eqb_refl. }
      rewrite Hex. reflexivity. }
    intros k v Hv. rewrite Htc. unfold s1. cbn [trading_config with_trading_config].
    rewrite update_lookup, Hv. reflexivity.
Qed.

(** Loading either leaves the file alone or, when it was missing and can
    be written, creates it with the defaults it returns. *)
Lemma load_bot_config_file (now : string) (s : state) :
  snd (load_bot_config now s) = s \/
  (bot_config_file s = Missing /\ writable s = true /\
   exists b, fst (load_bot_config now s) = JDict b).
Proof.
  unfold load_bot_config, save_bot_config.
  destruct (bot_config_file s) eqn:Hfile; [| left; reflexivity ..].
  destruct (writable s) eqn:Hw; [| left; reflexivity].
  right. split; [reflexivity |]. split; [reflexivity |].
  eexists. reflexivity.
Qed.

(** X27: The handler is not atomic: when it answers that saving failed, the
    file is as it was, yet [trading_config] already holds every item of
    the request. *)
Theorem failed_save_keeps_memory_update
        (now : string) (data : jval) (s : state) :
  msg (fst (update_config now data s)) = SaveFailed ->
  exists d,
    data = JDict d /\
    status (fst (update_config now data s)) = 500%Z /\
    bot_config_file (snd (update_config now data s)) = bot_config_file s /\
    trading_config (snd (update_config now data s))
    = update (trading_config s) d /\
    (forall k v, lookup k d = Some v ->
                 lookup k (trading_config (snd (update_config now data s)))
                 = Some v).
Proof.
  intros Hmsg.
  destruct (update_config_cases now data s)
    as [(_ & _ & _ & Hnot) | [Hfail | (d & c & c' & -> & _ & _ & _ & _ & Hout)]].
  - contradiction.
  - rewrite Hfail in Hmsg. discriminate Hmsg.
  - cbv zeta in Hout. destruct Hout as (Hload & Hcopy & Hout).
    set (s1 := with_trading_config s (update (trading_config s) d)) in *.
    destruct (save_bot_config now c' (snd (load_bot_config now s1)))
      as [[saved written] s3] eqn:Hsave.
    rewrite Hout in *. clear Hout.
    destruct saved; [discriminate Hmsg |].
    assert (Hs2 : snd (load_bot_config now s1) = s1).
    { destruct (load_bot_config_file now s1) as [H | (_ & Hw & b0 & Hb0)];
        [exact H |].
      exfalso. rewrite Hb0 in Hload. subst c.
      rewrite copy_keys_dict in Hcopy. injection Hcopy as <-.
      destruct (load_bot_config_writable now s1) as (Hw2 & _).
      unfold save_bot_config in Hsave. rewrite Hw2, Hw in Hsave.
      discriminate Hsave. }
    apply save_bot_config_false in Hsave. subst s3.
    exists d. cbn [fst snd status failure].
    rewrite Hs2. unfold s1.
    cbn [bot_config_file trading_config with_trading_config].
    split; [reflexivity |]. split; [reflexivity |]. split; [reflexivity |].
    split; [reflexivity |].
    intros k v Hv. rewrite update_lookup, Hv. reflexivity.
Qed.

Lemma lookup_default_config (now k : string) :
  ~ In k ("last_updated" :: persisted_keys) ->
  lookup k (set_item (default_config now) "last_updated" (JStr now))
  = None /\
  lookup k fallback_config = None.
Proof.
  intros Hnot. cbn [In persisted_keys] in Hnot.
  cbn [default_config fallback_config set_item lookup
       String.eqb Ascii.eqb Bool.eqb andb].
  destruct (String.eqb_spec k "test_mode") as [-> | _];
    [contradiction Hnot; auto 6 |].
  destruct (String.eqb_spec k "leverage") as [-> | _];
    [contradiction Hnot; auto 6 |].
  destruct (String.eqb_spec k "timeframe") as [-> | _];
    [contradiction Hnot; auto 6 |].
  destruct (String.eqb_spec k "base_usdt_amount") as [-> | _];
    [contradiction Hnot; auto 6 |].
  destruct (String.eqb_spec k "last_updated") as [-> | _];
    [contradiction Hnot; auto 6 |].
  split; reflexivity.
Qed.

(** X28: Only four keys of a request reach the file: in the configuration
    that is saved and sent back, every key other than those four and the
    stamp reads as it did in the file before (or is absent, when there was
    no readable file).  ['amount'] and ['symbol'] are validated, put into
    [trading_config], and never written. *)
Theorem only_four_keys_are_persisted
        (now : string) (data : jval) (s : state)
        (b : list (string * jval)) :
  config (fst (update_config now data s)) = Some (JDict b) ->
  forall k,
    ~ In k ("last_updated" :: persisted_keys) ->
    lookup k b
    = match bot_config_file s with
      | Holds (JDict b0) => lookup k b0
      | _ => None
      end.
Proof.
  intros Hconfig k Hnot.
  destruct (update_config_cases now data s)
    as [(_ & _ & Hnone & _) | [Hfail | (d & c & c' & -> & _ & _ & _ & _ & Hout)]].
  - rewrite Hnone in Hconfig. discriminate Hconfig.
  - rewrite Hfail in Hconfig. discriminate Hconfig.
  - cbv zeta in Hout. destruct Hout as (Hload & Hcopy & Hout).
    set (s1 := with_trading_config s (update (trading_config s) d)) in *.
    destruct (save_bot_config now c' (snd (load_bot_config now s1)))
      as [[saved written] s3] eqn:Hsave.
    rewrite Hout in *. clear Hout.
    destruct saved; [| discriminate Hconfig].
    apply save_bot_config_true in Hsave as (b' & Hc' & _ & -> & _).
    cbn [fst config] in Hconfig. injection Hconfig as <-.
    destruct (copy_keys_other _ _ Hcopy) as [(b0 & Hc & Hb') | (Hno & Hsame)].
    2: { exfalso. apply (Hno b'). rewrite <- Hsame. exact Hc'. }
    assert (Hb : b' = assign_keys persisted_keys b0 d) by congruence.
    rewrite Hb. clear Hb Hb'.
    assert (Hne : k <> "last_updated") by (intros ->; apply Hnot; left; reflexivity).
    rewrite lookup_set_other by exact Hne.
    rewrite lookup_assign_keys.
    assert (Hex : existsb (String.eqb k) persisted_keys = false).
    { destruct (existsb (String.eqb k) persisted_keys) eqn:E; [| reflexivity].
      apply existsb_exists in E as (k' & Hin & Heq).
      apply String.eqb_eq in Heq. subst k'.
      exfalso. apply Hnot. right. exact Hin. }
    rewrite Hex.
    destruct (lookup_default_config now Hnot) as (Hdefault & Hfallback).
    rewrite Hc in Hload. clear - Hload Hdefault Hfallback.
    unfold load_bot_config, save_bot_config in Hload.
    change (bot_config_file s1) with (bot_config_file s) in Hload.
    change (writable s1) with (writable s) in Hload.
    destruct (bot_config_file s) as [| document |].
    + destruct (writable s); cbn [fst] in Hload; injection Hload as <-;
        exact Hdefault.
    + cbn [fst] in Hload. subst document. reflexivity.
    + cbn [fst] in Hload. injection Hload as <-. exact Hfallback.
Qed.

(** X29: What [save_bot_config] writes is what [load_bot_config] returns
    afterwards: the dict it was given, stamped with the time of the save,
    every other key as it was. *)
Theorem bot_config_round_trip
        (now later : string) (d : list (string * jval)) (s : state) :
  writable s = true ->
  exists b s',
    save_bot_config now (JDict d) s = (true, JDict b, s') /\
    load_bot_config later s' = (JDict b, s') /\
    lookup "last_updated" b = Some (JStr now) /\
    (forall k, k <> "last_updated" -> lookup k b = lookup k d) /\
    trading_config s' = trading_config s.
Proof.
  intros Hw. unfold save_bot_config. rewrite Hw.
  eexists. eexists. split; [reflexivity |].
  split; [reflexivity |].
  split; [apply lookup_set_same |].
  split; [| reflexivity].
  intros k Hk. apply lookup_set_other. exact Hk.
Qed.

(** X30: Without a readable file [load_bot_config] answers with the safe
    defaults, test mode on; it writes them only when the file is missing
    and never over a file it could not read. *)
Theorem load_bot_config_safe_defaults (now : string) (s : state) :
  (forall document, bot_config_file s <> Holds document) ->
  exists b,
    fst (load_bot_config now s) = JDict b /\
    lookup "test_mode" b = Some (JBool true) /\
    lookup "leverage" b = Some (JNum 10) /\
    lookup "timeframe" b = Some (JStr "15m") /\
    lookup "base_usdt_amount" b = Some (JNum 100) /\
    (bot_config_file s = Unreadable \/ writable s = false ->
     snd (load_bot_config now s) = s) /\
    (bot_config_file s = Missing -> writable s = true ->
     bot_config_file (snd (load_bot_config now s)) = Holds (JDict b) /\
     lookup "last_updated" b = Some (JStr now)).
Proof.
  intros Hfile. unfold load_bot_config, save_bot_config.
  destruct (bot_config_file s) as [| document |].
  - destruct (writable s); eexists; cbn [fst snd];
      (split; [reflexivity |]); do 4 (split; [reflexivity |]).
    + split; [intros [H | H]; discriminate H |].
      intros _ _. split; reflexivity.
    + split; [intros _; reflexivity |].
      intros _ H. discriminate H.
  - contradiction (Hfile document). reflexivity.
  - eexists. cbn [fst snd].
    split; [reflexivity |]. do 4 (split; [reflexivity |]).
    split; [intros _; reflexivity |].
    intros H. discriminate H.
Qed.

Lemma rejected_update_changes_nothing_witness :
  status (fst (update_config "2025-02-01T00:00:00" WebSample.zero_amount
                             WebSample.fresh))
  = 400%Z /\
  snd (update_config "2025-02-01T00:00:00" WebSample.zero_amount
                     WebSample.fresh)
  = WebSample.fresh.
Proof.
  split; [reflexivity |].
  apply rejected_update_changes_nothing. reflexivity.
Defined.

Lemma saved_config_is_validated_witness :
  (exists b,
      config (fst (update_config "2025-02-01T00:00:00" WebSample.raise_leverage
                                 WebSample.fresh))
      = Some (JDict b) /\
      lookup "leverage" b = Some (JNum 20) /\
      lookup "last_updated" b = Some (JStr "2025-02-01T00:00:00") /\
      lookup "amount"
             (trading_config
                (snd (update_config "2025-02-01T00:00:00"
                                    WebSample.raise_leverage WebSample.fresh)))
      = Some (JNum 0.5) /\
      exists q, number (JNum 20) = Ok (Finite q) /\ 1 <= q /\ q <= 125) /\
  (exists b,
      bot_config_file (snd (update_config "2025-02-01T00:00:00"
                                          WebSample.nan_leverage
                                          WebSample.fresh))
      = Holds (JDict b) /\
      lookup "leverage" b = Some JNaN /\
      number JNaN = Ok NotANumber).
Proof.
  split.
  - destruct (@saved_config_is_validated "2025-02-01T00:00:00"
                WebSample.raise_leverage WebSample.fresh eq_refl)
      as (d & b & Hd & _ & _ & _ & Hlev & _ & Hconfig & _ & Hstamp & Hkeys & Hmem).
    injection Hd as <-.
    exists b. split; [exact Hconfig |].
    split; [apply Hkeys; [right; left; reflexivity | reflexivity] |].
    split; [exact Hstamp |].
    split; [apply Hmem; reflexivity |].
    destruct (Hlev (JNum 20) eq_refl) as (x & Hx & [Hnan | (q & Hq & Hrange)]).
    + subst x. discriminate Hx.
    + subst x. exists q. split; [exact Hx | exact Hrange].
  - destruct (@saved_config_is_validated "2025-02-01T00:00:00"
                WebSample.nan_leverage WebSample.fresh eq_refl)
      as (d & b & Hd & _ & _ & _ & Hlev & _ & _ & Hfile & _ & Hkeys & _).
    injection Hd as <-.
    exists b. split; [exact Hfile |].
    split; [apply Hkeys; [right; left; reflexivity | reflexivity] |].
    destruct (Hlev JNaN eq_refl) as (x & Hx & [Hnan | (q & Hq & _)]).
    + subst x. exact Hx.
    + subst x. discriminate Hx.
Defined.

(** The range checks let NaN through and stop an infinity: a request
    with the token [NaN] for the leverage is answered with 200 and the
    file holds NaN afterwards; one with a literal beyond the floats is
    answered with 400. *)
Lemma nan_passes_the_range_checks :
  status (fst (update_config "2025-02-01T00:00:00" WebSample.nan_leverage
                             WebSample.fresh)) = 200%Z /\
  lookup "leverage"
         (trading_config
            (snd (update_config "2025-02-01T00:00:00" WebSample.nan_leverage
                                WebSample.fresh)))
  = Some JNaN /\
  fst (update_config "2025-02-01T00:00:00" WebSample.huge_leverage
                     WebSample.fresh)
  = reject LeverageOutOfRange.
Proof. repeat split. Qed.

Lemma failed_save_keeps_memory_update_witness :
  lookup "leverage"
            (trading_config
               (snd (update_config "2025-02-01T00:00:00"
                                   WebSample.raise_leverage WebSample.read_only)))
  = Some (JNum 20) /\
  bot_config_file (snd (update_config "2025-02-01T00:00:00"
                                      WebSample.raise_leverage
                                      WebSample.read_only))
  = Holds (JDict WebSample.stored).
Proof.
  destruct (@failed_save_keeps_memory_update "2025-02-01T00:00:00"
              WebSample.raise_leverage WebSample.read_only eq_refl)
    as (d & Hd & _ & Hfile & _ & Hmem).
  injection Hd as <-.
  split; [apply Hmem; reflexivity | exact Hfile].
Defined.

Lemma only_four_keys_are_persisted_witness :
  exists b,
    config (fst (update_config "2025-02-01T00:00:00" WebSample.raise_leverage
                               WebSample.fresh))
    = Some (JDict b) /\
    lookup "amount" b = None.
Proof.
  eexists. split; [reflexivity |].
  apply (@only_four_keys_are_persisted "2025-02-01T00:00:00"
           WebSample.raise_leverage WebSample.fresh _ eq_refl "amount").
  intros [H | [H | [H | [H | [H | []]]]]]; discriminate H.
Defined.

Lemma bot_config_round_trip_witness :
  exists b s',
    save_bot_config "2025-02-01T00:00:00" (JDict WebSample.stored)
                    WebSample.fresh
    = (true, JDict b, s') /\
    load_bot_config "2025-03-01T00:00:00" s' = (JDict b, s') /\
    lookup "last_updated" b = Some (JStr "2025-02-01T00:00:00") /\
    lookup "note" b = Some (JStr "keep").
Proof.
  destruct (@bot_config_round_trip "2025-02-01T00:00:00" "2025-03-01T00:00:00"
              WebSample.stored WebSample.fresh eq_refl)
    as (b & s' & Hsave & Hload & Hstamp & Hkeys & _).
  exists b, s'. split; [exact Hsave |]. split; [exact Hload |].
  split; [exact Hstamp |].
  rewrite Hkeys; [reflexivity | discriminate].
Defined.

Lemma load_bot_config_safe_defaults_witness :
  exists b,
    fst (load_bot_config "2025-02-01T00:00:00" WebSample.fresh) = JDict b /\
    lookup "test_mode" b = Some (JBool true) /\
    bot_config_file (snd (load_bot_config "2025-02-01T00:00:00" WebSample.fresh))
    = Holds (JDict b).
Proof.
  destruct (@load_bot_config_safe_defaults "2025-02-01T00:00:00" WebSample.fresh)
    as (b & Hb & Hmode & _ & _ & _ & _ & Hfile).
  - intros document H. discriminate H.
  - exists b. split; [exact Hb |]. split; [exact Hmode |].
    apply Hfile; reflexivity.
Defined.

End Configuration.
